(** * sitemap-gen: a shallow embedding of the crawler and its sitemap emitter

    The development follows the Python sources [utils.py], [conf.py] and
    [sitemap_obj.py].

    - Python [str] values are [string]s (sequences of code points below
      256), Python [int]s are [Z], an exception is the [Raise] case of
      [result].
    - Code with effects is a function of the state it works on: the
      walker with its collections and the requests it has sent, or the
      file system.
    - The network is a function from the request and the number of
      requests sent before to the response, if any; a response carries
      what the sources read of it.
    - The coroutines of one group run as the event loop runs them: each
      up to its first request when the group starts, and then to its end
      in an order that the loop chooses.
    - The regular expressions are syntax trees of the patterns, matched
      by derivatives; [urlparse], [strptime] and [zip_longest] are
      modelled after the library. *)

From Stdlib Require Import String Ascii List ZArith Bool Lia Arith PeanoNat.
From Stdlib Require Import Permutation.
Import ListNotations.
Local Open Scope list_scope.
Local Open Scope string_scope.

Set Implicit Arguments.
Set Warnings "-register-all".

(* ================================================================== *)
(** ** Python strings *)

Module PyStr.

Definition code (c : ascii) : N := N_of_ascii c.

Definition in_range (lo hi c : ascii) : bool :=
  (code lo <=? code c)%N && (code c <=? code hi)%N.

Definition is_upper (c : ascii) : bool := in_range "A" "Z" c.
Definition is_lower (c : ascii) : bool := in_range "a" "z" c.
Definition is_alpha (c : ascii) : bool := is_upper c || is_lower c.
Definition is_digit (c : ascii) : bool := in_range "0" "9" c.

(** [str.isspace] on one character, for code points below 256:
    TAB..CR, FS..US, SPACE, NEL and NBSP. *)
Definition is_space (c : ascii) : bool :=
  let n := code c in
  ((9 <=? n) && (n <=? 13) || (28 <=? n) && (n <=? 32)
   || (n =? 133) || (n =? 160))%N.

(** [c.lower()] on the letters A-Z; the sources and the library lower
    schemes, header names and the letters of patterns, all of them
    ASCII. *)
Definition lower_char (c : ascii) : ascii :=
  if is_upper c then ascii_of_N (code c + 32) else c.

Fixpoint lower (s : string) : string :=
  match s with
  | EmptyString => EmptyString
  | String c s' => String (lower_char c) (lower s')
  end.

(** [s.startswith(p)] *)
Fixpoint startswith (p s : string) : bool :=
  match p, s with
  | EmptyString, _ => true
  | String a p', String b s' => Ascii.eqb a b && startswith p' s'
  | String _ _, EmptyString => false
  end.

(** [s[-1]]: [None] stands for the [IndexError] of the empty string. *)
Fixpoint last_char (s : string) : option ascii :=
  match s with
  | EmptyString => None
  | String c EmptyString => Some c
  | String _ s' => last_char s'
  end.

(** [s[:-1]] *)
Fixpoint drop_last (s : string) : string :=
  match s with
  | EmptyString => EmptyString
  | String _ EmptyString => EmptyString
  | String c s' => String c (drop_last s')
  end.

(** [s.split(sep)[0]] for a one-character separator: the part of [s]
    before the first [sep], all of [s] when there is none. *)
Fixpoint before_first (sep : ascii) (s : string) : string :=
  match s with
  | EmptyString => EmptyString
  | String c s' =>
      if Ascii.eqb c sep then EmptyString else String c (before_first sep s')
  end.

(** The part of [s] from its first [sep] on ([s[s.find(sep):]]), [None]
    when [sep] does not occur. *)
Fixpoint from_first (sep : ascii) (s : string) : option string :=
  match s with
  | EmptyString => None
  | String c s' =>
      if Ascii.eqb c sep then Some s else from_first sep s'
  end.

(** [s.split(sep)[-1]]: the part of [s] after the last [sep]. *)
Fixpoint after_last (sep : ascii) (s : string) : string :=
  match s with
  | EmptyString => EmptyString
  | String c s' =>
      match from_first sep s' with
      | Some _ => after_last sep s'
      | None => if Ascii.eqb c sep then s' else s
      end
  end.

(** [c in s] for a character. *)
Fixpoint mem_char (c : ascii) (s : string) : bool :=
  match s with
  | EmptyString => false
  | String d s' => Ascii.eqb c d || mem_char c s'
  end.

(** [all(pred(c) for c in s)] *)
Fixpoint all_chars (p : ascii -> bool) (s : string) : bool :=
  match s with
  | EmptyString => true
  | String c s' => p c && all_chars p s'
  end.

(** [not s or not s.strip()] *)
Definition is_blank (s : string) : bool := all_chars is_space s.

(** Truth value of a string: [bool(s)]. *)
Definition truthy (s : string) : bool :=
  match s with EmptyString => false | _ => true end.

(** [x in l] for a list of strings. *)
Definition mem (x : string) (l : list string) : bool :=
  existsb (String.eqb x) l.

(** ["%d" % n] for a natural number. *)
Definition digit_char (n : nat) : ascii := ascii_of_nat (48 + n).

Fixpoint decimal_fuel (fuel n : nat) (acc : string) : string :=
  match fuel with
  | O => acc
  | S fuel' =>
      let acc' := String (digit_char (n mod 10)) acc in
      match n / 10 with
      | O => acc'
      | q => decimal_fuel fuel' q acc'
      end
  end.

Definition decimal (n : nat) : string := decimal_fuel (S n) n "".

(** ["%d" % z] for an integer. *)
Definition decimal_Z (z : Z) : string :=
  match z with
  | Z0 => "0"
  | Zpos p => decimal (Pos.to_nat p)
  | Zneg p => "-" ++ decimal (Pos.to_nat p)
  end.

End PyStr.

(* ================================================================== *)
(** ** Results of calls that may raise *)

Inductive exn : Type :=
| SitemapObjError (value : string)
| ValueError (msg : string)
| IndexError (msg : string)
| AttributeError (msg : string)
| FileNotFoundError (path : string).

Inductive result (A : Type) : Type :=
| Ok (a : A)
| Raise (e : exn).
Arguments Ok {A} a.
Arguments Raise {A} e.

(* ================================================================== *)
(** ** The fragment of [re] used by the sources

    [re.compile(p).match(s)] looks for a match of [p] that starts at the
    first character of [s]; only whether one exists is used by the
    sources, so a matcher by derivatives decides it.  The anchors [^] and
    [$] look at the position: [^] holds at the start of the string, [$]
    at its end and just before a newline that ends it. *)

Module Regex.

Inductive regex : Type :=
| Void                                   (* no string *)
| Eps                                    (* the empty string *)
| Class (p : ascii -> bool)              (* one character of a class *)
| Cat (r1 r2 : regex)
| Alt (r1 r2 : regex)
| Rep (r : regex) (lo : nat) (hi : option nat)  (* r{lo,hi}; r{lo,} *)
| Bol                                    (* ^ *)
| Eol.                                   (* $ *)

Definition Opt (r : regex) : regex := Rep r 0 (Some 1).
Definition Plus (r : regex) : regex := Rep r 1 None.

(** A literal, compared exactly. *)
Fixpoint Lit (s : string) : regex :=
  match s with
  | EmptyString => Eps
  | String c s' => Cat (Class (Ascii.eqb c)) (Lit s')
  end.

(** A literal under [re.IGNORECASE]. *)
Fixpoint LitI (s : string) : regex :=
  match s with
  | EmptyString => Eps
  | String c s' =>
      Cat (Class (fun x => Ascii.eqb (PyStr.lower_char x) (PyStr.lower_char c)))
          (LitI s')
  end.

Fixpoint Seq (rs : list regex) : regex :=
  match rs with
  | [] => Eps
  | [r] => r
  | r :: rs' => Cat r (Seq rs')
  end.

(** Position of the matcher in the subject string. *)
Record pos : Type := { at_bol : bool; at_eol : bool }.

(** Can [r] match the empty string at a position? *)
Fixpoint nullable (p : pos) (r : regex) : bool :=
  match r with
  | Void => false
  | Eps => true
  | Class _ => false
  | Cat r1 r2 => nullable p r1 && nullable p r2
  | Alt r1 r2 => nullable p r1 || nullable p r2
  | Rep r lo _ => match lo with O => true | S _ => nullable p r end
  | Bol => at_bol p
  | Eol => at_eol p
  end.

Definition cat (r1 r2 : regex) : regex :=
  match r1, r2 with
  | Void, _ => Void
  | _, Void => Void
  | Eps, _ => r2
  | _, _ => Cat r1 r2
  end.

Definition alt (r1 r2 : regex) : regex :=
  match r1, r2 with
  | Void, _ => r2
  | _, Void => r1
  | _, _ => Alt r1 r2
  end.

(** What is left of [r] after reading [c] at position [p]. *)
Fixpoint deriv (p : pos) (c : ascii) (r : regex) : regex :=
  match r with
  | Void | Eps | Bol | Eol => Void
  | Class f => if f c then Eps else Void
  | Cat r1 r2 =>
      alt (cat (deriv p c r1) r2)
          (if nullable p r1 then deriv p c r2 else Void)
  | Alt r1 r2 => alt (deriv p c r1) (deriv p c r2)
  | Rep r lo hi =>
      match hi with
      | Some O => Void
      | Some (S h) => cat (deriv p c r) (Rep r (Nat.pred lo) (Some h))
      | None => cat (deriv p c r) (Rep r (Nat.pred lo) None)
      end
  end.

Definition newline : ascii := ascii_of_nat 10.

Definition eol_here (s : string) : bool :=
  match s with
  | EmptyString => true
  | String c EmptyString => Ascii.eqb c newline
  | _ => false
  end.

Fixpoint match_from (bol : bool) (r : regex) (s : string) : bool :=
  let p := {| at_bol := bol; at_eol := eol_here s |} in
  nullable p r ||
  match s with
  | EmptyString => false
  | String c s' => match_from false (deriv p c r) s'
  end.

(** [re.compile(r).match(s) != None] *)
Definition re_match (r : regex) (s : string) : bool := match_from true r s.

End Regex.

(* ================================================================== *)
(** ** utils.py *)

Module Utils.
Import Regex.

Definition alnum : regex :=
  Class (fun c => PyStr.is_alpha c || PyStr.is_digit c).
Definition alnum_hyphen : regex :=
  Class (fun c => PyStr.is_alpha c || PyStr.is_digit c || Ascii.eqb c "-").
Definition alpha : regex := Class PyStr.is_alpha.
Definition digit : regex := Class PyStr.is_digit.
Definition nonspace : regex := Class (fun c => negb (PyStr.is_space c)).
Definition dot : regex := Class (Ascii.eqb ".").

(** [[A-Z0-9](?:[A-Z0-9-]{0,61}[A-Z0-9])?\.] *)
Definition label_dot : regex :=
  Seq [alnum; Opt (Cat (Rep alnum_hyphen 0 (Some 61)) alnum); dot].

(** [(?:[A-Z0-9](?:[A-Z0-9-]{0,61}[A-Z0-9])?\.)+(?:[A-Z]{2,6}\.?|[A-Z0-9-]{2,}\.?)] *)
Definition domain_name : regex :=
  Cat (Plus label_dot)
      (Alt (Cat (Rep alpha 2 (Some 6)) (Opt dot))
           (Cat (Rep alnum_hyphen 2 None) (Opt dot))).

(** [\d{1,3}\.\d{1,3}\.\d{1,3}\.\d{1,3}] *)
Definition ipv4 : regex :=
  Seq [Rep digit 1 (Some 3); dot; Rep digit 1 (Some 3); dot;
       Rep digit 1 (Some 3); dot; Rep digit 1 (Some 3)].

(** The pattern of [is_url_valid], compiled with [re.IGNORECASE]. *)
Definition url_validator : regex :=
  Seq [Bol; LitI "http"; Opt (LitI "s"); LitI "://";
       Alt domain_name (Alt (LitI "localhost") ipv4);
       Opt (Cat (Lit ":") (Plus digit));
       Alt (Opt (Lit "/")) (Cat (Class (fun c => PyStr.mem_char c "/?")) (Plus nonspace));
       Eol].

Definition is_url_valid (url : string) : bool := re_match url_validator url.

End Utils.

(* ================================================================== *)
(** ** urllib.parse.urlparse

    Library code, modelled after [urlsplit] of Python 3.4 and 3.5, the
    interpreters of the [asyncio] and [aiohttp] that the sources call
    ([asyncio.async], [yield from aiohttp.request]).  Only the [scheme]
    and [netloc] fields are read by the sources. *)

Module UrlParse.

(** [bytes_result] marks the [ParseResultBytes] that [urlparse(None)]
    returns: its fields are [bytes], equal to no [str]. *)
Record ParseResult : Type :=
  { scheme : string; netloc : string; bytes_result : bool }.

(** [p.netloc == s] for a [str] [s]. *)
Definition netloc_is (p : ParseResult) (s : string) : bool :=
  negb (bytes_result p) && String.eqb (netloc p) s.

Definition scheme_chars (c : ascii) : bool :=
  PyStr.is_alpha c || PyStr.is_digit c || PyStr.mem_char c "+-.".

(** [url[:i], url[i+1:]] for [i = url.find(c)], [None] when [i = -1]. *)
Fixpoint partition (c : ascii) (url : string) : option (string * string) :=
  match url with
  | EmptyString => None
  | String d url' =>
      if Ascii.eqb d c then Some (EmptyString, url')
      else match partition c url' with
           | Some (a, b) => Some (String d a, b)
           | None => None
           end
  end.

(** [_splitnetloc(url, 2)], given [url[2:]]: the part before the first
    of the delimiters [/], [?], [#]. *)
Fixpoint splitnetloc (url : string) : string :=
  match url with
  | EmptyString => EmptyString
  | String c url' =>
      if PyStr.mem_char c "/?#" then EmptyString
      else String c (splitnetloc url')
  end.

Definition split_scheme (url : string) : string * string :=
  match partition ":" url with
  | None => ("", url)
  | Some (pre, rest) =>
      if PyStr.truthy pre then                      (* i > 0 *)
        if String.eqb pre "http" then ("http", rest)
        else if PyStr.all_chars scheme_chars pre then
          if negb (PyStr.truthy rest)
             || negb (PyStr.all_chars PyStr.is_digit rest)
          then (PyStr.lower pre, rest)
          else ("", url)
        else ("", url)
      else ("", url)
  end.

Definition urlparse (url : string) : result ParseResult :=
  let '(sch, url1) := split_scheme url in
  match url1 with
  | String "/" (String "/" url2) =>
      let nl := splitnetloc url2 in
      if (PyStr.mem_char "[" nl && negb (PyStr.mem_char "]" nl))
         || (PyStr.mem_char "]" nl && negb (PyStr.mem_char "[" nl))
      then Raise (ValueError "Invalid IPv6 URL")
      else Ok {| scheme := sch; netloc := nl; bytes_result := false |}
  | _ => Ok {| scheme := sch; netloc := ""; bytes_result := false |}
  end.

(** [urlparse(href)] for what [a.get('href')] returns: a [str] or
    [None]. *)
Definition urlparse_href (href : option string) : result ParseResult :=
  match href with
  | Some h => urlparse h
  | None => Ok {| scheme := ""; netloc := ""; bytes_result := true |}
  end.

End UrlParse.

(* ================================================================== *)
(** ** sitemap_obj.py: SitemapObj *)

(** A [datetime.datetime] value. *)
Record datetime : Type :=
  { year : Z; month : Z; day : Z; hour : Z; minute : Z; second : Z }.

(** The server's answer as the sources read it: the final URL after
    redirects, the status, the headers, and, for a page that was fetched,
    the value of [a.get('href')] for every [a] element that BeautifulSoup
    finds in its text, in document order ([None] for an anchor without the
    attribute). *)
Record Response : Type :=
  { r_url : string;
    r_status : Z;
    r_headers : list (string * string);
    r_hrefs : list (option string) }.

(** [r.headers.get(name, None)]; header names compare without case. *)
Fixpoint headers_get (name : string) (hs : list (string * string)) : option string :=
  match hs with
  | [] => None
  | (k, v) :: hs' =>
      if String.eqb (PyStr.lower k) (PyStr.lower name) then Some v
      else headers_get name hs'
  end.

Module SitemapObj.
Import UrlParse.

Record t : Type := { url : string; last_mod : option datetime }.

(** [SitemapObj(url)] *)
Definition __init__ (u : string) : t := {| url := u; last_mod := None |}.

(** The values [__eq__] may be handed. *)
Inductive pyobject : Type :=
| PyString (s : string)
| PySitemapObj (o : t)
| PyNone.

Definition isinstance_str (o : pyobject) : bool :=
  match o with PyString _ => true | _ => false end.

(** [s == other] for a [str] [s]. *)
Definition str_eq (s : string) (other : pyobject) : bool :=
  match other with PyString s' => String.eqb s s' | _ => false end.

(** [other.url] *)
Definition getattr_url (other : pyobject) : result string :=
  match other with
  | PySitemapObj o => Ok (url o)
  | PyString _ => Raise (AttributeError "'str' object has no attribute 'url'")
  | PyNone => Raise (AttributeError "'NoneType' object has no attribute 'url'")
  end.

(** [SitemapObj.__eq__] *)
Definition __eq__ (self : t) (other : pyobject) : result bool :=
  if isinstance_str other then Ok (str_eq (url self) other)
  else if isinstance_str other then
    match getattr_url other with
    | Ok u => Ok (String.eqb (url self) u)
    | Raise e => Raise e
    end
  else Raise (SitemapObjError "Uncomparable types").

(** [SitemapObj.validate_update_url] *)
Definition validate_update_url (p_url : ParseResult) (href domain netloc_ : string)
           (exclude_root : bool) : result (option string) :=
  match PyStr.last_char domain with
  | None => Raise (IndexError "string index out of range")
  | Some c =>
      let exclude_list :=
        [domain;
         if Ascii.eqb c "/" then PyStr.drop_last domain else domain ++ "/"] in
      let url :=
        if netloc_is p_url "" then Some (domain ++ href)
        else if netloc_is p_url netloc_ then Some href
        else None in
      match url with
      | None => Ok None
      | Some u =>
          if negb (PyStr.truthy u) then Ok None
          else if negb (Utils.is_url_valid u) then Ok None
          else if exclude_root && PyStr.mem u exclude_list then Ok None
          else Ok (Some (PyStr.before_first "#" u))
      end
  end.

End SitemapObj.

(* ================================================================== *)
(** ** conf.py *)

Record Conf : Type :=
  { DEPTH_LEVEL : Z;        (* sitemap search level *)
    REQUEST_RETRY : Z;      (* number of request attempts *)
    SELECTOR_LIMIT : Z;     (* limit of concurrent socket connections *)
    SITEMAP_SIZE : Z;       (* sitemap file entry limit *)
    XML_PATH : string }.    (* path to the XML directory *)

(** The values in [conf.py]. *)
Definition conf : Conf :=
  {| DEPTH_LEVEL := 3;
     REQUEST_RETRY := 3;
     SELECTOR_LIMIT := 64;
     SITEMAP_SIZE := 50000;
     XML_PATH := "xml/" |}.

(* ================================================================== *)
(** ** itertools.zip_longest over [n] references to one iterator

    The sources call [zip_longest] with the list [[iter(tasks)]] repeated
    [n] times as its arguments: the [n] arguments are one iterator, so
    every tuple takes the next [n] items, and the last one is filled with
    [None]. *)

Section ZipLongest.
Context {A : Type}.

(** One tuple: [next] on each of the [n] copies of the iterator. *)
Fixpoint next_n (n : nat) (l : list A) : list (option A) :=
  match n with
  | O => []
  | S n' =>
      match l with
      | [] => None :: next_n n' []
      | x :: l' => Some x :: next_n n' l'
      end
  end.

Fixpoint zip_longest_fuel (fuel n : nat) (l : list A) : list (list (option A)) :=
  match fuel with
  | O => []
  | S fuel' =>
      match l with
      | [] => []
      | _ :: _ => next_n n l :: zip_longest_fuel fuel' n (skipn n l)
      end
  end.

(** The tuples in order; none when [n] is [0] (no iterator given). *)
Definition zip_longest (n : nat) (l : list A) : list (list (option A)) :=
  match n with
  | O => []
  | S _ => zip_longest_fuel (length l) n l
  end.

(** [for v in s: if not v: break; ...]: the items of a tuple up to the
    first one that is [None] or false. *)
Fixpoint until_falsy (truthy : A -> bool) (s : list (option A)) : list A :=
  match s with
  | Some v :: s' => if truthy v then v :: until_falsy truthy s' else []
  | _ => []
  end.

End ZipLongest.

(* ================================================================== *)
(** ** The state of a crawl and its monad *)

(** A request that was sent: the method and the URL. *)
Definition Request : Type := (string * string)%type.

(** The attributes of the [SitemapWalker] ([domain], [netloc],
    [visited]), the two collections that [traverse_links] allocates at
    every level and hands to the coroutines by reference ([objs],
    [nextlvl]), and the requests sent so far, oldest first.  The set
    [visited] and the set [nextlvl] are lists without repetition. *)
Record state : Type :=
  { domain : string;
    netloc : string;
    visited : list SitemapObj.t;
    objs : list SitemapObj.t;
    nextlvl : list string;
    requests : list Request }.

Definition set_target (d n : string) (st : state) : state :=
  {| domain := d; netloc := n; visited := visited st; objs := objs st;
     nextlvl := nextlvl st; requests := requests st |}.
Definition set_visited (v : list SitemapObj.t) (st : state) : state :=
  {| domain := domain st; netloc := netloc st; visited := v; objs := objs st;
     nextlvl := nextlvl st; requests := requests st |}.
Definition set_objs (o : list SitemapObj.t) (st : state) : state :=
  {| domain := domain st; netloc := netloc st; visited := visited st; objs := o;
     nextlvl := nextlvl st; requests := requests st |}.
Definition set_nextlvl (n : list string) (st : state) : state :=
  {| domain := domain st; netloc := netloc st; visited := visited st;
     objs := objs st; nextlvl := n; requests := requests st |}.
Definition set_requests (r : list Request) (st : state) : state :=
  {| domain := domain st; netloc := netloc st; visited := visited st;
     objs := objs st; nextlvl := nextlvl st; requests := r |}.

(** [SitemapWalker(domain, netloc)] *)
Definition walker_init (d n : string) : state :=
  {| domain := d; netloc := n; visited := []; objs := []; nextlvl := [];
     requests := [] |}.

(** Code with effects on a state [S] that may raise; the state is kept
    when it does. *)
Definition M (S A : Type) : Type := S -> result A * S.

Definition ret {S A} (a : A) : M S A := fun st => (Ok a, st).
Definition raise {S A} (e : exn) : M S A := fun st => (Raise e, st).
Definition bind {S A B} (m : M S A) (k : A -> M S B) : M S B :=
  fun st =>
    match m st with
    | (Ok a, st') => k a st'
    | (Raise e, st') => (Raise e, st')
    end.
Definition lift {S A} (r : result A) : M S A := fun st => (r, st).
Definition get {S} : M S S := fun st => (Ok st, st).
Definition modify {S} (f : S -> S) : M S unit := fun st => (Ok tt, f st).

Declare Scope monad_scope.
Delimit Scope monad_scope with monad.
Notation "x <- m ;; k" := (bind m (fun x => k))
  (at level 61, m at next level, right associativity) : monad_scope.
Notation "m ;;; k" := (bind m (fun _ => k))
  (at level 61, right associativity) : monad_scope.
Local Open Scope monad_scope.

Definition Crawl (A : Type) : Type := M state A.

(** [url in self.__visited] for a [str]: the elements hash by their url
    and [__eq__] compares it with the string. *)
Definition in_visited (u : string) (v : list SitemapObj.t) : bool :=
  existsb (fun o => String.eqb (SitemapObj.url o) u) v.

(** [self.__visited.add(obj)] for a new object [obj]: an element with
    the same hash, that of its url, is compared with [obj] by [__eq__],
    which raises for two [SitemapObj]. *)
Definition visited_add (obj : SitemapObj.t) : Crawl unit :=
  fun st =>
    if in_visited (SitemapObj.url obj) (visited st)
    then (Raise (SitemapObjError "Uncomparable types"), st)
    else (Ok tt, set_visited (visited st ++ [obj])%list st).

(** [nextlvl.add(url)] *)
Definition nextlvl_add (u : string) : Crawl unit :=
  modify (fun st =>
            if PyStr.mem u (nextlvl st) then st
            else set_nextlvl (nextlvl st ++ [u])%list st).

(** [objs.append(obj)] *)
Definition objs_append (obj : SitemapObj.t) : Crawl unit :=
  modify (fun st => set_objs (objs st ++ [obj])%list st).

(* ================================================================== *)
(** ** The batch executor *)

Section Executor.

(** The state the coroutines work on. *)
Variable S : Type.

Variable cfg : Conf.

(** What the sources leave to the runtime: the order in which a set
    hands out its elements, and the order in which the event loop
    resumes the suspended tasks of one group. *)
Variable order : forall A : Type, list A -> list A.

(** A coroutine runs up to its first suspension when the event loop
    starts its task; what is left of it runs when the loop resumes it.
    The requests are the only suspensions of the coroutines of the
    sources, and between the attempts of one [__do_request] nothing of
    the walker is read or written, so one resumption stands for them
    all. *)
Definition Task : Type := M S unit.
Definition Coro : Type := M S (option Task).

(** The first steps of the tasks of a group, in the order of their
    creation: the tasks that suspended. *)
Fixpoint start_tasks (coros : list Coro) : M S (list Task) :=
  match coros with
  | [] => ret []
  | c :: coros' =>
      fun st =>
        match c st with
        | (Ok (Some t), st') =>
            (ts <- start_tasks coros' ;; ret (t :: ts)%list) st'
        | (_, st') => start_tasks coros' st'
        end
  end.

(** Resuming tasks to their end; an exception ends its task only. *)
Fixpoint resume_tasks (ts : list Task) : M S unit :=
  match ts with
  | [] => ret tt
  | t :: ts' => fun st => resume_tasks ts' (snd (t st))
  end.

(** One turn of the loop of [__group_execute_tasks]: a new event loop,
    a task for each item of the tuple up to the first false one, and
    [loop.run_until_complete(asyncio.wait(aiotasks))]; [asyncio.wait]
    raises for no task. *)
Definition run_group {A : Type} (truthy : A -> bool) (handler : A -> Coro)
           (s : list (option A)) : M S unit :=
  match until_falsy truthy s with
  | [] => raise (ValueError "Set of coroutines/Futures is empty.")
  | aiotasks =>
      suspended <- start_tasks (map handler aiotasks) ;;
      resume_tasks (order suspended)
  end.

Fixpoint run_groups {A : Type} (truthy : A -> bool) (handler : A -> Coro)
         (subtasks : list (list (option A))) : M S unit :=
  match subtasks with
  | [] => ret tt
  | s :: subtasks' =>
      run_group truthy handler s ;;; run_groups truthy handler subtasks'
  end.

(** [SitemapWalker.__group_execute_tasks]; [truthy] is the truth value
    of an item. *)
Definition __group_execute_tasks {A : Type} (truthy : A -> bool)
           (handler : A -> Coro) (tasks : list A) : M S unit :=
  run_groups truthy handler
             (zip_longest (Z.to_nat (SELECTOR_LIMIT cfg)) tasks).

End Executor.

(* ================================================================== *)
(** ** The crawl *)

Section Crawl.

Variable cfg : Conf.

(** [asyncio.wait_for(aiohttp.request(method, url, allow_redirects=True,
    ...), REQUEST_TO)], as a function of how many requests were sent
    before: [None] when it raises (timeout, connection error, ...). *)
Variable aiohttp_request : nat -> string -> string -> option Response.

(** [datetime.strptime(s, '%a, %d %b %Y %H:%M:%S %Z')]: [None] when it
    raises [ValueError]. *)
Variable strptime : string -> option datetime.

Variable order : forall A : Type, list A -> list A.

(** [SitemapObj.__do_request]; [left] is [request_retry - tries]. *)
Fixpoint __do_request_loop (left : nat) (method url : string) : Crawl (option Response) :=
  match left with
  | O => ret None
  | S left' =>
      fun st =>
        let r := aiohttp_request (length (requests st)) method url in
        let st' := set_requests (requests st ++ [(method, url)])%list st in
        match r with
        | Some r => (Ok (Some r), st')
        | None => __do_request_loop left' method url st'
        end
  end.

Definition __do_request (self : SitemapObj.t) (method : string) : Crawl (option Response) :=
  __do_request_loop (Z.to_nat (REQUEST_RETRY cfg)) method (SitemapObj.url self).

(** [SitemapObj.prepare], from the assignment of [r.url] on. *)
Definition prepare_response (r : Response) : result SitemapObj.t :=
  let u := r_url r in
  if negb (r_status r =? 200)%Z then
    Raise (SitemapObjError
             ("SKIP " ++ u ++ ": status code: " ++ PyStr.decimal_Z (r_status r)
                      ++ ". Unsupported"))
  else
    match headers_get "content-type" (r_headers r) with
    | None => Raise (SitemapObjError ("SKIP " ++ u ++ ": there is no CONTENT-TYPE"))
    | Some content_type =>
        if negb (PyStr.truthy content_type) then
          Raise (SitemapObjError ("SKIP " ++ u ++ ": there is no CONTENT-TYPE"))
        else if negb (Regex.re_match (Regex.Lit "text/html") content_type) then
          Raise (SitemapObjError ("SKIP " ++ u ++ ": CONTENT-TYPE unsupported"))
        else
          match headers_get "last-modified" (r_headers r) with
          | None => Ok {| SitemapObj.url := u; SitemapObj.last_mod := None |}
          | Some last_mod =>
              if negb (PyStr.truthy last_mod) then
                Ok {| SitemapObj.url := u; SitemapObj.last_mod := None |}
              else
                match strptime last_mod with
                | Some d => Ok {| SitemapObj.url := u; SitemapObj.last_mod := Some d |}
                | None =>
                    Raise (ValueError "time data does not match format")
                end
          end
    end.

(** [SitemapObj.prepare]: the object after the call. *)
Definition prepare (self : SitemapObj.t) : Crawl SitemapObj.t :=
  r <- __do_request self "head" ;;
  match r with
  | None =>
      raise (SitemapObjError
               ("SKIP " ++ SitemapObj.url self ++ ": Request exception: timeout, etc."))
  | Some r => lift (prepare_response r)
  end.

(** The loop of [SitemapObj.process] over the anchors of the page. *)
Fixpoint process_links (hrefs : list (option string)) (domain_ netloc_ : string) : Crawl unit :=
  match hrefs with
  | [] => ret tt
  | href :: rest =>
      up <- lift (UrlParse.urlparse_href href) ;;
      url <- lift (SitemapObj.validate_update_url
                     up (match href with Some h => h | None => "" end)
                     domain_ netloc_ true) ;;
      match url with
      | Some u => if PyStr.truthy u then nextlvl_add u else ret tt
      | None => ret tt
      end ;;;
      process_links rest domain_ netloc_
  end.

(** [SitemapObj.process] *)
Definition process (self : SitemapObj.t) (domain_ netloc_ : string) : Crawl unit :=
  r <- __do_request self "get" ;;
  match r with
  | None => ret tt
  | Some r => process_links (r_hrefs r) domain_ netloc_
  end.

(** [__head_request_coro] from [SitemapObj(url)] on. *)
Definition head_request_resume (url : string) (lvlidx : Z) : Task state :=
  fun st =>
    match prepare (SitemapObj.__init__ url) st with
    | (Raise (SitemapObjError _), st') => (Ok tt, st')
    | (Raise e, st') => (Raise e, st')
    | (Ok obj, st') =>
        (u <- (if negb (String.eqb (SitemapObj.url obj) url) then
                 (if (lvlidx =? 0)%Z then
                    up <- lift (UrlParse.urlparse (SitemapObj.url obj)) ;;
                    modify (set_target
                              (UrlParse.scheme up ++ "://" ++ UrlParse.netloc up)
                              (UrlParse.netloc up))
                  else ret tt) ;;;
                 up <- lift (UrlParse.urlparse (SitemapObj.url obj)) ;;
                 st1 <- get ;;
                 u <- lift (SitemapObj.validate_update_url
                              up (SitemapObj.url obj) (domain st1) (netloc st1)
                              (negb (lvlidx =? 0)%Z)) ;;
                 ret (match u with Some u => PyStr.truthy u | None => false end)
               else ret true) ;;
         if negb u then ret tt
         else
           st2 <- get ;;
           if in_visited (SitemapObj.url obj) (visited st2) then ret tt
           else objs_append obj ;;; visited_add obj) st'
    end.

(** [SitemapWalker.__head_request_coro(url, objs, lvlidx)] *)
Definition __head_request_coro (lvlidx : Z) (url : string) : Coro state :=
  st <- get ;;
  if in_visited url (visited st) then ret None
  else ret (Some (head_request_resume url lvlidx)).

(** [SitemapWalker.__get_request_coro(o, nextlvl)] *)
Definition __get_request_coro (o : SitemapObj.t) : Coro state :=
  st <- get ;;
  ret (Some (process o (domain st) (netloc st))).

(** The [while] loop of [traverse_links]; [None] when [fuel] turns of
    the loop were not enough. *)
Fixpoint traverse_loop (depth : Z) (fuel : nat) (lvlidx : Z) (thislvl : list string)
  : Crawl (option unit) :=
  match fuel with
  | O => ret None
  | S fuel' =>
      match thislvl with
      | [] => ret (Some tt)
      | _ :: _ =>
          modify (set_objs []) ;;;
          modify (set_nextlvl []) ;;;
          __group_execute_tasks cfg order PyStr.truthy
                              (__head_request_coro lvlidx) (order thislvl) ;;;
          if (lvlidx >=? depth)%Z then ret (Some tt)
          else
            st <- get ;;
            __group_execute_tasks cfg order (fun _ => true)
                                __get_request_coro (objs st) ;;;
            st' <- get ;;
            traverse_loop depth fuel' (lvlidx + 1) (nextlvl st')
      end
  end.

(** [SitemapWalker.traverse_links] for a walker whose [depth] attribute
    is [depth] ([DEPTH_LEVEL] unless it was assigned). *)
Definition traverse_links (depth : Z) : Crawl (option unit) :=
  st <- get ;;
  traverse_loop depth (S (Z.to_nat depth)) 0 [domain st].

End Crawl.

(* ================================================================== *)
(** ** xml.etree.ElementTree and the files *)

Inductive Element : Type :=
  mkElement { tag : string;
              attrib : list (string * string);
              text : option string;
              tail : option string;
              children : list Element }.

(** [et.Element(tag)] *)
Definition new_element (t : string) : Element :=
  {| tag := t; attrib := []; text := None; tail := None; children := [] |}.

Definition set_text (s : string) (e : Element) : Element :=
  {| tag := tag e; attrib := attrib e; text := Some s; tail := tail e;
     children := children e |}.
Definition set_tail (s : string) (e : Element) : Element :=
  {| tag := tag e; attrib := attrib e; text := text e; tail := Some s;
     children := children e |}.
Definition set_attrib (k v : string) (e : Element) : Element :=
  {| tag := tag e; attrib := (attrib e ++ [(k, v)])%list; text := text e;
     tail := tail e; children := children e |}.
Definition set_children (c : list Element) (e : Element) : Element :=
  {| tag := tag e; attrib := attrib e; text := text e; tail := tail e;
     children := c |}.

(** [elem.append(child)] *)
Definition append (child : Element) (e : Element) : Element :=
  set_children (children e ++ [child])%list e.

(** [not t or not t.strip()] for a [text] or [tail]. *)
Definition blank (t : option string) : bool :=
  match t with None => true | Some s => PyStr.is_blank s end.

(** [n * "  "] *)
Fixpoint spaces (n : nat) : string :=
  match n with O => "" | S n' => "  " ++ spaces n' end.

(** The last element of a list changed by [f]. *)
Fixpoint map_last {A} (f : A -> A) (l : list A) : list A :=
  match l with
  | [] => []
  | [x] => [f x]
  | x :: l' => x :: map_last f l'
  end.

(** [SitemapWalker.__indent]: the element after the call.  After the
    loop the name [elem] is bound to the last child, whose tail the last
    test changes. *)
Fixpoint __indent (level : nat) (elem : Element) : Element :=
  let i := String Regex.newline (spaces level) in
  match elem with
  | mkElement t a tx tl ch =>
      match ch with
      | [] =>
          if negb (level =? 0)%nat && blank tl
          then mkElement t a tx (Some i) ch
          else elem
      | _ :: _ =>
          let tx' := if blank tx then Some (i ++ "  ") else tx in
          let tl' := if blank tl then Some i else tl in
          let ch' := map (__indent (S level)) ch in
          mkElement t a tx' tl'
                    (map_last (fun e => if blank (tail e) then set_tail i e else e) ch')
      end
  end.

(** What a path holds: a document written by [tree.write], or an
    archive with its members in the order they were added. *)
Inductive file : Type :=
| XmlFile (root : Element)
| ZipFile (members : list (string * file)).

Definition FS : Type := list (string * file).

Fixpoint fs_lookup (path : string) (fs : FS) : option file :=
  match fs with
  | [] => None
  | (p, f) :: fs' => if String.eqb p path then Some f else fs_lookup path fs'
  end.

Definition fs_delete (path : string) (fs : FS) : FS :=
  filter (fun pf => negb (String.eqb (fst pf) path)) fs.

(** [open(path, 'w')] and a write: the path holds [f] from now on. *)
Definition fs_write (path : string) (f : file) : M FS unit :=
  modify (fun fs => (path, f) :: fs_delete path fs).

(** Reading a path. *)
Definition fs_read (path : string) : M FS file :=
  fun fs =>
    match fs_lookup path fs with
    | Some f => (Ok f, fs)
    | None => (Raise (FileNotFoundError path), fs)
    end.

(** [os.remove(path)] *)
Definition os_remove (path : string) : M FS unit :=
  fun fs =>
    match fs_lookup path fs with
    | Some _ => (Ok tt, fs_delete path fs)
    | None => (Raise (FileNotFoundError path), fs)
    end.

(* ================================================================== *)
(** ** The sitemap emitter *)

Section Emitter.

Variable cfg : Conf.

(** [d.strftime("%Y-%m-%d")] *)
Variable strftime : datetime -> string.

Definition xmlns : string := "http://www.sitemaps.org/schemas/sitemap/0.9".

(** [SitemapObj.xml_node] *)
Definition xml_node (self : SitemapObj.t) : Element :=
  let url := new_element "url" in
  let loc := set_text (SitemapObj.url self) (new_element "loc") in
  let url := append loc url in
  match SitemapObj.last_mod self with
  | Some d =>
      let lastmod := set_text (strftime d) (new_element "lastmod") in
      append lastmod url
  | None => url
  end.

(** The document that [__generate_sitemap] builds from [objlist]: a
    [urlset] with a [url] node for every object up to the first false
    one, indented. *)
Definition urlset (objlist : list (option SitemapObj.t)) : Element :=
  let root := set_attrib "xmlns" xmlns (new_element "urlset") in
  let root :=
    fold_left (fun root l => append (xml_node l) root)
              (until_falsy (fun _ => true) objlist) root in
  __indent 0 root.

(** [SitemapWalker.__generate_sitemap(filename, objlist)] *)
Definition __generate_sitemap (filename : string)
           (objlist : list (option SitemapObj.t)) : M FS string :=
  let root := urlset objlist in
  let filename := filename ++ ".xml" in
  fs_write filename (XmlFile root) ;;;
  ret filename.

(** The loop of [generate_sitemap] over [enumerate(sublists)]: the
    [sitemapindex] root and the members of the archive so far. *)
Fixpoint generate_chunks (domain_ : string) (idx : nat)
         (sublists : list (list (option SitemapObj.t)))
         (root : Element) (zipf : list (string * file))
  : M FS (Element * list (string * file)) :=
  match sublists with
  | [] => ret (root, zipf)
  | s :: sublists' =>
      let sitemap := new_element "sitemap" in
      xml <- __generate_sitemap
               (XML_PATH cfg ++ "sitemap" ++ PyStr.decimal idx) s ;;
      let loc := set_text (domain_ ++ "/" ++ PyStr.after_last "/" xml)
                          (new_element "loc") in
      let sitemap := append loc sitemap in
      f <- fs_read xml ;;
      os_remove xml ;;;
      generate_chunks domain_ (S idx) sublists' (append sitemap root)
                      (zipf ++ [(xml, f)])%list
  end.

(** [SitemapWalker.generate_sitemap(filename)] for a walker with the
    given [domain] and [visited] (in the order the set hands out its
    elements). *)
Definition generate_sitemap (domain_ : string) (visited_ : list SitemapObj.t)
           (filename : string) : M FS string :=
  if (Z.of_nat (length visited_) <=? SITEMAP_SIZE cfg)%Z then
    __generate_sitemap filename (map Some visited_)
  else
    let root := set_attrib "xmlns" xmlns (new_element "sitemapindex") in
    let zipname := filename ++ ".zip" in
    fs_write zipname (ZipFile []) ;;;
    rz <- generate_chunks domain_ 0
            (zip_longest (Z.to_nat (SITEMAP_SIZE cfg)) visited_) root [] ;;
    let root := __indent 0 (fst rz) in
    let fileidx := filename ++ ".xml" in
    fs_write fileidx (XmlFile root) ;;;
    f <- fs_read fileidx ;;
    os_remove fileidx ;;;
    fs_write zipname (ZipFile (snd rz ++ [(fileidx, f)])%list) ;;;
    ret zipname.

End Emitter.

(* ================================================================== *)
(** ** datetime.strptime and strftime for the formats of the sources

    Library code, for the C locale and a process whose local zone is UTC:
    the names of days, months and zones that [strptime] accepts are the
    English abbreviations and [utc], [gmt].  [strptime] matches its
    pattern without regard to case and wants the whole string used. *)

Module HttpDate.

Fixpoint span (p : ascii -> bool) (s : string) : string * string :=
  match s with
  | EmptyString => (EmptyString, EmptyString)
  | String c s' =>
      if p c then let '(a, b) := span p s' in (String c a, b)
      else (EmptyString, s)
  end.

Fixpoint split_at (n : nat) (s : string) : string * string :=
  match n, s with
  | S n', String c s' => let '(a, b) := split_at n' s' in (String c a, b)
  | _, _ => (EmptyString, s)
  end.

Fixpoint index_of (x : string) (l : list string) (i : Z) : option Z :=
  match l with
  | [] => None
  | y :: l' => if String.eqb x y then Some i else index_of x l' (i + 1)%Z
  end.

Fixpoint number (s : string) (acc : Z) : Z :=
  match s with
  | EmptyString => acc
  | String c s' => number s' (10 * acc + Z.of_N (PyStr.code c) - 48)%Z
  end.

Definition weekdays : list string :=
  ["mon"; "tue"; "wed"; "thu"; "fri"; "sat"; "sun"].
Definition months : list string :=
  ["jan"; "feb"; "mar"; "apr"; "may"; "jun";
   "jul"; "aug"; "sep"; "oct"; "nov"; "dec"].
Definition zones : list string := ["utc"; "gmt"].

(** A run of digits of the directive's width and range. *)
Definition field (lo hi : Z) (min_len max_len : nat) (s : string) : option Z :=
  let n := String.length s in
  if (min_len <=? n)%nat && (n <=? max_len)%nat
     && (lo <=? number s 0)%Z && (number s 0 <=? hi)%Z
  then Some (number s 0) else None.

(** White space of the format: one or more white characters. *)
Definition spaces1 (s : string) : option string :=
  match span PyStr.is_space s with
  | (EmptyString, _) => None
  | (_, rest) => Some rest
  end.

Definition expect (c : ascii) (s : string) : option string :=
  match s with
  | String d s' => if Ascii.eqb c d then Some s' else None
  | EmptyString => None
  end.

Definition is_leap (y : Z) : bool :=
  ((y mod 4 =? 0) && (negb (y mod 100 =? 0) || (y mod 400 =? 0)))%Z.

Definition days_in_month (y m : Z) : Z :=
  if (m =? 2)%Z then (if is_leap y then 29 else 28)
  else if (m =? 4)%Z || (m =? 6)%Z || (m =? 9)%Z || (m =? 11)%Z then 30
  else 31.

Definition opt_bind {A B} (o : option A) (k : A -> option B) : option B :=
  match o with Some a => k a | None => None end.

(** [datetime.strptime(s, '%a, %d %b %Y %H:%M:%S %Z')]; [None] for
    [ValueError]. *)
Definition strptime (s : string) : option datetime :=
  let '(a, s) := split_at 3 s in
  opt_bind (index_of (PyStr.lower a) weekdays 0) (fun _ =>
  opt_bind (expect "," s) (fun s =>
  opt_bind (spaces1 s) (fun s =>
  let '(d, s) := span PyStr.is_digit s in
  opt_bind (field 1 31 1 2 d) (fun d =>
  opt_bind (spaces1 s) (fun s =>
  let '(b, s) := split_at 3 s in
  opt_bind (index_of (PyStr.lower b) months 1) (fun b =>
  opt_bind (spaces1 s) (fun s =>
  let '(y, s) := span PyStr.is_digit s in
  opt_bind (field 1 9999 4 4 y) (fun y =>
  opt_bind (spaces1 s) (fun s =>
  let '(h, s) := span PyStr.is_digit s in
  opt_bind (field 0 23 1 2 h) (fun h =>
  opt_bind (expect ":" s) (fun s =>
  let '(mi, s) := span PyStr.is_digit s in
  opt_bind (field 0 59 1 2 mi) (fun mi =>
  opt_bind (expect ":" s) (fun s =>
  let '(se, s) := span PyStr.is_digit s in
  opt_bind (field 0 59 1 2 se) (fun se =>
  opt_bind (spaces1 s) (fun s =>
  opt_bind (index_of (PyStr.lower s) zones 0) (fun _ =>
  if (d <=? days_in_month y b)%Z
  then Some {| year := y; month := b; day := d;
               hour := h; minute := mi; second := se |}
  else None)))))))))))))))).

Definition pad (width : nat) (s : string) : string :=
  let fix zeros (n : nat) : string :=
    match n with O => "" | S n' => "0" ++ zeros n' end in
  zeros (width - String.length s) ++ s.

(** [d.strftime("%Y-%m-%d")] *)
Definition strftime (d : datetime) : string :=
  pad 4 (PyStr.decimal_Z (year d)) ++ "-" ++ pad 2 (PyStr.decimal_Z (month d))
      ++ "-" ++ pad 2 (PyStr.decimal_Z (day d)).

End HttpDate.

(* ================================================================== *)
(** ** Concrete sites, for the examples *)

Module Site.

(** A page served with status 200 as [text/html]. *)
Definition html (u : string) (hrefs : list (option string)) : Response :=
  {| r_url := u; r_status := 200;
     r_headers := [("Content-Type", "text/html; charset=utf-8")];
     r_hrefs := hrefs |}.

(** A runtime that keeps the order of insertion. *)
Definition in_order (A : Type) (l : list A) : list A := l.

(** A response whose content type is spelled in capitals. *)
Definition capitals : Response :=
  {| r_url := "http://example.com/"; r_status := 200;
     r_headers := [("Content-Type", "Text/HTML")];
     r_hrefs := [] |}.

(** A response whose date is not an HTTP-date. *)
Definition iso_dated : Response :=
  {| r_url := "http://example.com/"; r_status := 200;
     r_headers := [("Content-Type", "text/html");
                   ("Last-Modified", "2015-10-21T07:28:00Z")];
     r_hrefs := [] |}.

(** A configuration that runs two tasks at a time. *)
Definition two_at_a_time : Conf :=
  {| DEPTH_LEVEL := 3; REQUEST_RETRY := 3; SELECTOR_LIMIT := 2;
     SITEMAP_SIZE := 50000; XML_PATH := "xml/" |}.

(** 50001 descriptors. *)
Definition many_pages : list SitemapObj.t :=
  map (fun n => SitemapObj.__init__ ("http://example.com/" ++ PyStr.decimal n))
      (seq 0 (Z.to_nat 50001)).

(** A site of three pages: the root links to [./about.html] and to
    [?#top]; the two URLs that the walker makes of these links answer
    under the URL they were asked for. *)
Definition dotted (n : nat) (method url : string) : option Response :=
  if String.eqb url "http://example.com" then
    Some (html url [Some "./about.html"; Some "?#top"])
  else if String.eqb url "http://example.com./about.html" then Some (html url [])
  else if String.eqb url "http://example.com?" then Some (html url [])
  else None.

(** A site that answers every request with [iso_dated]. *)
Definition iso_site (n : nat) (method url : string) : option Response :=
  Some iso_dated.

End Site.

(** The content-type test of [prepare] passes. *)
Definition content_type_html (hs : list (string * string)) : bool :=
  match headers_get "content-type" hs with
  | Some c => PyStr.startswith "text/html" c
  | None => false
  end.

(** [prepare] raised one of its two content-type skips for the url [u]. *)
Definition content_type_skip (u : string) (r : result SitemapObj.t) : Prop :=
  r = Raise (SitemapObjError ("SKIP " ++ u ++ ": there is no CONTENT-TYPE"))
  \/ r = Raise (SitemapObjError ("SKIP " ++ u ++ ": CONTENT-TYPE unsupported")).

(** The walker after [objs.append(obj)] and [self.__visited.add(obj)]. *)
Definition accepted (obj : SitemapObj.t) (st : state) : state :=
  set_visited (visited st ++ [obj])%list (set_objs (objs st ++ [obj])%list st).

(* ================================================================== *)
(** ** Reading a document *)

(** The children of an element by tag, each with the tags and texts of
    its own children. *)
Definition outline (e : Element) : list (string * list (string * option string)) :=
  map (fun c => (tag c, map (fun g => (tag g, text g)) (children c))) (children e).

(** The outline of the [url] node of a descriptor. *)
Definition url_entry (strftime : datetime -> string) (o : SitemapObj.t)
  : string * list (string * option string) :=
  ("url",
   ("loc", Some (SitemapObj.url o))
     :: match SitemapObj.last_mod o with
        | Some d => [("lastmod", Some (strftime d))]
        | None => []
        end).

(* ================================================================== *)
(** ** What the walker checks of a visited URL *)

(** [validate_update_url] lets [u] through for the target [dom], [nl]:
    [u] has the host [nl] and is valid, or has no host and is valid once
    glued to [dom]. *)
Definition canonical (dom nl u : string) : Prop :=
  exists p,
    UrlParse.urlparse u = Ok p
    /\ ((UrlParse.netloc p = nl /\ Utils.is_url_valid u = true)
        \/ (UrlParse.netloc p = "" /\ Utils.is_url_valid (dom ++ u) = true)).

(** Every visited descriptor has a URL that was itself asked for with
    HEAD, or that [validate_update_url] lets through for the target of
    the walker. *)
Definition visited_checked (st : state) : Prop :=
  forall o,
    In o (visited st) ->
    In ("head", SitemapObj.url o) (requests st)
    \/ canonical (domain st) (netloc st) (SitemapObj.url o).

(** The walker has the target [d], [n], and its visited URLs were
    checked. *)
Definition walker_inv (d n : string) (st : state) : Prop :=
  domain st = d /\ netloc st = n /\ visited_checked st.

(** A task, and a coroutine with the task it suspends as, keep a
    property of the state. *)
Definition task_keeps {S : Type} (P : S -> Prop) (t : Task S) : Prop :=
  forall st, P st -> P (snd (t st)).

Definition coro_keeps {S : Type} (P : S -> Prop) (c : Coro S) : Prop :=
  forall st,
    P st ->
    P (snd (c st)) /\ forall t, fst (c st) = Ok (Some t) -> task_keeps P t.

(** A change of an element that keeps its tag, text and children. *)
Definition tail_only (f : Element -> Element) : Prop :=
  forall e, tag (f e) = tag e /\ text (f e) = text e /\ children (f e) = children e.

(* ================================================================== *)
(** ** A handler that records the schedule *)

Module Probe.

(** What happens to an item: its task is started, its task has ended. *)
Inductive event (A : Type) : Type :=
| Launched (a : A)
| Completed (a : A).
Arguments Launched {A} a.
Arguments Completed {A} a.

Definition record {A : Type} (e : event A) : M (list (event A)) unit :=
  modify (fun tr => tr ++ [e])%list.

(** A coroutine that records that it was started, suspends once, and
    records that it has ended. *)
Definition handler {A : Type} (a : A) : Coro (list (event A)) :=
  record (Launched a) ;;; ret (Some (record (Completed a))).

(** The largest number of tasks started and not ended along a record,
    [cur] of them being so at its start. *)
Fixpoint peak {A : Type} (cur : nat) (tr : list (event A)) : nat :=
  match tr with
  | [] => cur
  | Launched _ :: tr' => Nat.max cur (peak (S cur) tr')
  | Completed _ :: tr' => Nat.max cur (peak (Nat.pred cur) tr')
  end.

(** The record of rounds that each start their items and see them all
    end, in some order, before the next round. *)
Definition rounds_trace {A : Type} (rounds : list (list A * list A)) : list (event A) :=
  concat (map (fun r => map Launched (fst r) ++ map Completed (snd r))%list rounds).

End Probe.

(* ================================================================== *)
(** ** utils.py: filename_generator *)

Section Random.

(** The draws of the generator: the [k]-th call of [random.choice(seq)]
    returns [seq[rand k mod len(seq)]]. *)
Variable rand : nat -> nat.

(** [random.choice(chars)], the [k]-th call; it raises for an empty
    sequence. *)
Definition choice (k : nat) (chars : string) : result ascii :=
  match String.get (rand k mod String.length chars) chars with
  | Some c => Ok c
  | None => Raise (IndexError "Cannot choose from an empty sequence")
  end.

(** The generator expression of [filename_generator], joined: [n]
    choices from the [k]-th call on. *)
Fixpoint choices (n k : nat) (chars : string) : result string :=
  match n with
  | O => Ok ""
  | S n' =>
      match choice k chars with
      | Raise e => Raise e
      | Ok c =>
          match choices n' (S k) chars with
          | Raise e => Raise e
          | Ok s => Ok (String c s)
          end
      end
  end.

(** [filename_generator(size, chars)] when [k] choices were made
    before. *)
Definition filename_generator (k : nat) (size : Z) (chars : string) : result string :=
  choices (Z.to_nat size) k chars.

End Random.

(** [string.ascii_uppercase + string.ascii_lowercase + string.digits],
    the default of [chars]; the default of [size] is 12. *)
Definition default_chars : string :=
  "ABCDEFGHIJKLMNOPQRSTUVWXYZabcdefghijklmnopqrstuvwxyz0123456789".

(* ================================================================== *)
(** ** Predicates of the further properties *)

(** A tuple of [zip_longest] starts with a true item. *)
Definition starts_true {A : Type} (truthy : A -> bool) (s : list (option A)) : bool :=
  match s with
  | Some v :: _ => truthy v
  | _ => false
  end.

(** A link as [validate_update_url] returns it: not empty, without
    anchor, and with the scheme [http] or [https] in some letter case. *)
Definition kept_link (u : string) : Prop :=
  PyStr.truthy u = true
  /\ PyStr.mem_char "#" u = false
  /\ exists pre rest,
      u = pre ++ rest
      /\ (PyStr.lower pre = "http://" \/ PyStr.lower pre = "https://").

(** There is a HEAD request that the site answers with status 200 and a
    content type starting with [text/html], and the final url of the
    response is [u]. *)
Definition answered_as_html
           (aiohttp_request : nat -> string -> string -> option Response)
           (u : string) : Prop :=
  exists (n : nat) (asked : string) (r : Response),
    aiohttp_request n "head" asked = Some r
    /\ r_status r = 200%Z
    /\ content_type_html (r_headers r) = true
    /\ r_url r = u.


(** What a crawl from the seed [d] keeps of its walker: no two visited
    descriptors have the same url; the objects accepted at this level
    are visited; every visited url is the final url of an HTML answer to
    a HEAD request; every GET request was for the url of a visited
    descriptor; every HEAD request was for the seed or for a kept link;
    the links collected are a set of kept links. *)
Definition crawl_inv
           (aiohttp_request : nat -> string -> string -> option Response)
           (d : string) (st : state) : Prop :=
  NoDup (map SitemapObj.url (visited st))
  /\ incl (objs st) (visited st)
  /\ (forall o, In o (visited st) ->
                answered_as_html aiohttp_request (SitemapObj.url o))
  /\ (forall u, In ("get", u) (requests st) ->
                In u (map SitemapObj.url (visited st)))
  /\ (forall u, In ("head", u) (requests st) -> u = d \/ kept_link u)
  /\ NoDup (nextlvl st)
  /\ Forall kept_link (nextlvl st).

(* ================================================================== *)
(** ** What the walker knows of a visited URL *)

(** [v] is what [validate_update_url] returned for a link [h] of a page,
    for the target [dom], [nl]: the part before the anchor of [u], which
    is the link itself when the link names the host [nl], and then [v]
    has that host too, or the link glued to the domain when the link
    names no host.  When there is no anchor to cut, [is_url_valid]
    accepts [v]. *)
Definition link_checked (dom nl v : string) : Prop :=
  exists (h : string) (up : UrlParse.ParseResult) (u : string),
    UrlParse.urlparse h = Ok up
    /\ SitemapObj.validate_update_url up h dom nl true = Ok (Some v)
    /\ v = PyStr.before_first "#" u
    /\ ((UrlParse.netloc up = "" /\ u = dom ++ h)
        \/ (UrlParse.netloc up = nl /\ u = h
            /\ exists p, UrlParse.urlparse v = Ok p /\ UrlParse.netloc p = nl))
    /\ (PyStr.mem_char "#" u = false -> Utils.is_url_valid v = true).

(** Every visited descriptor has the url of the seed [d], and then the
    walker still has the target [d], [n] it was made with, or a url that
    [validate_update_url] made of a link, or a url that a redirect led
    to and that [validate_update_url] lets through, all for the target
    of the walker; and the urls collected for the next level are made of
    links. *)
Definition accounted (d n : string) (st : state) : Prop :=
  (forall o,
      In o (visited st) ->
      (SitemapObj.url o = d /\ domain st = d /\ netloc st = n)
      \/ link_checked (domain st) (netloc st) (SitemapObj.url o)
      \/ canonical (domain st) (netloc st) (SitemapObj.url o))
  /\ (forall v, In v (nextlvl st) -> link_checked (domain st) (netloc st) v).

(* ================================================================== *)
(** ** The distance of a url from the seed *)

Section Reach.

Variable aiohttp_request : nat -> string -> string -> option Response.

(** The site answers a HEAD request for [u] with an HTML page, under the
    final url [o]. *)
Definition lands (u o : string) : Prop :=
  exists (n : nat) (r : Response),
    aiohttp_request n "head" u = Some r
    /\ r_status r = 200%Z
    /\ content_type_html (r_headers r) = true
    /\ r_url r = o.

(** The site answers a GET request for [o] with a page that has an
    anchor of which [validate_update_url] makes [v], for some target. *)
Definition linked (o v : string) : Prop :=
  exists (n : nat) (r : Response) (href : option string)
         (up : UrlParse.ParseResult) (dom nl : string),
    aiohttp_request n "get" o = Some r
    /\ In href (r_hrefs r)
    /\ UrlParse.urlparse_href href = Ok up
    /\ SitemapObj.validate_update_url
         up (match href with Some h => h | None => "" end) dom nl true
       = Ok (Some v).

(** [v] is [k] links away from the seed [d]. *)
Fixpoint reach (d : string) (k : nat) (v : string) : Prop :=
  match k with
  | O => v = d
  | S k' => exists u o, reach d k' u /\ lands u o /\ linked o v
  end.

(** The HEAD requests sent were for urls less than [h] links away from
    the seed. *)
Definition heads_within (d : string) (h : nat) (st : state) : Prop :=
  forall v, In ("head", v) (requests st) ->
            exists k, (k < h)%nat /\ reach d k v.

(** The GET requests sent were for pages that urls less than [g] links
    away from the seed landed on. *)
Definition gets_within (d : string) (g : nat) (st : state) : Prop :=
  forall o, In ("get", o) (requests st) ->
            exists k u, (k < g)%nat /\ reach d k u /\ lands u o.

(** The visited descriptors are pages that urls less than [h] links
    away from the seed landed on. *)
Definition visits_within (d : string) (h : nat) (st : state) : Prop :=
  forall o, In o (visited st) ->
            exists k u, (k < h)%nat /\ reach d k u /\ lands u (SitemapObj.url o).

(** The walker at level [j]: besides, the objects accepted are pages
    that urls [j] links away landed on, and the links collected are
    [j + 1] links away. *)
Definition within (d : string) (h g j : nat) (st : state) : Prop :=
  heads_within d h st
  /\ visits_within d h st
  /\ gets_within d g st
  /\ (forall o, In o (objs st) ->
                exists u, reach d j u /\ lands u (SitemapObj.url o))
  /\ (forall v, In v (nextlvl st) -> reach d (S j) v).

(** The target of a walker made for [d], [n]: as it was made, or, when
    the HEAD request for [d] landed on another url, the scheme and the
    netloc of that url. *)
Definition seed_target (d n : string) (st : state) : Prop :=
  (domain st = d /\ netloc st = n)
  \/ exists (o : string) (up : UrlParse.ParseResult),
      lands d o
      /\ o <> d
      /\ UrlParse.urlparse o = Ok up
      /\ domain st = UrlParse.scheme up ++ "://" ++ UrlParse.netloc up
      /\ netloc st = UrlParse.netloc up.

End Reach.

(* ================================================================== *)
(** ** The parts of an archive *)

(** The path of the chunk [idx], as [generate_sitemap] names it. *)
Definition chunk_path (cfg : Conf) (idx : nat) : string :=
  (XML_PATH cfg ++ "sitemap" ++ PyStr.decimal idx) ++ ".xml".

(** The [sitemap] node that the loop of [generate_sitemap] adds to the
    index for the chunk [idx]. *)
Definition sitemap_node (cfg : Conf) (domain_ : string) (idx : nat) : Element :=
  append (set_text (domain_ ++ "/" ++ PyStr.after_last "/" (chunk_path cfg idx))
                   (new_element "loc"))
         (new_element "sitemap").

(** The outline of that node. *)
Definition index_entry (cfg : Conf) (domain_ : string) (idx : nat)
  : string * list (string * option string) :=
  ("sitemap",
   [("loc", Some (domain_ ++ "/" ++ PyStr.after_last "/" (chunk_path cfg idx)))]).

(** The members of an archive: the chunks by number, then the index. *)
Definition archive (cfg : Conf) (filename : string) (docs : list Element)
           (idx : Element) : file :=
  ZipFile (List.app
             (combine (map (chunk_path cfg) (seq 0 (length docs))) (map XmlFile docs))
             [(filename ++ ".xml", XmlFile idx)]).

(* ================================================================== *)
(** ** The content of a document *)

(** An element without the [text] and [tail] that are white space only,
    at every depth. *)
Fixpoint significant (e : Element) : Element :=
  match e with
  | mkElement t a tx tl ch =>
      mkElement t a (if blank tx then None else tx)
                (if blank tl then None else tl)
                (map significant ch)
  end.

(* ================================================================== *)
(** ** What a pattern says of the strings it matches

    A reading of the patterns as relations, to reason about the strings
    that the matcher accepts: [w] is matched by [r] when [rest] is what
    follows [w] in the subject. *)

Module RegexSem.
Import Regex.

(** [k] matches in a row. *)
Fixpoint iter (P : string -> string -> Prop) (k : nat) (w rest : string) : Prop :=
  match k with
  | O => w = ""
  | S k' =>
      exists w1 w2, w = w1 ++ w2 /\ P w1 (w2 ++ rest) /\ iter P k' w2 rest
  end.

Fixpoint matches (r : regex) (w rest : string) : Prop :=
  match r with
  | Void => False
  | Eps => w = ""
  | Class f => exists c, w = String c "" /\ f c = true
  | Cat r1 r2 =>
      exists w1 w2, w = w1 ++ w2 /\ matches r1 w1 (w2 ++ rest) /\ matches r2 w2 rest
  | Alt r1 r2 => matches r1 w rest \/ matches r2 w rest
  | Rep r lo hi =>
      exists k,
        (lo <= k)%nat
        /\ match hi with Some h => (k <= Nat.max lo h)%nat | None => True end
        /\ iter (matches r) k w rest
  | Bol => w = ""
  | Eol => w = "" /\ eol_here rest = true
  end.

(** Every character class of [r] lies within [q]. *)
Fixpoint classes (q : ascii -> bool) (r : regex) : Prop :=
  match r with
  | Class f => forall c, f c = true -> q c = true
  | Cat r1 r2 | Alt r1 r2 => classes q r1 /\ classes q r2
  | Rep r _ _ => classes q r
  | _ => True
  end.

(** A lower bound of the length of a match. *)
Fixpoint min_length (r : regex) : nat :=
  match r with
  | Class _ => 1
  | Cat r1 r2 => min_length r1 + min_length r2
  | Alt r1 r2 => Nat.min (min_length r1) (min_length r2)
  | Rep r lo _ => lo * min_length r
  | _ => 0
  end.

End RegexSem.

(* ================================================================== *)
(** ** The parts of the pattern of [is_url_valid] *)

Module UrlShape.
Import Regex Utils.

(** Letters and digits, the dot, the hyphen and the colon: the
    characters of a host and a port. *)
Definition host_char (c : ascii) : bool :=
  PyStr.is_alpha c || PyStr.is_digit c || PyStr.mem_char c ".-:".

Definition host_pattern : regex := Alt domain_name (Alt (LitI "localhost") ipv4).
Definition port_pattern : regex := Opt (Cat (Lit ":") (Plus digit)).
Definition path_pattern : regex :=
  Alt (Opt (Lit "/")) (Cat (Class (fun c => PyStr.mem_char c "/?")) (Plus nonspace)).

End UrlShape.

(* ================================================================== *)
(** ** sitemap.py: the handler of [/generate/]

    One request at a time.  The state of the server is the queue of the
    files to delete, the files, and the number of draws made from the
    random generator; the crawl of a request has its own walker.  The
    time, the network, the order of iteration of a set and the url that
    [flask.url_for] builds are given from outside. *)

(** The values of [conf.py] that only the server reads. *)
Record ServerConf : Type :=
  { XML_QUEUE_SIZE : Z;     (* size of the queue of files *)
    XML_DELETE_TO : Z }.    (* seconds until a file is deleted *)

Definition server_conf : ServerConf :=
  {| XML_QUEUE_SIZE := 1024; XML_DELETE_TO := 30 * 60 |}.

(** An item of [delete_queue]: [{"ts": ..., "filename": ...}]. *)
Record QueueItem (Time : Type) : Type :=
  { ts : Time; filename : string }.

Record Server (Time : Type) : Type :=
  { delete_queue : list (QueueItem Time);
    disk : FS;
    drawn : nat }.

(** What [jsonify] is called with. *)
Inductive Json : Type :=
| json_error (msg : string)              (* status="error", msg=... *)
| json_ok (url : string) (to : Z).       (* status="ok", url=..., to=... *)

(** The double quote, as a string. *)
Definition dquote : string := String (ascii_of_nat 34) "".

Section Handler.

Variable cfg : Conf.
Variable scfg : ServerConf.
Variable Time : Type.
Variable aiohttp_request : nat -> string -> string -> option Response.
Variable strptime : string -> option datetime.
Variable strftime : datetime -> string.
Variable order : forall A : Type, list A -> list A.
Variable rand : nat -> nat.

(** [url_for('static', filename=outfile)] *)
Variable url_for : string -> string.

(** [queue.Queue(maxsize).full()]: [0 < maxsize <= qsize]. *)
Definition queue_full (q : list (QueueItem Time)) : bool :=
  (0 <? XML_QUEUE_SIZE scfg)%Z && (XML_QUEUE_SIZE scfg <=? Z.of_nat (length q))%Z.

(** [sitemap_gen()] for a request whose [url] argument is [url] ([None]
    when it is not given), at the time [now].  The result is [None] when
    the handler does not return: the crawl does not end, or [put] waits
    at a full queue. *)
Definition sitemap_gen (url : option string) (now : Time)
  : M (Server Time) (option Json) :=
  fun srv =>
    if queue_full (delete_queue srv) then
      (Ok (Some (json_error
                   ("ERROR: XML file Queue is full. "
                      ++ "Please wait until old file will be deleted"))), srv)
    else
      match url with
      | None => (Ok (Some (json_error "ERROR: Please specify URL")), srv)
      | Some url =>
          if negb (PyStr.truthy url) then
            (Ok (Some (json_error "ERROR: Please specify URL")), srv)
          else if negb (Utils.is_url_valid url) then
            (Ok (Some (json_error
                         ("ERROR: Incorrect URL specified "
                            ++ dquote ++ url ++ dquote))), srv)
          else
            match UrlParse.urlparse url with
            | Raise e => (Raise e, srv)
            | Ok up =>
                let netloc_ := UrlParse.netloc up in
                match UrlParse.urlparse url with
                | Raise e => (Raise e, srv)
                | Ok up' =>
                    let domain_ := UrlParse.scheme up' ++ "://" ++ netloc_ in
                    let walker := walker_init domain_ netloc_ in
                    match filename_generator rand (drawn srv) 12 default_chars with
                    | Raise e => (Raise e, srv)
                    | Ok name =>
                        let filepath := XML_PATH cfg ++ name in
                        let srv1 :=
                          {| delete_queue := delete_queue srv; disk := disk srv;
                             drawn := drawn srv + 12 |} in
                        match traverse_links cfg aiohttp_request strptime order
                                             (DEPTH_LEVEL cfg) walker with
                        | (Raise e, _) => (Raise e, srv1)
                        | (Ok None, _) => (Ok None, srv1)
                        | (Ok (Some _), walker') =>
                            match generate_sitemap cfg strftime (domain walker')
                                                   (order (visited walker'))
                                                   filepath (disk srv1) with
                            | (Raise e, fs') =>
                                (Raise e,
                                 {| delete_queue := delete_queue srv1; disk := fs';
                                    drawn := drawn srv1 |})
                            | (Ok outfile, fs') =>
                                if queue_full (delete_queue srv1) then
                                  (Ok None,
                                   {| delete_queue := delete_queue srv1; disk := fs';
                                      drawn := drawn srv1 |})
                                else
                                  (Ok (Some (json_ok (url_for outfile)
                                                     (XML_DELETE_TO scfg))),
                                   {| delete_queue :=
                                        (delete_queue srv1
                                           ++ [{| ts := now; filename := outfile |}])%list;
                                      disk := fs';
                                      drawn := drawn srv1 |})
                            end
                        end
                    end
                end
            end
      end.

End Handler.

(* ================================================================== *)
(** ** More sites, for the examples *)

Module Site2.

(** A site whose first two requests time out. *)
Definition flaky (n : nat) (method url : string) : option Response :=
  if (n <? 2)%nat then None else Some (Site.html url []).

(** A site that does not answer. *)
Definition down (n : nat) (method url : string) : option Response := None.

(** A configuration with two entries to a sitemap file. *)
Definition small_files : Conf :=
  {| DEPTH_LEVEL := 3; REQUEST_RETRY := 3; SELECTOR_LIMIT := 64;
     SITEMAP_SIZE := 2; XML_PATH := "xml/" |}.

(** Draws of the random generator. *)
Definition draws (k : nat) : nat := (7 * k + 3)%nat.

(** A server that has served nothing yet, with whole seconds for the
    time. *)
Definition fresh_server : Server Z :=
  {| delete_queue := []; disk := []; drawn := 0 |}.

(** The url of a static file. *)
Definition static_url (filename : string) : string := "/" ++ filename.

(** Three descriptors. *)
Definition three_pages : list SitemapObj.t :=
  [SitemapObj.__init__ "http://example.com/a";
   SitemapObj.__init__ "http://example.com/b";
   SitemapObj.__init__ "http://example.com/c"].

End Site2.
(* ================================================================== *)
(** * Properties *)

(** ** The matcher *)

Section RegexFacts.
Import Regex.

Lemma cat_Eps_l (r : regex) : cat Eps r = r.
Proof. destruct r; reflexivity. Qed.

Lemma alt_Void_r (r : regex) : alt r Void = r.
Proof. destruct r; reflexivity. Qed.

Lemma match_from_Void (s : string) : forall b, match_from b Void s = false.
Proof. induction s as [|c s IH]; intros b; simpl; auto. Qed.

(** A literal matches exactly the strings it is a prefix of. *)
Lemma match_from_Lit (lit : string) :
  forall s b, match_from b (Lit lit) s = PyStr.startswith lit s.
Proof.
  induction lit as [|a lit IH]; intros s b.
  - destruct s; reflexivity.
  - destruct s as [|c s]; [reflexivity|].
    cbn [Lit match_from nullable deriv PyStr.startswith andb orb].
    destruct (Ascii.eqb a c); cbn [andb].
    + rewrite cat_Eps_l, alt_Void_r. apply IH.
    + cbn [cat alt]. apply match_from_Void.
Qed.

Lemma re_match_Lit (lit s : string) :
  re_match (Lit lit) s = PyStr.startswith lit s.
Proof. apply match_from_Lit. Qed.

End RegexFacts.

(** ** [validate_update_url] *)

(** The test against the root is made on the URL before its fragment is
    cut: what [validate_update_url] returns with [exclude_root] set is
    the part before the first [#] of a URL that is neither the domain nor
    its other spelling. *)
Lemma validate_update_url_tests_before_cut
      (p_url : UrlParse.ParseResult) (href domain_ netloc_ v : string) :
  SitemapObj.validate_update_url p_url href domain_ netloc_ true = Ok (Some v) ->
  exists u,
    v = PyStr.before_first "#" u
    /\ u <> domain_
    /\ (u = domain_ ++ href \/ u = href).
Proof.
  unfold SitemapObj.validate_update_url.
  destruct (PyStr.last_char domain_) as [c|]; [|discriminate].
  set (other := if Ascii.eqb c "/" then PyStr.drop_last domain_ else domain_ ++ "/").
  intros H.
  assert (Hu : forall u,
             (if negb (PyStr.truthy u) then Ok None
              else if negb (Utils.is_url_valid u) then Ok None
              else if true && PyStr.mem u [domain_; other] then Ok None
              else Ok (Some (PyStr.before_first "#" u))) = Ok (Some v) ->
             v = PyStr.before_first "#" u /\ u <> domain_).
  { intros u Hv.
    destruct (negb (PyStr.truthy u)); [discriminate|].
    destruct (negb (Utils.is_url_valid u)); [discriminate|].
    cbn [andb PyStr.mem existsb] in Hv.
    destruct (String.eqb_spec u domain_) as [_|Hne]; [discriminate|].
    cbn [orb] in Hv. destruct (String.eqb u other || false); [discriminate|].
    injection Hv as <-. split; [reflexivity|exact Hne]. }
  destruct (UrlParse.netloc_is p_url "").
  - destruct (Hu _ H) as [Hv Hne]. eauto.
  - destruct (UrlParse.netloc_is p_url netloc_); [|discriminate].
    destruct (Hu _ H) as [Hv Hne]. eauto.
Qed.

(** C1 (the code departs from the claim).  For the link [/#top] on a page
    of [http://example.com], with [exclude_root] set, the URL that is
    tested is [http://example.com/#top], which is not in the exclude list;
    the fragment is cut afterwards, and [validate_update_url] returns the
    domain with a slash appended: the root. *)
Theorem validate_update_url_returns_root :
  UrlParse.urlparse "/#top"
  = Ok {| UrlParse.scheme := ""; UrlParse.netloc := "";
          UrlParse.bytes_result := false |}
  /\ SitemapObj.validate_update_url
       {| UrlParse.scheme := ""; UrlParse.netloc := "";
          UrlParse.bytes_result := false |}
       "/#top" "http://example.com" "example.com" true
     = Ok (Some ("http://example.com" ++ "/")).
Proof. split; vm_compute; reflexivity. Qed.

(** C10.  There is a relative link without a leading slash, [page.html]
    on [http://example.com], for which [validate_update_url] returns a
    URL whose host is not the netloc: the link is glued to the domain and
    the result, [http://example.compage.html], passes [is_url_valid]. *)
Theorem validate_update_url_leaves_the_site :
  exists href p_url url p,
    UrlParse.urlparse href = Ok p_url
    /\ UrlParse.netloc p_url = ""
    /\ PyStr.startswith "/" href = false
    /\ url = "http://example.com" ++ href
    /\ Utils.is_url_valid url = true
    /\ SitemapObj.validate_update_url p_url href "http://example.com"
         "example.com" true = Ok (Some url)
    /\ UrlParse.urlparse url = Ok p
    /\ UrlParse.netloc p = "example.compage.html"
    /\ UrlParse.netloc p <> "example.com".
Proof.
  exists "page.html".
  exists {| UrlParse.scheme := ""; UrlParse.netloc := "";
            UrlParse.bytes_result := false |}.
  exists "http://example.compage.html".
  exists {| UrlParse.scheme := "http"; UrlParse.netloc := "example.compage.html";
            UrlParse.bytes_result := false |}.
  repeat split; try (vm_compute; reflexivity).
  vm_compute. discriminate.
Qed.

(** ** [SitemapObj.__eq__] *)

(** C2 (the code departs from the claim).  A descriptor compares with a
    string by its url, but comparing a descriptor with a descriptor never
    yields a truth value: whatever the two urls are, equal or not,
    [__eq__] raises [SitemapObjError]. *)
Theorem eq_of_two_descriptors_raises (a b : SitemapObj.t) :
  SitemapObj.__eq__ a (SitemapObj.PySitemapObj b)
  = Raise (SitemapObjError "Uncomparable types")
  /\ SitemapObj.__eq__ a (SitemapObj.PySitemapObj a)
     = Raise (SitemapObjError "Uncomparable types")
  /\ SitemapObj.__eq__ a (SitemapObj.PyString (SitemapObj.url b))
     = Ok (String.eqb (SitemapObj.url a) (SitemapObj.url b))
  /\ SitemapObj.__eq__ a (SitemapObj.PyString (SitemapObj.url a)) = Ok true.
Proof.
  repeat split. unfold SitemapObj.__eq__. cbn.
  rewrite String.eqb_refl. reflexivity.
Qed.

(** ** [is_url_valid] *)

(** C6 (the code departs from the claim).  The pattern ends in [$], which
    holds before a newline that ends the string: [is_url_valid] accepts
    [http://example.com] followed by a newline, though the host that
    [urlparse] finds in that string, [example.com] and the newline, is no
    domain name.  Without the newline the validator does as the claim
    says on these inputs: scheme and host match without regard to case,
    a port and a path with a query are allowed, and another scheme or an
    underscore in the host are rejected. *)
Theorem is_url_valid_accepts_newline :
  Utils.is_url_valid (String.append "http://example.com" (String Regex.newline ""))
  = true
  /\ UrlParse.urlparse (String.append "http://example.com" (String Regex.newline ""))
     = Ok {| UrlParse.scheme := "http";
             UrlParse.netloc := String.append "example.com" (String Regex.newline "");
             UrlParse.bytes_result := false |}
  /\ Utils.is_url_valid "http://example.com" = true
  /\ Utils.is_url_valid "HTTPS://LocalHost:8080/a?b=c" = true
  /\ Utils.is_url_valid "http://127.0.0.1" = true
  /\ Utils.is_url_valid "ftp://example.com/" = false
  /\ Utils.is_url_valid "http://exa_mple.com/" = false.
Proof. repeat split; vm_compute; reflexivity. Qed.

(** ** [prepare] *)

(** C4, as the claim states it, fails: a response with status 200 and
    the content type [Text/HTML] is skipped. *)
Lemma prepare_rejects_capitals :
  prepare_response HttpDate.strptime Site.capitals
  = Raise (SitemapObjError "SKIP http://example.com/: CONTENT-TYPE unsupported").
Proof. vm_compute. reflexivity. Qed.

(** C4, amended.  [prepare] skips a response with status 200 for its
    content type exactly when the header is absent, empty, or does not
    start with the lower-case string [text/html]; the comparison regards
    case. *)
Theorem prepare_content_type (strptime : string -> option datetime) (r : Response) :
  r_status r = 200%Z ->
  (content_type_skip (r_url r) (prepare_response strptime r)
   <-> content_type_html (r_headers r) = false).
Proof.
  intros Hst. unfold prepare_response, content_type_skip, content_type_html.
  rewrite Hst. cbn [Z.eqb Pos.eqb negb].
  destruct (headers_get "content-type" (r_headers r)) as [c|].
  - destruct c as [|c0 c].
    + cbn. split; auto.
    + cbn [PyStr.truthy negb]. rewrite re_match_Lit.
      destruct (PyStr.startswith "text/html" (String c0 c)); cbn [negb].
      * split; [|discriminate].
        intros [H|H];
          destruct (headers_get "last-modified" (r_headers r)) as [lm|];
          try discriminate;
          destruct (negb (PyStr.truthy lm)); try discriminate;
          destruct (strptime lm); discriminate.
      * split; auto.
  - split; auto.
Qed.

(** The equivalence at the response [Site.capitals]. *)
Lemma prepare_content_type_witness :
  r_status Site.capitals = 200%Z
  /\ content_type_html (r_headers Site.capitals) = false
  /\ content_type_skip (r_url Site.capitals)
       (prepare_response HttpDate.strptime Site.capitals).
Proof.
  split; [reflexivity|]. split; [reflexivity|].
  apply (proj2 (@prepare_content_type HttpDate.strptime Site.capitals eq_refl)).
  reflexivity.
Defined.

(** ** Requests *)

Section RequestFacts.

Variable cfg : Conf.
Variable aiohttp_request : nat -> string -> string -> option Response.

Lemma set_requests_twice (a b : list Request) (st : state) :
  set_requests a (set_requests b st) = set_requests a st.
Proof. reflexivity. Qed.

(** A call of [__do_request] sends its request at most [left] times,
    at least once when it returns a response, and changes nothing
    else; it does not raise. *)
Lemma do_request_loop_sends (method url : string) (left : nat) :
  forall st, exists k o,
    (k <= left)%nat
    /\ (o <> None -> 1 <= k)%nat
    /\ __do_request_loop aiohttp_request left method url st
       = (Ok o, set_requests (requests st ++ repeat (method, url) k)%list st).
Proof.
  induction left as [|left IH]; intros st.
  - exists 0%nat, None. split; [lia|]. split; [congruence|].
    cbn. rewrite app_nil_r. destruct st; reflexivity.
  - cbn [__do_request_loop].
    destruct (aiohttp_request (length (requests st)) method url) as [r|].
    + exists 1%nat, (Some r). split; [lia|]. split; [lia|]. reflexivity.
    + destruct (IH (set_requests (requests st ++ [(method, url)])%list st))
        as (k & o & Hk & Ho & Heq).
      exists (S k), o. split; [lia|]. split; [lia|]. rewrite Heq.
      cbn [requests set_requests repeat]. rewrite <- app_assoc. reflexivity.
Qed.

Lemma do_request_sends (self : SitemapObj.t) (method : string) (st : state) :
  exists k o,
    (k <= Z.to_nat (REQUEST_RETRY cfg))%nat
    /\ (o <> None -> 1 <= k)%nat
    /\ __do_request cfg aiohttp_request self method st
       = (Ok o,
          set_requests
            (requests st ++ repeat (method, SitemapObj.url self) k)%list st).
Proof. apply do_request_loop_sends. Qed.

End RequestFacts.

(** C3, as the claim states it, fails: for a response that passes the
    status and content-type tests and is dated [2015-10-21T07:28:00Z],
    [prepare] raises [ValueError], and a crawl that starts at such a page
    visits nothing. *)
Lemma prepare_raises_on_a_bad_date :
  fst (prepare conf Site.iso_site HttpDate.strptime
               (SitemapObj.__init__ "http://example.com/")
               (walker_init "http://example.com/" "example.com"))
  = Raise (ValueError "time data does not match format")
  /\ visited (snd (traverse_links conf Site.iso_site HttpDate.strptime
                                  Site.in_order 3
                                  (walker_init "http://example.com/" "example.com")))
     = [].
Proof. split; vm_compute; reflexivity. Qed.

(** C3, amended.  For a HEAD response that passes the status and
    content-type tests, [prepare] returns a descriptor without date when
    the [last-modified] header is absent or empty, and one with the date
    when the header parses; when it does not parse, [prepare] raises
    [ValueError], the coroutine of the walker ends with that exception,
    and the URL is not visited. *)
Theorem prepare_last_modified
        (cfg : Conf) (aiohttp_request : nat -> string -> string -> option Response)
        (strptime : string -> option datetime)
        (url : string) (lvlidx : Z) (st st' : state) (r : Response) :
  __do_request cfg aiohttp_request (SitemapObj.__init__ url) "head" st
  = (Ok (Some r), st') ->
  r_status r = 200%Z ->
  content_type_html (r_headers r) = true ->
  match headers_get "last-modified" (r_headers r) with
  | None =>
      prepare cfg aiohttp_request strptime (SitemapObj.__init__ url) st
      = (Ok {| SitemapObj.url := r_url r; SitemapObj.last_mod := None |}, st')
  | Some last_mod =>
      if PyStr.truthy last_mod then
        match strptime last_mod with
        | Some d =>
            prepare cfg aiohttp_request strptime (SitemapObj.__init__ url) st
            = (Ok {| SitemapObj.url := r_url r; SitemapObj.last_mod := Some d |}, st')
        | None =>
            prepare cfg aiohttp_request strptime (SitemapObj.__init__ url) st
            = (Raise (ValueError "time data does not match format"), st')
            /\ head_request_resume cfg aiohttp_request strptime url lvlidx st
               = (Raise (ValueError "time data does not match format"), st')
            /\ visited st' = visited st
            /\ objs st' = objs st
        end
      else
        prepare cfg aiohttp_request strptime (SitemapObj.__init__ url) st
        = (Ok {| SitemapObj.url := r_url r; SitemapObj.last_mod := None |}, st')
  end.
Proof.
  intros Hreq Hst Hct.
  assert (Hprep : prepare cfg aiohttp_request strptime (SitemapObj.__init__ url) st
                  = (prepare_response strptime r, st')).
  { unfold prepare, bind. rewrite Hreq. reflexivity. }
  assert (Hresp : prepare_response strptime r
                  = match headers_get "last-modified" (r_headers r) with
                    | None => Ok {| SitemapObj.url := r_url r; SitemapObj.last_mod := None |}
                    | Some last_mod =>
                        if negb (PyStr.truthy last_mod)
                        then Ok {| SitemapObj.url := r_url r; SitemapObj.last_mod := None |}
                        else match strptime last_mod with
                             | Some d => Ok {| SitemapObj.url := r_url r;
                                               SitemapObj.last_mod := Some d |}
                             | None => Raise (ValueError "time data does not match format")
                             end
                    end).
  { unfold prepare_response. rewrite Hst. cbn [Z.eqb Pos.eqb negb].
    unfold content_type_html in Hct.
    destruct (headers_get "content-type" (r_headers r)) as [c|]; [|discriminate].
    rewrite re_match_Lit, Hct.
    destruct c; [discriminate|]. reflexivity. }
  rewrite Hprep, Hresp.
  destruct (headers_get "last-modified" (r_headers r)) as [lm|]; [|reflexivity].
  destruct (PyStr.truthy lm) eqn:Hlm; cbn [negb]; [|reflexivity].
  destruct (strptime lm) as [d|] eqn:Hd; [reflexivity|].
  split; [reflexivity|].
  destruct (do_request_sends cfg aiohttp_request (SitemapObj.__init__ url) "head" st)
    as (k & o & _ & _ & Hk).
  rewrite Hreq in Hk. injection Hk as _ Hk.
  split; [|subst st'; split; reflexivity].
  unfold head_request_resume. rewrite Hprep, Hresp. reflexivity.
Qed.

(** The case of a date that does not parse, on the site [Site.iso_site]. *)
Lemma prepare_last_modified_witness :
  __do_request conf Site.iso_site (SitemapObj.__init__ "http://example.com/") "head"
             (walker_init "http://example.com/" "example.com")
  = (Ok (Some Site.iso_dated),
     set_requests [("head", "http://example.com/")]
                  (walker_init "http://example.com/" "example.com"))
  /\ (prepare conf Site.iso_site HttpDate.strptime
              (SitemapObj.__init__ "http://example.com/")
              (walker_init "http://example.com/" "example.com")
      = (Raise (ValueError "time data does not match format"),
         set_requests [("head", "http://example.com/")]
                      (walker_init "http://example.com/" "example.com"))
      /\ head_request_resume conf Site.iso_site HttpDate.strptime
                             "http://example.com/" 1
                             (walker_init "http://example.com/" "example.com")
         = (Raise (ValueError "time data does not match format"),
            set_requests [("head", "http://example.com/")]
                         (walker_init "http://example.com/" "example.com"))
      /\ visited (set_requests [("head", "http://example.com/")]
                               (walker_init "http://example.com/" "example.com"))
         = visited (walker_init "http://example.com/" "example.com")
      /\ objs (set_requests [("head", "http://example.com/")]
                            (walker_init "http://example.com/" "example.com"))
         = objs (walker_init "http://example.com/" "example.com")).
Proof.
  split; [reflexivity|].
  exact (@prepare_last_modified
           conf Site.iso_site HttpDate.strptime "http://example.com/" 1%Z
           (walker_init "http://example.com/" "example.com")
           (set_requests [("head", "http://example.com/")]
                         (walker_init "http://example.com/" "example.com"))
           Site.iso_dated eq_refl eq_refl eq_refl).
Defined.

(** ** The coroutine of the HEAD phase *)

Ltac simpl_state :=
  cbn [visited objs domain netloc nextlvl requests
       set_objs set_visited set_target set_requests set_nextlvl].

Section HeadFacts.

Variable cfg : Conf.
Variable aiohttp_request : nat -> string -> string -> option Response.
Variable strptime : string -> option datetime.

Let resume := head_request_resume cfg aiohttp_request strptime.

(** What one resumed HEAD coroutine does to the walker: it sends its
    request up to [REQUEST_RETRY] times; then it leaves the walker as it
    is, or (at level 0) retargets it without accepting the page, or
    accepts the page: as it was requested, or after a redirect that
    [validate_update_url] lets through (at level 0 against the new
    target). *)
Lemma head_request_resume_cases (url : string) (lvlidx : Z) (st : state) :
  exists k st1,
    (k <= Z.to_nat (REQUEST_RETRY cfg))%nat
    /\ st1 = set_requests (requests st ++ repeat ("head", url) k)%list st
    /\ (snd (resume url lvlidx st) = st1
        \/ (exists up,
               lvlidx = 0%Z
               /\ snd (resume url lvlidx st)
                  = set_target (UrlParse.scheme up ++ "://" ++ UrlParse.netloc up)
                               (UrlParse.netloc up) st1)
        \/ (exists obj,
               (1 <= k)%nat
               /\ in_visited (SitemapObj.url obj) (visited st) = false
               /\ ((SitemapObj.url obj = url
                    /\ snd (resume url lvlidx st) = accepted obj st1)
                   \/ (exists up v,
                          lvlidx <> 0%Z
                          /\ UrlParse.urlparse (SitemapObj.url obj) = Ok up
                          /\ SitemapObj.validate_update_url
                               up (SitemapObj.url obj) (domain st) (netloc st) true
                             = Ok (Some v)
                          /\ snd (resume url lvlidx st) = accepted obj st1)
                   \/ (exists up v,
                          lvlidx = 0%Z
                          /\ UrlParse.urlparse (SitemapObj.url obj) = Ok up
                          /\ SitemapObj.validate_update_url
                               up (SitemapObj.url obj)
                               (UrlParse.scheme up ++ "://" ++ UrlParse.netloc up)
                               (UrlParse.netloc up) false
                             = Ok (Some v)
                          /\ snd (resume url lvlidx st)
                             = accepted obj
                                 (set_target
                                    (UrlParse.scheme up ++ "://" ++ UrlParse.netloc up)
                                    (UrlParse.netloc up) st1))))).
Proof.
  destruct (do_request_sends cfg aiohttp_request (SitemapObj.__init__ url) "head" st)
    as (k & o & Hk & Hk1 & Hreq).
  cbn [SitemapObj.__init__ SitemapObj.url] in Hreq.
  exists k, (set_requests (requests st ++ repeat ("head", url) k)%list st).
  split; [exact Hk|]. split; [reflexivity|].
  subst resume. unfold head_request_resume, prepare, bind. rewrite Hreq.
  set (st1 := set_requests (requests st ++ repeat ("head", url) k)%list st) in *.
  destruct o as [r|]; [|left; reflexivity].
  assert (Hk1' : (1 <= k)%nat) by (apply Hk1; congruence).
  unfold lift.
  destruct (prepare_response strptime r) as [obj|e];
    [|left; destruct e; reflexivity].
  unfold objs_append, visited_add, ret, get, modify, lift.
  destruct (String.eqb (SitemapObj.url obj) url) eqn:Hurl; cbn [negb].
  - (* the page answered under the requested url *)
    apply String.eqb_eq in Hurl.
    change (visited st1) with (visited st).
    destruct (in_visited (SitemapObj.url obj) (visited st)) eqn:Hin.
    + left; reflexivity.
    + right; right. exists obj. split; [exact Hk1'|]. split; [exact Hin|].
      left. split; [exact Hurl|]. subst st1. simpl_state. rewrite Hin. reflexivity.
  - (* a redirect *)
    destruct (lvlidx =? 0)%Z eqn:Hlvl; cbn [negb].
    + apply Z.eqb_eq in Hlvl.
      destruct (UrlParse.urlparse (SitemapObj.url obj)) as [up|e] eqn:Hup;
        [|left; reflexivity].
      cbn [domain netloc set_target].
      destruct (SitemapObj.validate_update_url
                  up (SitemapObj.url obj)
                  (UrlParse.scheme up ++ "://" ++ UrlParse.netloc up)
                  (UrlParse.netloc up) false) as [[v|]|e] eqn:Hv;
        try (right; left; exists up; split; [exact Hlvl|reflexivity]).
      destruct (PyStr.truthy v); cbn [negb];
        [|right; left; exists up; split; [exact Hlvl|reflexivity]].
      change (visited (set_target _ _ st1)) with (visited st).
      destruct (in_visited (SitemapObj.url obj) (visited st)) eqn:Hin;
        [right; left; exists up; split; [exact Hlvl|reflexivity]|].
      right; right. exists obj. split; [exact Hk1'|]. split; [exact Hin|].
      right; right. exists up, v. split; [exact Hlvl|]. split; [exact Hup|].
      split; [exact Hv|]. subst st1. simpl_state. rewrite Hin. reflexivity.
    + apply Z.eqb_neq in Hlvl.
      destruct (UrlParse.urlparse (SitemapObj.url obj)) as [up|e] eqn:Hup;
        [|left; reflexivity].
      change (domain st1) with (domain st). change (netloc st1) with (netloc st).
      destruct (SitemapObj.validate_update_url
                  up (SitemapObj.url obj) (domain st) (netloc st) true)
        as [[v|]|e] eqn:Hv; try (left; reflexivity).
      destruct (PyStr.truthy v); cbn [negb]; [|left; reflexivity].
      change (visited st1) with (visited st).
      destruct (in_visited (SitemapObj.url obj) (visited st)) eqn:Hin;
        [left; reflexivity|].
      right; right. exists obj. split; [exact Hk1'|]. split; [exact Hin|].
      right; left. exists up, v. split; [exact Hlvl|]. split; [exact Hup|].
      split; [exact Hv|]. subst st1. simpl_state. rewrite Hin. reflexivity.
Qed.

(** A resumed HEAD coroutine sends HEAD requests for its url only. *)
Lemma head_request_resume_requests (url : string) (lvlidx : Z) (st : state) :
  exists k,
    (k <= Z.to_nat (REQUEST_RETRY cfg))%nat
    /\ requests (snd (resume url lvlidx st))
       = (requests st ++ repeat ("head", url) k)%list.
Proof.
  destruct (head_request_resume_cases url lvlidx st)
    as (k & st1 & Hk & Hst1 & Hcases).
  exists k. split; [exact Hk|].
  destruct Hcases as [H | [(up & _ & H) | (obj & _ & _ & H)]].
  - rewrite H, Hst1. reflexivity.
  - rewrite H, Hst1. reflexivity.
  - destruct H as [(_ & H) | [(up & v & _ & _ & _ & H) | (up & v & _ & _ & _ & H)]];
      rewrite H, Hst1; reflexivity.
Qed.

End HeadFacts.

(** ** The batch executor *)

Section ExecutorFacts.

Variable S : Type.
Variable cfg : Conf.
Variable order : forall A : Type, list A -> list A.
Hypothesis order_perm : forall (A : Type) (l : list A), Permutation (order l) l.

Lemma order_nil (A : Type) : order (@nil A) = [].
Proof. apply Permutation_nil, Permutation_sym, order_perm. Qed.

Lemma order_one (A : Type) (a : A) : order [a] = [a].
Proof. apply Permutation_length_1_inv, Permutation_sym, order_perm. Qed.

Lemma until_falsy_next_n_nil (A : Type) (truthy : A -> bool) (n : nat) :
  until_falsy truthy (next_n n []) = [].
Proof. destruct n; reflexivity. Qed.

(** The executor on one item: nothing for a limit below one, one task
    for a true item, and the exception of [asyncio.wait] for a false
    one. *)
Lemma group_execute_one (A : Type) (truthy : A -> bool)
      (handler : A -> Coro S) (x : A) (st : S) :
  __group_execute_tasks cfg order truthy handler [x] st
  = if (SELECTOR_LIMIT cfg <=? 0)%Z then (Ok tt, st)
    else if truthy x then
      match handler x st with
      | (Ok (Some t), st1) => (Ok tt, snd (t st1))
      | (_, st1) => (Ok tt, st1)
      end
    else (Raise (ValueError "Set of coroutines/Futures is empty."), st).
Proof.
  unfold __group_execute_tasks.
  destruct (SELECTOR_LIMIT cfg <=? 0)%Z eqn:Hlim.
  - apply Z.leb_le in Hlim.
    replace (Z.to_nat (SELECTOR_LIMIT cfg)) with 0%nat by lia. reflexivity.
  - apply Z.leb_gt in Hlim.
    destruct (Z.to_nat (SELECTOR_LIMIT cfg)) as [|n] eqn:Hn; [lia|].
    cbn [zip_longest length zip_longest_fuel next_n run_groups].
    unfold bind, run_group. cbn [until_falsy].
    destruct (truthy x); [|reflexivity].
    rewrite until_falsy_next_n_nil. cbn [map start_tasks]. unfold bind.
    destruct (handler x st) as [[[t|]|e] st1]; cbn.
    + rewrite order_one. reflexivity.
    + rewrite order_nil. reflexivity.
    + rewrite order_nil. reflexivity.
Qed.

Variable P : S -> Prop.

Lemma bind_keeps (A B : Type) (m : M S A) (k : A -> M S B) (st : S) :
  P (snd (m st)) ->
  (forall a, fst (m st) = Ok a -> P (snd (k a (snd (m st))))) ->
  P (snd (bind m k st)).
Proof.
  unfold bind. destruct (m st) as [[a|e] st']; cbn [fst snd]; intros H1 H2.
  - apply H2. reflexivity.
  - exact H1.
Qed.

Lemma start_tasks_keeps (coros : list (Coro S)) :
  Forall (coro_keeps P) coros ->
  forall st,
    P st ->
    P (snd (start_tasks coros st))
    /\ forall ts, fst (start_tasks coros st) = Ok ts -> Forall (task_keeps P) ts.
Proof.
  induction 1 as [|c coros Hc _ IH]; intros st Hst.
  - cbn. split; [exact Hst|]. intros ts [= <-]. constructor.
  - cbn [start_tasks]. destruct (Hc st Hst) as [Hst' Ht].
    destruct (c st) as [[[t|]|e] st']; cbn [fst snd] in *;
      try (apply IH, Hst').
    destruct (IH st' Hst') as [Hst'' Hts]. unfold bind, ret.
    destruct (start_tasks coros st') as [[ts|e] st'']; cbn [fst snd] in *.
    + split; [exact Hst''|]. intros ts' [= <-].
      constructor; [apply Ht; reflexivity|apply Hts; reflexivity].
    + split; [exact Hst''|]. discriminate.
Qed.

Lemma resume_tasks_keeps (ts : list (Task S)) :
  Forall (task_keeps P) ts -> forall st, P st -> P (snd (resume_tasks ts st)).
Proof.
  induction 1 as [|t ts Ht _ IH]; intros st Hst; [exact Hst|].
  cbn [resume_tasks]. apply IH, Ht, Hst.
Qed.

Lemma run_group_keeps (A : Type) (truthy : A -> bool) (handler : A -> Coro S)
      (s : list (option A)) :
  (forall a, coro_keeps P (handler a)) ->
  forall st, P st -> P (snd (run_group order truthy handler s st)).
Proof.
  intros Hh st Hst. unfold run_group.
  destruct (until_falsy truthy s) as [|a g]; [exact Hst|].
  destruct (@start_tasks_keeps (map handler (a :: g))) with (st := st)
    as [Hst' Hts]; [apply Forall_map, Forall_forall; intros; apply Hh|exact Hst|].
  apply bind_keeps; [exact Hst'|].
  intros ts Hfst. apply resume_tasks_keeps; [|exact Hst'].
  apply (Permutation_Forall (Permutation_sym (order_perm ts))), Hts, Hfst.
Qed.

(** The executor keeps what every coroutine it runs keeps. *)
Lemma group_execute_keeps (A : Type) (truthy : A -> bool) (handler : A -> Coro S)
      (tasks : list A) :
  (forall a, coro_keeps P (handler a)) ->
  forall st, P st -> P (snd (__group_execute_tasks cfg order truthy handler tasks st)).
Proof.
  intros Hh. unfold __group_execute_tasks.
  induction (zip_longest (Z.to_nat (SELECTOR_LIMIT cfg)) tasks) as [|s ss IH];
    intros st Hst; [exact Hst|].
  cbn [run_groups]. apply bind_keeps.
  - apply run_group_keeps; assumption.
  - intros _ _. apply IH. apply run_group_keeps; assumption.
Qed.

End ExecutorFacts.

(** ** The driver *)

Section DriverFacts.

Variable cfg : Conf.
Variable aiohttp_request : nat -> string -> string -> option Response.
Variable strptime : string -> option datetime.
Variable order : forall A : Type, list A -> list A.
Hypothesis order_perm : forall (A : Type) (l : list A), Permutation (order l) l.

(** The HEAD phase of level 0, where the seed is the one candidate. *)
Lemma head_phase_of_the_seed (lvlidx : Z) (d : string) (st : state) :
  __group_execute_tasks cfg order PyStr.truthy
    (__head_request_coro cfg aiohttp_request strptime lvlidx) (order [d]) st
  = if (SELECTOR_LIMIT cfg <=? 0)%Z then (Ok tt, st)
    else if PyStr.truthy d then
      if in_visited d (visited st) then (Ok tt, st)
      else (Ok tt, snd (head_request_resume cfg aiohttp_request strptime d lvlidx st))
    else (Raise (ValueError "Set of coroutines/Futures is empty."), st).
Proof.
  rewrite (order_one order order_perm), (group_execute_one cfg order order_perm).
  unfold __head_request_coro, bind, get, ret.
  destruct (in_visited d (visited st)); reflexivity.
Qed.

End DriverFacts.

(** ** The batches *)

Section BatchFacts.

Import Probe.

Variable A : Type.
Variable truthy : A -> bool.
Variable cfg : Conf.
Variable order : forall A : Type, list A -> list A.
Hypothesis order_perm : forall (A : Type) (l : list A), Permutation (order l) l.

Lemma until_falsy_next_n (n : nat) :
  forall l : list A,
    forallb truthy l = true -> until_falsy truthy (next_n n l) = firstn n l.
Proof.
  induction n as [|n IH]; intros l Hl; [reflexivity|].
  destruct l as [|x l]; [reflexivity|].
  cbn [forallb] in Hl. apply andb_true_iff in Hl as [Hx Hl].
  cbn [next_n until_falsy firstn]. rewrite Hx, IH by exact Hl. reflexivity.
Qed.

Lemma forallb_skipn (n : nat) :
  forall l : list A, forallb truthy l = true -> forallb truthy (skipn n l) = true.
Proof.
  induction n as [|n IH]; intros l Hl; [exact Hl|].
  destruct l as [|x l]; [reflexivity|].
  cbn [forallb] in Hl. apply andb_true_iff in Hl as [_ Hl]. apply IH, Hl.
Qed.

Lemma start_tasks_probe (g : list A) :
  forall tr : list (event A),
    start_tasks (map handler g) tr
    = (Ok (map (fun a => record (Completed a)) g), (tr ++ map Launched g)%list).
Proof.
  induction g as [|a g IH]; intros tr.
  - cbn. rewrite app_nil_r. reflexivity.
  - cbn [map start_tasks]. unfold handler at 1, record at 1, bind, modify, ret.
    rewrite IH. cbn [map]. rewrite <- app_assoc. reflexivity.
Qed.

Lemma resume_tasks_probe (g : list A) :
  forall tr : list (event A),
    resume_tasks (map (fun a => record (Completed a)) g) tr
    = (Ok tt, (tr ++ map Completed g)%list).
Proof.
  induction g as [|a g IH]; intros tr.
  - cbn. rewrite app_nil_r. reflexivity.
  - cbn [map resume_tasks].
    change (snd (record (Completed a) tr)) with (tr ++ [Completed a])%list.
    rewrite IH, <- app_assoc. reflexivity.
Qed.

(** One group: its items are started in order, and all of them end, in
    the order of the event loop, before the call returns. *)
Lemma run_group_probe (s : list (option A)) (g : list A) (tr : list (event A)) :
  until_falsy truthy s = g -> g <> [] ->
  exists g',
    Permutation g' g
    /\ run_group order truthy handler s tr
       = (Ok tt, (tr ++ map Launched g ++ map Completed g')%list).
Proof.
  intros Hs Hg. unfold run_group. rewrite Hs.
  destruct g as [|a g]; [congruence|].
  unfold bind. rewrite start_tasks_probe.
  match goal with
  | |- context [order ?ts] =>
      destruct (Permutation_map_inv _ _ (order_perm ts)) as (g' & Hg' & Hperm)
  end.
  exists g'. split; [apply Permutation_sym, Hperm|].
  unfold Task in *. rewrite Hg', resume_tasks_probe, <- app_assoc. reflexivity.
Qed.

Lemma run_groups_probe (n fuel : nat) :
  forall (l : list A) (tr : list (event A)),
    (length l <= fuel)%nat -> forallb truthy l = true ->
    exists rounds : list (list A * list A),
      concat (map fst rounds) = l
      /\ Forall (fun r => (1 <= length (fst r) <= S n)%nat
                          /\ Permutation (snd r) (fst r)) rounds
      /\ run_groups order truthy handler (zip_longest_fuel fuel (S n) l) tr
         = (Ok tt, (tr ++ rounds_trace rounds)%list).
Proof.
  induction fuel as [|fuel IH]; intros l tr Hlen Hl.
  - destruct l; [|cbn in Hlen; lia].
    exists []. cbn. rewrite app_nil_r. auto.
  - destruct l as [|x l].
    + exists []. cbn. rewrite app_nil_r. auto.
    + cbn [zip_longest_fuel run_groups]. unfold bind.
      assert (Hg : until_falsy truthy (next_n (S n) (x :: l)) = firstn (S n) (x :: l))
        by (apply until_falsy_next_n, Hl).
      destruct (run_group_probe (next_n (S n) (x :: l)) tr Hg) as (g' & Hperm & Hrun).
      { cbn. discriminate. }
      rewrite Hrun.
      destruct (IH (skipn (S n) (x :: l))
                   (tr ++ map Launched (firstn (S n) (x :: l)) ++ map Completed g')%list)
        as (rounds & Hcat & Hall & Hruns).
      { cbn [skipn length] in *. rewrite length_skipn. lia. }
      { apply forallb_skipn, Hl. }
      exists ((firstn (S n) (x :: l), g') :: rounds). split; [|split].
      * cbn [map concat fst]. rewrite Hcat. apply firstn_skipn.
      * constructor; [|exact Hall]. cbn [fst snd]. split; [|exact Hperm].
        rewrite length_firstn. cbn [length]. lia.
      * rewrite Hruns. unfold rounds_trace. cbn [map concat fst snd].
        rewrite <- !app_assoc. reflexivity.
Qed.

Lemma peak_lower (cur : nat) (tr : list (event A)) : (cur <= peak cur tr)%nat.
Proof. destruct tr as [|[a|a] tr]; cbn; lia. Qed.

Lemma peak_launched (g : list A) :
  forall (cur : nat) (rest : list (event A)),
    peak cur (map Launched g ++ rest) = peak (cur + length g) rest.
Proof.
  induction g as [|a g IH]; intros cur rest.
  - cbn. f_equal. lia.
  - cbn [map app peak length]. rewrite IH.
    replace (S cur + length g)%nat with (cur + S (length g))%nat by lia.
    pose proof (peak_lower (cur + S (length g)) rest). lia.
Qed.

Lemma peak_completed (g : list A) :
  forall (cur : nat) (rest : list (event A)),
    peak cur (map Completed g ++ rest) = Nat.max cur (peak (cur - length g) rest).
Proof.
  induction g as [|a g IH]; intros cur rest.
  - cbn. rewrite Nat.sub_0_r. pose proof (peak_lower cur rest). lia.
  - cbn [map app peak length]. rewrite IH.
    replace (Nat.pred cur - length g)%nat with (cur - S (length g))%nat by lia.
    lia.
Qed.

Lemma peak_rounds (n : nat) (rounds : list (list A * list A)) :
  Forall (fun r => (1 <= length (fst r) <= n)%nat
                   /\ Permutation (snd r) (fst r)) rounds ->
  (peak 0 (rounds_trace rounds) <= n)%nat.
Proof.
  induction 1 as [|[g g'] rounds [Hlen Hperm] _ IH]; [cbn; lia|].
  unfold rounds_trace in *. cbn [map concat fst snd] in *.
  rewrite <- app_assoc, peak_launched, peak_completed.
  apply Permutation_length in Hperm. rewrite Hperm.
  cbn [Nat.add]. rewrite Nat.sub_diag. lia.
Qed.

End BatchFacts.

(** C8, as the claim states it, fails: of the items [a], the empty string
    and [b], the executor starts [a] alone; the empty string stops the
    loop over the tuple, and [b] is in no group. *)
Lemma batch_drops_items_after_a_false_one :
  __group_execute_tasks conf Site.in_order PyStr.truthy Probe.handler
                      ["a"; ""; "b"] []
  = (Ok tt, [Probe.Launched "a"; Probe.Completed "a"]).
Proof. vm_compute. reflexivity. Qed.

(** C8, amended.  For a limit of at least one and items that are all true
    (no empty string), the executor works in rounds: the items of the
    rounds, in order, are the items given; a round has between one and
    [SELECTOR_LIMIT] items; the tasks of a round are started in order and
    all end, in the order of the event loop, before the next round
    starts; so never more than [SELECTOR_LIMIT] tasks are started and not
    ended. *)
Theorem batches_are_rounds
        (cfg : Conf) (order : forall A : Type, list A -> list A) :
  (forall (A : Type) (l : list A), Permutation (order A l) l) ->
  forall (A : Type) (truthy : A -> bool) (items : list A),
    (1 <= SELECTOR_LIMIT cfg)%Z ->
    forallb truthy items = true ->
    exists rounds : list (list A * list A),
      concat (map fst rounds) = items
      /\ Forall (fun r => (1 <= length (fst r) <= Z.to_nat (SELECTOR_LIMIT cfg))%nat
                          /\ Permutation (snd r) (fst r)) rounds
      /\ __group_execute_tasks cfg order truthy Probe.handler items []
         = (Ok tt, Probe.rounds_trace rounds)
      /\ (Probe.peak 0 (Probe.rounds_trace rounds)
          <= Z.to_nat (SELECTOR_LIMIT cfg))%nat.
Proof.
  intros Hperm A truthy items Hlim Hitems.
  unfold __group_execute_tasks.
  destruct (Z.to_nat (SELECTOR_LIMIT cfg)) as [|n] eqn:Hn; [lia|].
  cbn [zip_longest].
  destruct (@run_groups_probe A truthy order Hperm n (length items) items []
                              (le_n _) Hitems)
    as (rounds & Hcat & Hall & Hrun).
  exists rounds. split; [exact Hcat|]. split; [exact Hall|].
  split; [exact Hrun|]. apply (@peak_rounds A), Hall.
Qed.

(** Three items, two at a time. *)
Lemma batches_are_rounds_witness :
  (forall (A : Type) (l : list A), Permutation (Site.in_order l) l)
  /\ (1 <= SELECTOR_LIMIT Site.two_at_a_time)%Z
  /\ forallb PyStr.truthy ["a"; "b"; "c"] = true
  /\ exists rounds : list (list string * list string),
      concat (map fst rounds) = ["a"; "b"; "c"]
      /\ Forall (fun r => (1 <= length (fst r)
                            <= Z.to_nat (SELECTOR_LIMIT Site.two_at_a_time))%nat
                          /\ Permutation (snd r) (fst r)) rounds
      /\ __group_execute_tasks Site.two_at_a_time Site.in_order PyStr.truthy
                             Probe.handler ["a"; "b"; "c"] []
         = (Ok tt, Probe.rounds_trace rounds)
      /\ (Probe.peak 0 (Probe.rounds_trace rounds)
          <= Z.to_nat (SELECTOR_LIMIT Site.two_at_a_time))%nat.
Proof.
  split; [intros A l; apply Permutation_refl|].
  split; [cbn; lia|].
  split; [reflexivity|].
  apply (@batches_are_rounds Site.two_at_a_time Site.in_order
           (fun A l => Permutation_refl l) string PyStr.truthy ["a"; "b"; "c"]).
  - cbn. lia.
  - reflexivity.
Defined.

(** ** The emitter *)

Section TreeFacts.

Lemma map_map_last (A B : Type) (h : A -> B) (f : A -> A) (l : list A) :
  (forall x, h (f x) = h x) -> map h (map_last f l) = map h l.
Proof.
  intros Hf. induction l as [|x l IH]; [reflexivity|].
  destruct l as [|y l]; cbn [map_last map] in *.
  - rewrite Hf. reflexivity.
  - rewrite IH. reflexivity.
Qed.

Lemma tag_indent (level : nat) (e : Element) : tag (__indent level e) = tag e.
Proof.
  destruct e as [t a tx tl [|c ch]]; cbn [__indent].
  - destruct (negb (level =? 0)%nat && blank tl); reflexivity.
  - reflexivity.
Qed.

(** Indenting a leaf changes its tail at most. *)
Lemma indent_leaf (level : nat) (e : Element) :
  children e = [] ->
  tag (__indent level e) = tag e /\ text (__indent level e) = text e
  /\ children (__indent level e) = [].
Proof.
  destruct e as [t a tx tl ch]; cbn [children]. intros ->. cbn [__indent].
  destruct (negb (level =? 0)%nat && blank tl); auto.
Qed.

Lemma tail_only_set (i : string) :
  tail_only (fun e => if blank (tail e) then set_tail i e else e).
Proof. intros e. destruct (blank (tail e)); auto. Qed.

(** Indenting keeps the tags of the children of an element and, when
    they are leaves, the tags and texts of its grandchildren. *)
Lemma outline_indent (level : nat) (e : Element) :
  Forall (fun c => Forall (fun g => children g = []) (children c)) (children e) ->
  outline (__indent level e) = outline e.
Proof.
  destruct e as [t a tx tl ch]. cbn [children]. intros Hch.
  destruct ch as [|c0 ch0]; cbn [__indent].
  { destruct (negb (level =? 0)%nat && blank tl); reflexivity. }
  unfold outline. cbn [children].
  set (ch := c0 :: ch0) in *. clearbody ch.
  rewrite map_map_last.
  2:{ intros x. destruct (tail_only_set (String Regex.newline (spaces level)) x)
        as (-> & _ & ->). reflexivity. }
  rewrite map_map. apply map_ext_Forall.
  revert Hch. apply Forall_impl. intros c Hc.
  rewrite tag_indent. f_equal.
  destruct c as [ct ca ctx ctl cch]. cbn [children] in *.
  destruct cch as [|g0 cch0]; cbn [__indent].
  { destruct (negb (S level =? 0)%nat && blank ctl); reflexivity. }
  cbn [children]. set (cch := g0 :: cch0) in *. clearbody cch.
  rewrite map_map_last.
  2:{ intros x. destruct (tail_only_set (String Regex.newline (spaces (S level))) x)
        as (-> & -> & _). reflexivity. }
  rewrite map_map. apply map_ext_Forall.
  revert Hc. apply Forall_impl. intros g Hg.
  destruct (indent_leaf (S (S level)) g Hg) as (-> & -> & _). reflexivity.
Qed.

End TreeFacts.

Section FileFacts.

Lemma fs_lookup_delete (p q : string) (fs : FS) :
  fs_lookup q (fs_delete p fs) = if String.eqb p q then None else fs_lookup q fs.
Proof.
  induction fs as [|[p' f] fs IH]; cbn [fs_delete filter fs_lookup fst].
  - destruct (String.eqb p q); reflexivity.
  - fold (fs_delete p fs).
    destruct (String.eqb_spec p' p) as [->|Hp]; cbn [negb].
    + rewrite IH. destruct (String.eqb p q); reflexivity.
    + cbn [fs_lookup]. rewrite IH.
      destruct (String.eqb_spec p' q) as [->|Hq].
      * destruct (String.eqb_spec p q); [congruence|reflexivity].
      * reflexivity.
Qed.

Lemma last_char_app (a : string) (c : ascii) (b : string) :
  PyStr.last_char (a ++ String c b) = PyStr.last_char (String c b).
Proof.
  induction a as [|x a IH]; [reflexivity|].
  cbn [String.append].
  assert (H : exists y s, a ++ String c b = String y s)
    by (destruct a; cbn; eauto).
  destruct H as (y & s & H). rewrite H in *. exact IH.
Qed.

(** The archive is no document: their names end differently. *)
Lemma zip_is_not_xml (a b : string) : String.eqb (a ++ ".zip") (b ++ ".xml") = false.
Proof.
  apply String.eqb_neq. intros H.
  apply (f_equal PyStr.last_char) in H.
  rewrite !last_char_app in H. discriminate.
Qed.

End FileFacts.

Section EmitterFacts.

Variable strftime : datetime -> string.

Lemma fold_append_nodes (items : list SitemapObj.t) :
  forall root : Element,
    fold_left (fun root l => append (xml_node strftime l) root) items root
    = set_children (children root ++ map (xml_node strftime) items)%list root.
Proof.
  induction items as [|o items IH]; intros root.
  - cbn. rewrite app_nil_r. destruct root; reflexivity.
  - cbn [fold_left map]. rewrite IH. unfold append. cbn [children set_children].
    rewrite <- app_assoc. reflexivity.
Qed.

(** The document of a chunk: a [urlset] with one [url] node for each
    object up to the first false one, in order. *)
Lemma urlset_outline (objlist : list (option SitemapObj.t)) :
  tag (urlset strftime objlist) = "urlset"
  /\ outline (urlset strftime objlist)
     = map (url_entry strftime) (until_falsy (fun _ => true) objlist)
  /\ length (children (urlset strftime objlist))
     = length (until_falsy (fun _ => true) objlist).
Proof.
  assert (Hout : outline (urlset strftime objlist)
                 = map (url_entry strftime) (until_falsy (fun _ => true) objlist)).
  { unfold urlset. rewrite fold_append_nodes. cbn [children new_element set_attrib app].
    rewrite outline_indent.
    - unfold outline. cbn [children set_children]. rewrite map_map.
      apply map_ext. intros o. unfold xml_node, url_entry.
      destruct (SitemapObj.last_mod o); reflexivity.
    - cbn [children set_children]. apply Forall_map, Forall_forall. intros o _.
      unfold xml_node. destruct (SitemapObj.last_mod o); cbn; repeat constructor. }
  split; [|split].
  - unfold urlset. rewrite tag_indent, fold_append_nodes. reflexivity.
  - exact Hout.
  - rewrite <- (length_map (fun c => (tag c, map (fun g => (tag g, text g)) (children c)))).
    fold (outline (urlset strftime objlist)). rewrite Hout. apply length_map.
Qed.

End EmitterFacts.

Section ChunkFacts.

Variable A : Type.

Lemma zip_longest_fuel_nil (fuel n : nat) : @zip_longest_fuel A fuel n [] = [].
Proof. destruct fuel; reflexivity. Qed.

(** A list one chunk and a part long is cut in two tuples. *)
Lemma zip_longest_two (n m : nat) (l : list A) :
  length l = (n + m)%nat -> (1 <= m <= n)%nat ->
  zip_longest n l = [next_n n l; next_n n (skipn n l)].
Proof.
  intros Hlen Hm. unfold zip_longest.
  destruct n as [|n]; [lia|].
  destruct l as [|x l]; [cbn in Hlen; lia|].
  rewrite Hlen. replace (S n + m)%nat with (S (S (n + (m - 1))))%nat by lia.
  cbn [zip_longest_fuel]. f_equal.
  assert (Hskip : length (skipn (S n) (x :: l)) = m)
    by (rewrite length_skipn, Hlen; lia).
  destruct (skipn (S n) (x :: l)) as [|y l'] eqn:Hl'; [cbn in Hskip; lia|].
  f_equal. rewrite <- Hl'.
  assert (Hnil : skipn (S n) (skipn (S n) (x :: l)) = []).
  { apply skipn_all2. rewrite Hl'. lia. }
  rewrite Hnil. apply zip_longest_fuel_nil.
Qed.

End ChunkFacts.

Section ChunkRuns.

Variable cfg : Conf.
Variable strftime : datetime -> string.

(** One turn of the loop over the chunks: the chunk is written, added to
    the archive and removed, and the index gets its [sitemap] node. *)
Lemma generate_chunks_cons (domain_ : string) (idx : nat)
      (s : list (option SitemapObj.t)) (rest : list (list (option SitemapObj.t)))
      (root : Element) (zipf : list (string * file)) (fs : FS) :
  generate_chunks cfg strftime domain_ idx (s :: rest) root zipf fs
  = generate_chunks cfg strftime domain_ (S idx) rest
      (append
         (append
            (set_text
               (domain_ ++ "/"
                  ++ PyStr.after_last
                       "/" ((XML_PATH cfg ++ "sitemap" ++ PyStr.decimal idx) ++ ".xml"))
               (new_element "loc"))
            (new_element "sitemap"))
         root)
      (List.app zipf
                [((XML_PATH cfg ++ "sitemap" ++ PyStr.decimal idx) ++ ".xml",
                  XmlFile (urlset strftime s))])
      (fs_delete
         ((XML_PATH cfg ++ "sitemap" ++ PyStr.decimal idx) ++ ".xml")
         (((XML_PATH cfg ++ "sitemap" ++ PyStr.decimal idx) ++ ".xml",
           XmlFile (urlset strftime s))
            :: fs_delete
                 ((XML_PATH cfg ++ "sitemap" ++ PyStr.decimal idx) ++ ".xml") fs)).
Proof.
  cbn [generate_chunks].
  unfold __generate_sitemap, bind, fs_write, modify, ret, fs_read, os_remove.
  cbn [fs_lookup]. rewrite String.eqb_refl.
  cbn [fs_lookup]. rewrite String.eqb_refl. reflexivity.
Qed.

End ChunkRuns.

(** C9.  For 50001 visited descriptors and the limit of 50000 of
    [conf.py], [generate_sitemap] returns the path of an archive with
    three members: the chunks [xml/sitemap0.xml] and [xml/sitemap1.xml],
    [urlset] documents with a [url] node for each of the first 50000
    descriptors and for the last one, and the index, a [sitemapindex]
    whose two [sitemap/loc] nodes are the domain, a slash and the file
    name of a chunk.  The chunk files and the index file are deleted:
    afterwards the archive is the only path that changed. *)
Theorem generate_sitemap_splits_50001
        (strftime : datetime -> string) (domain_ : string)
        (visited_ : list SitemapObj.t) (filename : string) (fs : FS) :
  Z.of_nat (length visited_) = 50001%Z ->
  exists (c0 c1 idx : Element) (fs' : FS),
    generate_sitemap conf strftime domain_ visited_ filename fs
    = (Ok (filename ++ ".zip"), fs')
    /\ (forall q : string,
           fs_lookup q fs'
           = if String.eqb (filename ++ ".zip") q then
               Some (ZipFile [("xml/sitemap0.xml", XmlFile c0);
                              ("xml/sitemap1.xml", XmlFile c1);
                              (filename ++ ".xml", XmlFile idx)])
             else if String.eqb "xml/sitemap0.xml" q
                     || String.eqb "xml/sitemap1.xml" q
                     || String.eqb (filename ++ ".xml") q
                  then None
                  else fs_lookup q fs)
    /\ tag c0 = "urlset"
    /\ outline c0
       = map (url_entry strftime) (firstn (Z.to_nat (SITEMAP_SIZE conf)) visited_)
    /\ Z.of_nat (length (children c0)) = 50000%Z
    /\ tag c1 = "urlset"
    /\ outline c1
       = map (url_entry strftime) (skipn (Z.to_nat (SITEMAP_SIZE conf)) visited_)
    /\ Z.of_nat (length (children c1)) = 1%Z
    /\ tag idx = "sitemapindex"
    /\ outline idx
       = [("sitemap", [("loc", Some (domain_ ++ "/" ++ "sitemap0.xml"))]);
          ("sitemap", [("loc", Some (domain_ ++ "/" ++ "sitemap1.xml"))])].
Proof.
  intros Hlen.
  unfold generate_sitemap.
  replace (Z.of_nat (length visited_) <=? SITEMAP_SIZE conf)%Z with false
    by (rewrite Hlen; reflexivity).
  remember (Z.to_nat (SITEMAP_SIZE conf)) as N eqn:HN.
  assert (HN' : Z.of_nat N = 50000%Z).
  { subst N. change (SITEMAP_SIZE conf) with 50000%Z. lia. }
  clear HN.
  rewrite (@zip_longest_two _ N 1 visited_) by lia.
  set (s0 := next_n N visited_). set (s1 := next_n N (skipn N visited_)).
  exists (urlset strftime s0), (urlset strftime s1).
  assert (Hs0 : until_falsy (fun _ : SitemapObj.t => true) s0 = firstn N visited_).
  { apply until_falsy_next_n. apply forallb_forall. reflexivity. }
  assert (Hs1 : until_falsy (fun _ : SitemapObj.t => true) s1 = skipn N visited_).
  { unfold s1. rewrite until_falsy_next_n by (apply forallb_forall; reflexivity).
    apply firstn_all2. rewrite length_skipn. lia. }
  destruct (urlset_outline strftime s0) as (Ht0 & Ho0 & Hl0).
  destruct (urlset_outline strftime s1) as (Ht1 & Ho1 & Hl1).
  rewrite Hs0 in Ho0, Hl0. rewrite Hs1 in Ho1, Hl1.
  rewrite length_firstn in Hl0. rewrite length_skipn in Hl1.
  clearbody s0 s1.
  eexists. eexists. split; [|split].
  - unfold bind at 1. unfold fs_write at 1, modify.
    unfold bind at 1. rewrite !generate_chunks_cons. cbn [generate_chunks].
    unfold ret at 1.
    unfold bind, fs_write, modify, ret, fs_read, os_remove.
    cbn [fs_lookup fst snd]. rewrite String.eqb_refl.
    cbn [fs_lookup fst snd]. rewrite String.eqb_refl. reflexivity.
  - intros q. cbn [fst snd app].
    repeat (progress (cbn [fs_lookup]; rewrite ?fs_lookup_delete)).
    change (PyStr.decimal 0) with "0". change (PyStr.decimal 1) with "1".
    change ((XML_PATH conf ++ "sitemap" ++ "0") ++ ".xml") with "xml/sitemap0.xml".
    change ((XML_PATH conf ++ "sitemap" ++ "1") ++ ".xml") with "xml/sitemap1.xml".
    destruct (String.eqb (filename ++ ".zip") q);
      destruct (String.eqb "xml/sitemap0.xml" q);
      destruct (String.eqb "xml/sitemap1.xml" q);
      destruct (String.eqb (filename ++ ".xml") q); reflexivity.
  - split; [exact Ht0|]. split; [exact Ho0|]. split; [lia|].
    split; [exact Ht1|]. split; [exact Ho1|]. split; [lia|].
    split; [apply tag_indent|].
    rewrite outline_indent; [reflexivity|].
    cbn. repeat constructor.
Qed.

(** ** The visited set *)

Section VisitedFacts.

Variable cfg : Conf.
Variable aiohttp_request : nat -> string -> string -> option Response.
Variable strptime : string -> option datetime.
Variable order : forall A : Type, list A -> list A.
Hypothesis order_perm : forall (A : Type) (l : list A), Permutation (order l) l.

Lemma urlparse_is_str (u : string) (p : UrlParse.ParseResult) :
  UrlParse.urlparse u = Ok p -> UrlParse.bytes_result p = false.
Proof.
  unfold UrlParse.urlparse. destruct (UrlParse.split_scheme u) as [sch u1].
  repeat match goal with
         | |- context [match ?x with _ => _ end] => destruct x
         end;
    try discriminate; intros [= <-]; reflexivity.
Qed.

(** What [validate_update_url] has checked of a URL it returns. *)
Lemma validate_update_url_checks (u dom nl : string) (b : bool)
      (p : UrlParse.ParseResult) (v : string) :
  UrlParse.urlparse u = Ok p ->
  SitemapObj.validate_update_url p u dom nl b = Ok (Some v) ->
  canonical dom nl u.
Proof.
  intros Hp Hv. exists p. split; [exact Hp|].
  apply urlparse_is_str in Hp.
  unfold SitemapObj.validate_update_url, UrlParse.netloc_is in Hv.
  rewrite Hp in Hv. cbn [negb andb] in Hv.
  destruct (PyStr.last_char dom); [|discriminate].
  destruct (String.eqb_spec (UrlParse.netloc p) "") as [He|He].
  - right. split; [exact He|].
    destruct (PyStr.truthy (dom ++ u)); cbn [negb] in Hv; [|discriminate].
    destruct (Utils.is_url_valid (dom ++ u)); [reflexivity|discriminate].
  - destruct (String.eqb_spec (UrlParse.netloc p) nl) as [Hn|Hn]; [|discriminate].
    left. split; [exact Hn|].
    destruct (PyStr.truthy u); cbn [negb] in Hv; [|discriminate].
    destruct (Utils.is_url_valid u); [reflexivity|discriminate].
Qed.

(** Sending requests and changing the collections of a level keeps the
    invariant. *)
Lemma walker_inv_later (d n : string) (st st' : state) :
  walker_inv d n st ->
  domain st' = domain st -> netloc st' = netloc st -> visited st' = visited st ->
  (forall r, In r (requests st) -> In r (requests st')) ->
  walker_inv d n st'.
Proof.
  intros (Hd & Hn & Hv) Hd' Hn' Hv' Hr. repeat split; try congruence.
  intros o Ho. rewrite Hv' in Ho. rewrite Hd', Hn'.
  destruct (Hv o Ho) as [H|H]; [left; apply Hr, H|right; exact H].
Qed.

Lemma process_links_effect (hrefs : list (option string)) (dom nl : string) :
  forall st, exists nx, snd (process_links hrefs dom nl st) = set_nextlvl nx st.
Proof.
  induction hrefs as [|href hrefs IH]; intros st.
  - exists (nextlvl st). destruct st; reflexivity.
  - cbn [process_links]. unfold bind, lift.
    destruct (UrlParse.urlparse_href href) as [up|e];
      [|exists (nextlvl st); destruct st; reflexivity].
    destruct (SitemapObj.validate_update_url _ _ _ _ _) as [u|e];
      [|exists (nextlvl st); destruct st; reflexivity].
    assert (Hk : forall nx2,
               exists nx,
                 snd (process_links hrefs dom nl (set_nextlvl nx2 st))
                 = set_nextlvl nx st).
    { intros nx2. destruct (IH (set_nextlvl nx2 st)) as (nx' & ->).
      exists nx'. reflexivity. }
    destruct u as [u|]; [destruct (PyStr.truthy u)|];
      try (unfold ret; cbn [fst snd]; apply IH).
    unfold nextlvl_add, modify.
    destruct (PyStr.mem u (nextlvl st)); [apply IH|apply Hk].
Qed.

Lemma process_effect (o : SitemapObj.t) (dom nl : string) (st : state) :
  exists rs nx,
    snd (process cfg aiohttp_request o dom nl st)
    = set_nextlvl nx (set_requests (requests st ++ rs)%list st).
Proof.
  unfold process, bind.
  destruct (do_request_sends cfg aiohttp_request o "get" st)
    as (k & r & _ & _ & ->).
  destruct r as [r|].
  - destruct (process_links_effect (r_hrefs r) dom nl
                (set_requests
                   (requests st ++ repeat ("get", SitemapObj.url o) k)%list st))
      as (nx & ->).
    eexists. exists nx. reflexivity.
  - eexists. exists (nextlvl st). reflexivity.
Qed.

Lemma get_request_coro_keeps (d n : string) (o : SitemapObj.t) :
  coro_keeps (walker_inv d n) (__get_request_coro cfg aiohttp_request o).
Proof.
  intros st Hst. unfold __get_request_coro, bind, get, ret. cbn [fst snd].
  split; [exact Hst|]. intros t [= <-]. intros st1 Hst1.
  destruct (process_effect o (domain st) (netloc st) st1) as (rs & nx & ->).
  apply walker_inv_later with (st := st1); try reflexivity; [exact Hst1|].
  intros r Hr. cbn. apply in_or_app. left. exact Hr.
Qed.

(** Past level 0 a HEAD coroutine keeps the target, and what it adds to
    the visited set was asked for or let through. *)
Lemma head_request_coro_keeps (d n : string) (lvlidx : Z) (url : string) :
  lvlidx <> 0%Z ->
  coro_keeps (walker_inv d n)
             (__head_request_coro cfg aiohttp_request strptime lvlidx url).
Proof.
  intros Hlvl st Hst. unfold __head_request_coro, bind, get, ret.
  destruct (in_visited url (visited st)); cbn [fst snd];
    (split; [exact Hst|]); [discriminate|].
  intros t [= <-]. clear st Hst. intros st Hst.
  destruct (head_request_resume_cases cfg aiohttp_request strptime url lvlidx st)
    as (k & st1 & _ & Hst1 & Hcases).
  assert (Hinv1 : walker_inv d n st1).
  { apply walker_inv_later with (st := st); subst st1; try reflexivity;
      [exact Hst|].
    intros r Hr. cbn. apply in_or_app. left. exact Hr. }
  destruct Hcases as [-> | [(up & H0 & _) | (obj & Hk & _ & H)]];
    [exact Hinv1|congruence|].
  assert (Hadd : forall obj,
             In ("head", SitemapObj.url obj) (requests st1)
             \/ canonical (domain st1) (netloc st1) (SitemapObj.url obj) ->
             walker_inv d n (accepted obj st1)).
  { intros obj' Hobj. destruct Hinv1 as (Hd & Hn & Hv). repeat split; [exact Hd|exact Hn|].
    intros o Ho. cbn in Ho. apply in_app_or in Ho as [Ho|[<-|[]]].
    - apply (Hv o Ho).
    - exact Hobj. }
  destruct H as [(Hurl & ->) | [(up & v & _ & Hup & Hv & ->) | (up & v & H0 & _)]];
    [| |congruence].
  - apply Hadd. left. rewrite Hurl, Hst1. cbn. apply in_or_app. right.
    destruct k; [lia|]. left. reflexivity.
  - apply Hadd. right. rewrite Hst1. cbn [domain netloc set_requests].
    eapply validate_update_url_checks; [exact Hup|exact Hv].
Qed.

Lemma traverse_loop_keeps (d n : string) (depth : Z) (fuel : nat) :
  forall (lvlidx : Z) (thislvl : list string) (st : state),
    (1 <= lvlidx)%Z ->
    walker_inv d n st ->
    walker_inv d n
      (snd (traverse_loop cfg aiohttp_request strptime order depth fuel
                          lvlidx thislvl st)).
Proof.
  induction fuel as [|fuel IH]; intros lvlidx thislvl st Hlvl Hst; [exact Hst|].
  cbn [traverse_loop]. destruct thislvl as [|u thislvl]; [exact Hst|].
  assert (Hmod : forall f : state -> state,
             (forall s, domain (f s) = domain s /\ netloc (f s) = netloc s
                        /\ visited (f s) = visited s /\ requests (f s) = requests s) ->
             forall s, walker_inv d n s -> walker_inv d n (snd (modify f s))).
  { intros f Hf s Hs. destruct (Hf s) as (H1 & H2 & H3 & H4).
    apply walker_inv_later with (st := s); auto. cbn. rewrite H4. auto. }
  apply bind_keeps; [apply Hmod; [intros; repeat split|exact Hst]|].
  intros _ _. apply bind_keeps; [apply Hmod; [intros; repeat split|];
                                 apply Hmod; [intros; repeat split|exact Hst]|].
  intros _ _.
  set (st0 := snd (modify (set_nextlvl []) (snd (modify (set_objs []) st)))).
  assert (Hst0 : walker_inv d n st0).
  { apply Hmod; [intros; repeat split|]. apply Hmod; [intros; repeat split|exact Hst]. }
  clearbody st0.
  assert (Hhead : walker_inv d n
            (snd (__group_execute_tasks cfg order PyStr.truthy
                    (__head_request_coro cfg aiohttp_request strptime lvlidx)
                    (order (u :: thislvl)) st0))).
  { apply group_execute_keeps; [exact order_perm| |exact Hst0].
    intros a. apply head_request_coro_keeps. lia. }
  apply bind_keeps; [exact Hhead|]. intros _ _.
  set (st1 := snd (__group_execute_tasks _ _ _ _ _ st0)) in *. clearbody st1.
  destruct (lvlidx >=? depth)%Z; [exact Hhead|].
  unfold bind at 1. unfold get at 1.
  assert (Hget : walker_inv d n
            (snd (__group_execute_tasks cfg order (fun _ : SitemapObj.t => true)
                    (__get_request_coro cfg aiohttp_request) (objs st1) st1))).
  { apply group_execute_keeps; [exact order_perm| |exact Hhead].
    intros a. apply get_request_coro_keeps. }
  apply bind_keeps; [exact Hget|]. intros _ _.
  unfold bind, get. apply IH; [lia|exact Hget].
Qed.

(** The HEAD phase of level 0 of a walker that has visited nothing. *)
Lemma seed_head_phase_checked (seed : string) (st : state) :
  visited st = [] ->
  visited_checked
    (snd (__group_execute_tasks cfg order PyStr.truthy
            (__head_request_coro cfg aiohttp_request strptime 0) (order [seed]) st)).
Proof.
  intros Hvis.
  assert (Hempty : forall s, visited s = [] -> visited_checked s).
  { intros s Hs o Ho. rewrite Hs in Ho. destruct Ho. }
  rewrite (head_phase_of_the_seed cfg aiohttp_request strptime order order_perm).
  destruct (SELECTOR_LIMIT cfg <=? 0)%Z; [apply Hempty, Hvis|].
  destruct (PyStr.truthy seed); [|apply Hempty, Hvis].
  destruct (in_visited seed (visited st)); [apply Hempty, Hvis|].
  cbn [snd].
  destruct (head_request_resume_cases cfg aiohttp_request strptime seed 0 st)
    as (k & st1 & _ & Hst1 & Hcases).
  assert (Hvis1 : visited st1 = []) by (subst st1; exact Hvis).
  destruct Hcases as [-> | [(up & _ & ->) | (obj & Hk & _ & H)]];
    [apply Hempty, Hvis1|apply Hempty, Hvis1|].
  destruct H as [(Hurl & ->) | [(up & v & H0 & _) | (up & v & _ & Hup & Hv & ->)]];
    [|congruence|].
  - intros o Ho. cbn in Ho. rewrite Hvis1 in Ho. destruct Ho as [<-|[]].
    left. rewrite Hurl, Hst1. cbn. apply in_or_app. right.
    destruct k; [lia|]. left. reflexivity.
  - intros o Ho. cbn in Ho. rewrite Hvis1 in Ho. destruct Ho as [<-|[]].
    right. cbn [domain netloc accepted set_visited set_objs set_target].
    eapply validate_update_url_checks; [exact Hup|exact Hv].
Qed.

(** The loop of [traverse_links] ends within the turns it is given. *)
Lemma traverse_loop_ends (depth : Z) (fuel : nat) :
  forall (lvlidx : Z) (thislvl : list string) (st : state),
    (Z.to_nat (depth - lvlidx) < fuel)%nat ->
    fst (traverse_loop cfg aiohttp_request strptime order depth fuel
                       lvlidx thislvl st) <> Ok None.
Proof.
  induction fuel as [|fuel IH]; intros lvlidx thislvl st Hfuel; [lia|].
  cbn [traverse_loop]. destruct thislvl as [|u thislvl]; [discriminate|].
  unfold bind at 1. unfold modify at 1. unfold bind at 1. unfold modify at 1.
  unfold bind at 1.
  destruct (__group_execute_tasks _ _ _ _ _ _) as [[[]|e] st1]; [|discriminate].
  destruct (lvlidx >=? depth)%Z eqn:Hlvl; [discriminate|].
  rewrite Z.geb_leb in Hlvl. apply Z.leb_gt in Hlvl.
  unfold bind at 1. unfold get at 1. unfold bind at 1.
  destruct (__group_execute_tasks _ _ _ _ _ _) as [[[]|e] st2]; [|discriminate].
  unfold bind, get. apply IH. lia.
Qed.

End VisitedFacts.

(** C5, as the claim states it, fails: on the site [Site.dotted] the
    walker for [http://example.com] visits [http://example.com./about.html],
    whose host is not the netloc [example.com], and [http://example.com?],
    which [is_url_valid] rejects. *)
Lemma visited_urls_off_the_netloc :
  visited (snd (traverse_links conf Site.dotted HttpDate.strptime Site.in_order 3
                               (walker_init "http://example.com" "example.com")))
  = [SitemapObj.__init__ "http://example.com";
     SitemapObj.__init__ "http://example.com./about.html";
     SitemapObj.__init__ "http://example.com?"]
  /\ netloc (snd (traverse_links conf Site.dotted HttpDate.strptime Site.in_order 3
                                 (walker_init "http://example.com" "example.com")))
     = "example.com"
  /\ UrlParse.urlparse "http://example.com./about.html"
     = Ok {| UrlParse.scheme := "http"; UrlParse.netloc := "example.com.";
             UrlParse.bytes_result := false |}
  /\ Utils.is_url_valid "http://example.com./about.html" = true
  /\ Utils.is_url_valid "http://example.com?" = false.
Proof. repeat split; vm_compute; reflexivity. Qed.

(** The archive for the 50001 descriptors of [Site.many_pages], written
    to an empty directory. *)
Lemma generate_sitemap_splits_50001_witness :
  Z.of_nat (length Site.many_pages) = 50001%Z
  /\ exists (c0 c1 idx : Element) (fs' : FS),
      generate_sitemap conf HttpDate.strftime "http://example.com" Site.many_pages
                       "xml/AbCdEfGhIjKl" []
      = (Ok ("xml/AbCdEfGhIjKl" ++ ".zip"), fs')
      /\ fs_lookup ("xml/AbCdEfGhIjKl" ++ ".zip") fs'
         = Some (ZipFile [("xml/sitemap0.xml", XmlFile c0);
                          ("xml/sitemap1.xml", XmlFile c1);
                          ("xml/AbCdEfGhIjKl" ++ ".xml", XmlFile idx)])
      /\ Z.of_nat (length (children c0)) = 50000%Z
      /\ Z.of_nat (length (children c1)) = 1%Z.
Proof.
  assert (Hlen : Z.of_nat (length Site.many_pages) = 50001%Z).
  { unfold Site.many_pages. rewrite length_map, length_seq. lia. }
  split; [exact Hlen|].
  destruct (@generate_sitemap_splits_50001 HttpDate.strftime "http://example.com"
              Site.many_pages "xml/AbCdEfGhIjKl" [] Hlen)
    as (c0 & c1 & idx & fs' & Hrun & Hfs & _ & _ & Hc0 & _ & _ & Hc1 & _).
  exists c0, c1, idx, fs'. split; [exact Hrun|]. split; [|split; assumption].
  rewrite Hfs, String.eqb_refl. reflexivity.
Defined.

(* ================================================================== *)
(** * Further properties of the code *)

Lemma all_chars_app (p : ascii -> bool) (a b : string) :
  PyStr.all_chars p (a ++ b) = PyStr.all_chars p a && PyStr.all_chars p b.
Proof.
  induction a as [|c a IH]; [reflexivity|].
  cbn [String.append PyStr.all_chars]. rewrite IH, andb_assoc. reflexivity.
Qed.

(** ** The strings that a pattern matches *)

Module RegexSemFacts.
Import Regex RegexSem.

Lemma append_nil_r (s : string) : s ++ "" = s.
Proof. induction s as [|c s IH]; [reflexivity|]. cbn. rewrite IH. reflexivity. Qed.

Lemma append_assoc (a b c : string) : (a ++ b) ++ c = a ++ (b ++ c).
Proof. induction a as [|x a IH]; [reflexivity|]. cbn. rewrite IH. reflexivity. Qed.

Lemma alt_sound (a b : regex) (w rest : string) :
  matches (alt a b) w rest -> matches a w rest \/ matches b w rest.
Proof. destruct a, b; cbn; tauto. Qed.

Lemma cat_sound (a b : regex) (w rest : string) :
  matches (cat a b) w rest -> matches (Cat a b) w rest.
Proof.
  destruct a; try (destruct b; cbn; tauto).
  destruct b; cbn; try tauto; intros H; exists "", w; cbn; auto.
Qed.

(** A pattern that can match the empty string at a position matches it. *)
Lemma nullable_sound (p : pos) (rest : string) (r : regex) :
  at_eol p = eol_here rest -> nullable p r = true -> matches r "" rest.
Proof.
  intros Hp. induction r as [| |f|r1 IH1 r2 IH2|r1 IH1 r2 IH2|r IH lo hi| |];
    cbn [nullable matches]; intros H; try discriminate; auto.
  - apply andb_true_iff in H as [H1 H2]. exists "", "". cbn. auto.
  - apply orb_true_iff in H as [H|H]; auto.
  - destruct lo as [|lo].
    + exists 0%nat. split; [lia|]. split; [destruct hi; [lia|exact I]|reflexivity].
    + exists (S lo). split; [lia|]. split; [destruct hi; [lia|exact I]|].
      specialize (IH H). clear H. generalize (S lo) as k.
      induction k as [|k IHk]; [reflexivity|]. exists "", "". cbn. auto.
  - split; [reflexivity|]. rewrite <- Hp. exact H.
Qed.

(** What is left of a pattern after a character matches the rest of what
    the pattern matches. *)
Lemma deriv_sound (p : pos) (c : ascii) (r : regex) :
  forall w rest,
    at_eol p = eol_here (String c (w ++ rest)) ->
    matches (deriv p c r) w rest -> matches r (String c w) rest.
Proof.
  induction r as [| |f|r1 IH1 r2 IH2|r1 IH1 r2 IH2|r IH lo hi| |];
    intros w rest Hp; cbn [deriv]; try (cbn; tauto).
  - destruct (f c) eqn:Hf; cbn; [|tauto]. intros ->. exists c. auto.
  - intros H. apply alt_sound in H as [H|H].
    + apply cat_sound in H. destruct H as (w1 & w2 & -> & H1 & H2).
      exists (String c w1), w2. split; [reflexivity|]. split; [|exact H2].
      apply IH1; [|exact H1]. rewrite <- append_assoc. exact Hp.
    + destruct (nullable p r1) eqn:Hn; [|destruct H].
      exists "", (String c w). split; [reflexivity|]. split.
      * apply (nullable_sound p); [exact Hp|exact Hn].
      * apply IH2; assumption.
  - intros H. apply alt_sound in H as [H|H]; [left; apply IH1|right; apply IH2];
      assumption.
  - assert (Hstep : forall hi',
               matches (cat (deriv p c r) (Rep r (Nat.pred lo) hi')) w rest ->
               exists k,
                 (Nat.pred lo <= k)%nat
                 /\ match hi' with
                    | Some h => (k <= Nat.max (Nat.pred lo) h)%nat
                    | None => True
                    end
                 /\ iter (matches r) (S k) (String c w) rest).
    { intros hi' H. apply cat_sound in H.
      destruct H as (w1 & w2 & -> & H1 & (k & Hlo & Hhi & Hk)).
      exists k. split; [exact Hlo|]. split; [exact Hhi|].
      exists (String c w1), w2. split; [reflexivity|]. split; [|exact Hk].
      apply IH; [|exact H1]. rewrite <- append_assoc. exact Hp. }
    destruct hi as [[|h]|]; [cbn; tauto| |]; intros H;
      destruct (Hstep _ H) as (k & Hlo & Hhi & Hk); exists (S k);
      (split; [lia|]); (split; [|exact Hk]); [lia|exact I].
Qed.

(** What the matcher accepts starts with a match of the pattern. *)
Lemma match_from_sound (s : string) :
  forall (bol : bool) (r : regex),
    match_from bol r s = true ->
    exists w rest, s = w ++ rest /\ matches r w rest.
Proof.
  induction s as [|c s IH]; intros bol r; cbn [match_from]; intros H;
    apply orb_true_iff in H as [H|H]; try discriminate.
  - exists "", "". split; [reflexivity|].
    apply (nullable_sound {| at_bol := bol; at_eol := eol_here "" |});
      [reflexivity|exact H].
  - exists "", (String c s). split; [reflexivity|].
    apply (nullable_sound {| at_bol := bol; at_eol := eol_here (String c s) |});
      [reflexivity|exact H].
  - destruct (IH _ _ H) as (w & rest & -> & Hw).
    exists (String c w), rest. split; [reflexivity|].
    apply (deriv_sound {| at_bol := bol; at_eol := eol_here (String c (w ++ rest)) |});
      [reflexivity|exact Hw].
Qed.

(** The characters of a match are among the classes of the pattern. *)
Lemma matches_classes (q : ascii -> bool) (r : regex) :
  classes q r ->
  forall w rest, matches r w rest -> PyStr.all_chars q w = true.
Proof.
  induction r as [| |f|r1 IH1 r2 IH2|r1 IH1 r2 IH2|r IH lo hi| |];
    cbn [classes matches]; intros Hq w rest H.
  - destruct H.
  - subst. reflexivity.
  - destruct H as (c & -> & Hf). cbn. rewrite (Hq _ Hf). reflexivity.
  - destruct H as (w1 & w2 & -> & H1 & H2). destruct Hq as (Hq1 & Hq2).
    rewrite all_chars_app, (IH1 Hq1 _ _ H1), (IH2 Hq2 _ _ H2). reflexivity.
  - destruct Hq as (Hq1 & Hq2).
    destruct H as [H|H]; [apply (IH1 Hq1 _ _ H)|apply (IH2 Hq2 _ _ H)].
  - destruct H as (k & _ & _ & Hk). revert w Hk.
    induction k as [|k IHk]; intros w Hk; [cbn in Hk; subst; reflexivity|].
    destruct Hk as (w1 & w2 & -> & H1 & H2).
    rewrite all_chars_app, (IH Hq _ _ H1), (IHk _ H2). reflexivity.
  - subst. reflexivity.
  - destruct H as (-> & _). reflexivity.
Qed.

Lemma length_append (a b : string) :
  String.length (a ++ b) = (String.length a + String.length b)%nat.
Proof. induction a as [|c a IH]; [reflexivity|]. cbn. rewrite IH. reflexivity. Qed.

(** A match is at least as long as the pattern needs. *)
Lemma matches_min_length (r : regex) :
  forall w rest, matches r w rest -> (min_length r <= String.length w)%nat.
Proof.
  induction r as [| |f|r1 IH1 r2 IH2|r1 IH1 r2 IH2|r IH lo hi| |];
    cbn [min_length matches]; intros w rest H; try lia.
  - destruct H as (c & -> & _). cbn. lia.
  - destruct H as (w1 & w2 & -> & H1 & H2). rewrite length_append.
    specialize (IH1 _ _ H1). specialize (IH2 _ _ H2). lia.
  - destruct H as [H|H]; [specialize (IH1 _ _ H)|specialize (IH2 _ _ H)]; lia.
  - destruct H as (k & Hlo & _ & Hk).
    assert (Hlen : forall n v,
               iter (matches r) n v rest ->
               (n * min_length r <= String.length v)%nat).
    { clear - IH. induction n as [|n IHn]; intros v Hv; [cbn; lia|].
      destruct Hv as (w1 & w2 & -> & H1 & H2). rewrite length_append.
      pose proof (IH _ _ H1). pose proof (IHn _ H2). cbn. lia. }
    specialize (Hlen _ _ Hk). nia.
Qed.

End RegexSemFacts.

(** ** The urls that [is_url_valid] accepts *)

Module UrlFacts.
Import Regex RegexSem RegexSemFacts Utils UrlShape.

(** A test that holds of the 256 characters holds of every character. *)
Lemma ascii_forall (P : ascii -> bool) :
  forallb (fun n => P (ascii_of_nat n)) (seq 0 256) = true ->
  forall c, P c = true.
Proof.
  intros H c. rewrite forallb_forall in H.
  rewrite <- (ascii_nat_embedding c). apply H, in_seq.
  pose proof (nat_ascii_bounded c). lia.
Qed.

Lemma class_within (f q : ascii -> bool) :
  forallb (fun n => implb (f (ascii_of_nat n)) (q (ascii_of_nat n))) (seq 0 256) = true ->
  forall c, f c = true -> q c = true.
Proof.
  intros H c Hf. pose proof (ascii_forall (fun c => implb (f c) (q c)) H c) as Hc.
  cbn beta in Hc. rewrite Hf in Hc. exact Hc.
Qed.

Lemma all_chars_within (f q : ascii -> bool) (s : string) :
  (forall c, f c = true -> q c = true) ->
  PyStr.all_chars f s = true -> PyStr.all_chars q s = true.
Proof.
  intros Hfq. induction s as [|c s IH]; [reflexivity|]. cbn [PyStr.all_chars].
  intros H. apply andb_true_iff in H as [Hc Hs]. rewrite (Hfq _ Hc), (IH Hs).
  reflexivity.
Qed.

Lemma lower_app (a b : string) :
  PyStr.lower (a ++ b) = PyStr.lower a ++ PyStr.lower b.
Proof. induction a as [|c a IH]; [reflexivity|]. cbn. rewrite IH. reflexivity. Qed.

(** A literal under [re.IGNORECASE] matches its letters in any case. *)
Lemma LitI_sound (lit : string) :
  forall w rest, matches (LitI lit) w rest -> PyStr.lower w = PyStr.lower lit.
Proof.
  induction lit as [|c lit IH]; intros w rest H; cbn [LitI matches] in H.
  - subst. reflexivity.
  - destruct H as (w1 & w2 & -> & (x & -> & Hx) & H2).
    apply Ascii.eqb_eq in Hx. cbn. rewrite Hx, (IH _ _ H2). reflexivity.
Qed.

Lemma Lit_sound (lit : string) :
  forall w rest, matches (Lit lit) w rest -> w = lit.
Proof.
  induction lit as [|c lit IH]; intros w rest H; cbn [Lit matches] in H.
  - exact H.
  - destruct H as (w1 & w2 & -> & (x & -> & Hx) & H2).
    apply Ascii.eqb_eq in Hx. cbn. rewrite Hx, (IH _ _ H2). reflexivity.
Qed.

Lemma Opt_sound (r : regex) (w rest : string) :
  matches (Opt r) w rest -> w = "" \/ matches r w rest.
Proof.
  unfold Opt. cbn [matches]. intros (k & _ & Hk & H).
  destruct k as [|[|k]]; [left; exact H| |cbn in Hk; lia].
  destruct H as (w1 & w2 & -> & H1 & H2). cbn in H2. subst.
  rewrite append_nil_r. right. exact H1.
Qed.

(** The separator matches as it is written: it has no letters. *)
Lemma separator_sound (w rest : string) :
  matches (LitI "://") w rest -> w = "://".
Proof.
  cbn [LitI matches].
  intros (w1 & w2 & -> & (x1 & -> & H1) & (w3 & w4 & -> & (x2 & -> & H2)
          & (w5 & w6 & -> & (x3 & -> & H3) & ->))).
  pose proof (class_within
                (fun x => Ascii.eqb (PyStr.lower_char x) (PyStr.lower_char ":"))
                (Ascii.eqb ":") ltac:(vm_compute; reflexivity) x1 H1) as E1.
  pose proof (class_within
                (fun x => Ascii.eqb (PyStr.lower_char x) (PyStr.lower_char "/"))
                (Ascii.eqb "/") ltac:(vm_compute; reflexivity) x2 H2) as E2.
  pose proof (class_within
                (fun x => Ascii.eqb (PyStr.lower_char x) (PyStr.lower_char "/"))
                (Ascii.eqb "/") ltac:(vm_compute; reflexivity) x3 H3) as E3.
  apply Ascii.eqb_eq in E1, E2, E3. subst. reflexivity.
Qed.

Ltac classes_by_cases :=
  repeat match goal with
         | |- _ /\ _ => split
         | |- True => exact I
         | |- forall c, _ = true -> _ = true =>
             apply class_within; vm_compute; reflexivity
         end.

Lemma host_classes : classes host_char host_pattern.
Proof.
  unfold host_pattern, domain_name, label_dot, ipv4, Plus, Opt, alnum, alnum_hyphen,
    alpha, digit, dot.
  cbn [classes Seq LitI]. classes_by_cases.
Qed.

Lemma port_classes : classes host_char port_pattern.
Proof.
  unfold port_pattern, Plus, Opt, digit. cbn [classes Lit]. classes_by_cases.
Qed.

Lemma scheme_classes : classes PyStr.is_alpha (LitI "http").
Proof. cbn [classes LitI]. classes_by_cases. Qed.

Lemma letter_s_classes : classes PyStr.is_alpha (LitI "s").
Proof. cbn [classes LitI]. classes_by_cases. Qed.

Lemma validator_classes :
  classes (fun c => negb (PyStr.is_space c)) url_validator.
Proof.
  unfold url_validator, domain_name, label_dot, ipv4, Plus, Opt, alnum, alnum_hyphen,
    alpha, digit, dot, nonspace.
  cbn [classes Seq LitI Lit]. classes_by_cases.
Qed.

Lemma eol_here_cases (rest : string) :
  eol_here rest = true -> rest = "" \/ rest = String newline "".
Proof.
  destruct rest as [|c [|d rest]]; cbn; intros H; try discriminate; auto.
  apply Ascii.eqb_eq in H. subst. auto.
Qed.

(** The parts of a url that [is_url_valid] accepts: the scheme in any
    letter case, the separator, a host with an optional port, and
    nothing more, or a path or query, before an optional last newline. *)
Lemma url_validator_parts (u : string) :
  is_url_valid u = true ->
  exists sch hostport after,
    u = sch ++ "://" ++ hostport ++ after
    /\ (PyStr.lower sch = "http" \/ PyStr.lower sch = "https")
    /\ PyStr.all_chars PyStr.is_alpha sch = true
    /\ PyStr.all_chars host_char hostport = true
    /\ hostport <> ""
    /\ (after = "" \/ after = String newline ""
        \/ exists c t, after = String c t /\ PyStr.mem_char c "/?" = true).
Proof.
  unfold is_url_valid, re_match. intros H.
  apply match_from_sound in H as (w & rest & -> & H).
  unfold url_validator in H. cbn [Seq] in H.
  fold host_pattern port_pattern path_pattern in H.
  destruct H as (w0 & v0 & -> & -> & H). cbn [matches] in H.
  destruct H as (w1 & v1 & -> & H1 & (w2 & v2 & -> & H2 & (w3 & v3 & -> & H3
                 & (w4 & v4 & -> & H4 & (w5 & v5 & -> & H5
                 & (w6 & w7 & -> & H6 & (-> & Heol))))))).
  apply separator_sound in H3. subst w3.
  exists (w1 ++ w2), (w4 ++ w5), (w6 ++ rest).
  split.
  { repeat first [rewrite append_assoc | rewrite append_nil_r
                  | progress cbn [String.append]].
    reflexivity. }
  split.
  { rewrite lower_app, (LitI_sound _ _ _ H1).
    apply Opt_sound in H2 as [->|H2]; [left; reflexivity|right].
    rewrite (LitI_sound _ _ _ H2). reflexivity. }
  split.
  { rewrite all_chars_app, (matches_classes _ _ scheme_classes _ _ H1).
    apply Opt_sound in H2 as [->|H2]; [reflexivity|].
    rewrite (matches_classes _ _ letter_s_classes _ _ H2). reflexivity. }
  split.
  { rewrite all_chars_app, (matches_classes _ _ host_classes _ _ H4),
      (matches_classes _ _ port_classes _ _ H5). reflexivity. }
  split.
  { apply matches_min_length in H4. intros Hnil.
    apply (f_equal String.length) in Hnil. rewrite length_append in Hnil.
    assert (Hmin : (4 <= min_length host_pattern)%nat) by (vm_compute; lia).
    cbn [String.length] in Hnil. lia. }
  apply eol_here_cases in Heol.
  destruct H6 as [H6|(x1 & x2 & -> & (c & -> & Hc) & _)].
  - apply Opt_sound in H6 as [->|H6].
    + destruct Heol as [->| ->]; auto.
    + apply Lit_sound in H6. subst w6. right; right. exists "/"%char, rest.
      split; reflexivity.
  - right; right. exists c, (x2 ++ rest). split; [reflexivity|exact Hc].
Qed.

Lemma partition_app (sep : ascii) (a b : string) :
  PyStr.all_chars (fun c => negb (Ascii.eqb c sep)) a = true ->
  UrlParse.partition sep (a ++ String sep b) = Some (a, b).
Proof.
  induction a as [|c a IH]; cbn [String.append UrlParse.partition PyStr.all_chars].
  - rewrite Ascii.eqb_refl. reflexivity.
  - intros H. apply andb_true_iff in H as [Hc Ha].
    apply negb_true_iff in Hc. rewrite Hc, (IH Ha). reflexivity.
Qed.

Lemma splitnetloc_app (a b : string) :
  PyStr.all_chars (fun c => negb (PyStr.mem_char c "/?#")) a = true ->
  UrlParse.splitnetloc (a ++ b) = a ++ UrlParse.splitnetloc b.
Proof.
  induction a as [|c a IH]; cbn [String.append UrlParse.splitnetloc PyStr.all_chars];
    [reflexivity|].
  intros H. apply andb_true_iff in H as [Hc Ha].
  apply negb_true_iff in Hc. rewrite Hc, (IH Ha). reflexivity.
Qed.

Lemma mem_char_false (c : ascii) (s : string) :
  PyStr.all_chars (fun d => negb (Ascii.eqb c d)) s = true ->
  PyStr.mem_char c s = false.
Proof.
  induction s as [|d s IH]; cbn [PyStr.all_chars PyStr.mem_char]; [reflexivity|].
  intros H. apply andb_true_iff in H as [Hd Hs].
  apply negb_true_iff in Hd. rewrite Hd, (IH Hs). reflexivity.
Qed.

(** [urlparse] on a url that [is_url_valid] accepts: the scheme is
    [http] or [https], and the netloc is what follows the separator up to
    the path or query. *)
Lemma urlparse_of_a_valid_url (u : string) :
  is_url_valid u = true ->
  exists (p : UrlParse.ParseResult) (sch after : string),
    UrlParse.urlparse u = Ok p
    /\ u = sch ++ "://" ++ UrlParse.netloc p ++ after
    /\ UrlParse.scheme p = PyStr.lower sch
    /\ (UrlParse.scheme p = "http" \/ UrlParse.scheme p = "https")
    /\ UrlParse.netloc p <> ""
    /\ UrlParse.bytes_result p = false.
Proof.
  intros H.
  destruct (url_validator_parts u H)
    as (sch & hp & after & -> & Hsch & Halpha & Hhp & Hne & Hafter).
  assert (Hnl : exists t after',
             UrlParse.splitnetloc (hp ++ after) = hp ++ t
             /\ after = t ++ after'
             /\ (t = "" \/ t = String newline "")).
  { rewrite splitnetloc_app
      by (revert Hhp; apply all_chars_within, class_within; vm_compute; reflexivity).
    destruct Hafter as [->|[->|(c & t & -> & Hc)]].
    - exists "", "". auto.
    - exists (String newline ""), "". auto.
    - exists "", (String c t). cbn [UrlParse.splitnetloc].
      replace (PyStr.mem_char c "/?#") with true; [auto|].
      cbn [PyStr.mem_char] in *. symmetry.
      apply orb_true_iff in Hc as [Hc|Hc]; [rewrite Hc; reflexivity|].
      apply orb_true_iff in Hc as [Hc|Hc]; [|discriminate].
      rewrite Hc, orb_true_r. reflexivity. }
  destruct Hnl as (t & after' & Hnl & -> & Ht).
  assert (Hbr : forall c : ascii,
             (forall d, UrlShape.host_char d = true -> negb (Ascii.eqb c d) = true) ->
             negb (Ascii.eqb c newline) = true ->
             PyStr.mem_char c (hp ++ t) = false).
  { intros c Hc Hn. apply mem_char_false. rewrite all_chars_app.
    rewrite (all_chars_within _ _ _ Hc Hhp).
    destruct Ht as [->| ->]; cbn [PyStr.all_chars]; [reflexivity|].
    rewrite Hn. reflexivity. }
  assert (Hsch' : PyStr.truthy sch = true)
    by (destruct sch; [destruct Hsch; discriminate|reflexivity]).
  assert (Hsplit : UrlParse.split_scheme (sch ++ "://" ++ hp ++ t ++ after')
                   = (PyStr.lower sch, String "/" (String "/" (hp ++ t ++ after')))).
  { unfold UrlParse.split_scheme. cbn [String.append].
    rewrite partition_app
      by (revert Halpha; apply all_chars_within, class_within; vm_compute; reflexivity).
    rewrite Hsch'.
    destruct (String.eqb_spec sch "http") as [->|_]; [reflexivity|].
    replace (PyStr.all_chars UrlParse.scheme_chars sch) with true
      by (symmetry; revert Halpha; apply all_chars_within, class_within;
          vm_compute; reflexivity).
    reflexivity. }
  unfold UrlParse.urlparse. rewrite Hsplit, Hnl.
  rewrite (Hbr "["%char), (Hbr "]"%char);
    try (apply class_within; vm_compute; reflexivity); try reflexivity.
  cbn [andb orb].
  eexists. exists sch, after'. split; [reflexivity|].
  cbn [UrlParse.scheme UrlParse.netloc UrlParse.bytes_result].
  split; [rewrite !append_assoc; reflexivity|].
  split; [reflexivity|]. split; [exact Hsch|]. split; [|reflexivity].
  intros Hnil. destruct hp; [congruence|discriminate].
Qed.

Lemma splitnetloc_cut (s : string) :
  UrlParse.splitnetloc (PyStr.before_first "#" s) = UrlParse.splitnetloc s.
Proof.
  induction s as [|c s IH]; [reflexivity|].
  cbn [PyStr.before_first UrlParse.splitnetloc].
  destruct (Ascii.eqb_spec c "#") as [->|Hc]; [reflexivity|].
  cbn [UrlParse.splitnetloc]. rewrite IH. reflexivity.
Qed.

(** After a scheme of letters, [urlparse] reads the scheme in lower case
    and the netloc up to the first delimiter. *)
Lemma split_scheme_letters (sch rest : string) :
  PyStr.all_chars PyStr.is_alpha sch = true ->
  PyStr.truthy sch = true ->
  UrlParse.split_scheme (sch ++ "://" ++ rest)
  = (PyStr.lower sch, String "/" (String "/" rest)).
Proof.
  intros Halpha Hsch. unfold UrlParse.split_scheme. cbn [String.append].
  rewrite partition_app
    by (revert Halpha; apply all_chars_within, class_within; vm_compute; reflexivity).
  rewrite Hsch.
  destruct (String.eqb_spec sch "http") as [->|_]; [reflexivity|].
  replace (PyStr.all_chars UrlParse.scheme_chars sch) with true
    by (symmetry; revert Halpha; apply all_chars_within, class_within;
        vm_compute; reflexivity).
  reflexivity.
Qed.

Lemma urlparse_same_netloc (sch a b : string) :
  PyStr.all_chars PyStr.is_alpha sch = true ->
  PyStr.truthy sch = true ->
  UrlParse.splitnetloc a = UrlParse.splitnetloc b ->
  UrlParse.urlparse (sch ++ "://" ++ a) = UrlParse.urlparse (sch ++ "://" ++ b).
Proof.
  intros Halpha Hsch Hab. unfold UrlParse.urlparse.
  rewrite !split_scheme_letters by assumption. rewrite Hab. reflexivity.
Qed.

End UrlFacts.

(** X15.  Of the urls whose characters are all below U+0100, which are
    the strings of this development, [is_url_valid] accepts only those
    that start with [http://] or [https://], in any letter case.  (Above
    U+0100 the letter case of [re.IGNORECASE] knows more letters: the
    long s counts as an [s].) *)
Theorem is_url_valid_wants_http (u : string) :
  Utils.is_url_valid u = true ->
  exists pre rest,
    u = pre ++ rest
    /\ (PyStr.lower pre = "http://" \/ PyStr.lower pre = "https://").
Proof.
  intros H.
  destruct (UrlFacts.url_validator_parts u H) as (sch & hp & after & -> & Hsch & _).
  exists (sch ++ "://"), (hp ++ after).
  split; [rewrite RegexSemFacts.append_assoc; reflexivity|].
  rewrite UrlFacts.lower_app. destruct Hsch as [-> | ->]; auto.
Qed.

Lemma is_url_valid_wants_http_witness :
  Utils.is_url_valid "HTTPS://example.com/a" = true
  /\ exists pre rest,
      "HTTPS://example.com/a" = pre ++ rest
      /\ (PyStr.lower pre = "http://" \/ PyStr.lower pre = "https://").
Proof.
  assert (H : Utils.is_url_valid "HTTPS://example.com/a" = true)
    by (vm_compute; reflexivity).
  split; [exact H|]. apply (is_url_valid_wants_http _ H).
Defined.

(** X16.  A url that [is_url_valid] accepts holds no white space, but
    for one newline at its very end. *)
Theorem is_url_valid_has_no_space (u : string) :
  Utils.is_url_valid u = true ->
  exists m rest,
    u = m ++ rest
    /\ PyStr.all_chars (fun c => negb (PyStr.is_space c)) m = true
    /\ (rest = "" \/ rest = String Regex.newline "").
Proof.
  unfold Utils.is_url_valid, Regex.re_match. intros H.
  apply RegexSemFacts.match_from_sound in H as (w & rest & -> & H).
  exists w, rest. split; [reflexivity|].
  split; [apply (RegexSemFacts.matches_classes _ _ UrlFacts.validator_classes _ _ H)|].
  unfold Utils.url_validator in H. cbn [Regex.Seq] in H.
  fold UrlShape.host_pattern UrlShape.port_pattern UrlShape.path_pattern in H.
  destruct H as (w0 & v0 & _ & _ & H). cbn [RegexSem.matches] in H.
  destruct H as (w1 & v1 & _ & _ & (w2 & v2 & _ & _ & (w3 & v3 & _ & _
                 & (w4 & v4 & _ & _ & (w5 & v5 & _ & _
                 & (w6 & w7 & _ & _ & (_ & Heol))))))).
  apply UrlFacts.eol_here_cases, Heol.
Qed.

Lemma is_url_valid_has_no_space_witness :
  Utils.is_url_valid "http://example.com/a?b=c" = true
  /\ exists m rest,
      "http://example.com/a?b=c" = m ++ rest
      /\ PyStr.all_chars (fun c => negb (PyStr.is_space c)) m = true
      /\ (rest = "" \/ rest = String Regex.newline "").
Proof.
  assert (H : Utils.is_url_valid "http://example.com/a?b=c" = true)
    by (vm_compute; reflexivity).
  split; [exact H|]. apply (is_url_valid_has_no_space _ H).
Defined.

(** X17.  For a url whose characters are all below U+0100, which are
    the strings of this development: [urlparse] does not raise on a url
    that [is_url_valid] accepts; it returns the scheme [http] or
    [https], the lower case of what stands before [://], and a netloc
    that is not empty, the part of the url after [://] up to the path or
    query. *)
Theorem urlparse_accepts_valid_urls (u : string) :
  Utils.is_url_valid u = true ->
  exists (p : UrlParse.ParseResult) (sch after : string),
    UrlParse.urlparse u = Ok p
    /\ u = sch ++ "://" ++ UrlParse.netloc p ++ after
    /\ UrlParse.scheme p = PyStr.lower sch
    /\ (UrlParse.scheme p = "http" \/ UrlParse.scheme p = "https")
    /\ UrlParse.netloc p <> ""
    /\ UrlParse.bytes_result p = false.
Proof. apply UrlFacts.urlparse_of_a_valid_url. Qed.

Lemma urlparse_accepts_valid_urls_witness :
  Utils.is_url_valid "HTTPS://example.com:8080/a" = true
  /\ exists (p : UrlParse.ParseResult),
      UrlParse.urlparse "HTTPS://example.com:8080/a" = Ok p
      /\ UrlParse.scheme p = "https"
      /\ UrlParse.netloc p = "example.com:8080".
Proof.
  assert (H : Utils.is_url_valid "HTTPS://example.com:8080/a" = true)
    by (vm_compute; reflexivity).
  split; [exact H|].
  destruct (urlparse_accepts_valid_urls _ H) as (p & sch & after & Hp & _).
  exists p. split; [exact Hp|].
  vm_compute in Hp. injection Hp as <-. split; reflexivity.
Defined.

(** ** [validate_update_url] *)

Lemma before_first_has_no_sep (sep : ascii) (s : string) :
  PyStr.mem_char sep (PyStr.before_first sep s) = false.
Proof.
  induction s as [|c s IH]; [reflexivity|].
  cbn [PyStr.before_first]. destruct (Ascii.eqb c sep) eqn:Hc; [reflexivity|].
  cbn [PyStr.mem_char]. rewrite IH, Ascii.eqb_sym, Hc. reflexivity.
Qed.

Lemma before_first_app (sep : ascii) (a b : string) :
  PyStr.all_chars (fun c => negb (Ascii.eqb c sep)) a = true ->
  PyStr.before_first sep (a ++ b) = a ++ PyStr.before_first sep b.
Proof.
  induction a as [|c a IH]; cbn [String.append PyStr.before_first PyStr.all_chars];
    [reflexivity|].
  intros H. apply andb_true_iff in H as [Hc Ha].
  apply negb_true_iff in Hc. rewrite Hc, (IH Ha). reflexivity.
Qed.

(** The part before the anchor of a url that [is_url_valid] accepts is a
    kept link. *)
Lemma valid_url_cut_is_kept (u : string) :
  Utils.is_url_valid u = true -> kept_link (PyStr.before_first "#" u).
Proof.
  intros H.
  destruct (UrlFacts.url_validator_parts u H)
    as (sch & hp & after & -> & Hsch & Halpha & _).
  assert (Hcut : PyStr.before_first "#" (sch ++ "://" ++ hp ++ after)
                 = (sch ++ "://") ++ PyStr.before_first "#" (hp ++ after)).
  { rewrite <- RegexSemFacts.append_assoc. apply before_first_app.
    rewrite all_chars_app.
    replace (PyStr.all_chars (fun c => negb (Ascii.eqb c "#")) sch) with true;
      [reflexivity|].
    symmetry. revert Halpha.
    apply UrlFacts.all_chars_within, UrlFacts.class_within. vm_compute. reflexivity. }
  split; [|split].
  - rewrite Hcut. destruct sch; [destruct Hsch; discriminate|reflexivity].
  - apply before_first_has_no_sep.
  - exists (sch ++ "://"), (PyStr.before_first "#" (hp ++ after)).
    split; [exact Hcut|]. rewrite UrlFacts.lower_app.
    destruct Hsch as [-> | ->]; auto.
Qed.

(** What [validate_update_url] returns as a URL is a kept link: the part
    before the anchor of the link, or of the link glued to the domain,
    when [is_url_valid] accepts it. *)
Lemma validate_update_url_kept
        (p_url : UrlParse.ParseResult) (href domain_ netloc_ : string)
        (exclude_root : bool) (v : string) :
  SitemapObj.validate_update_url p_url href domain_ netloc_ exclude_root
  = Ok (Some v) ->
  (exists u,
      (u = domain_ ++ href \/ u = href)
      /\ Utils.is_url_valid u = true
      /\ v = PyStr.before_first "#" u)
  /\ kept_link v.
Proof.
  unfold SitemapObj.validate_update_url.
  destruct (PyStr.last_char domain_); [|discriminate].
  destruct (if UrlParse.netloc_is p_url "" then Some (domain_ ++ href)
            else if UrlParse.netloc_is p_url netloc_ then Some href else None)
    as [u|] eqn:Hu; [|discriminate].
  destruct (negb (PyStr.truthy u)); [discriminate|].
  destruct (Utils.is_url_valid u) eqn:Hvalid; [|discriminate]. cbn [negb].
  destruct (exclude_root && _); [discriminate|].
  intros [= <-]. split; [|apply valid_url_cut_is_kept, Hvalid].
  exists u. split; [|auto].
  destruct (UrlParse.netloc_is p_url ""); [injection Hu as <-; auto|].
  destruct (UrlParse.netloc_is p_url netloc_); [injection Hu as <-; auto|discriminate].
Qed.

(** X1.  Whatever the link, the domain and the flag, a URL that
    [validate_update_url] returns is the part before the first [#] of
    the link, or of the link glued to the domain, and [is_url_valid]
    accepts that url.  So it is never empty, has no [#] and starts with
    [http://] or [https://] in some letter case. *)
Theorem validate_update_url_returns_http_links
        (p_url : UrlParse.ParseResult) (href domain_ netloc_ : string)
        (exclude_root : bool) (v : string) :
  SitemapObj.validate_update_url p_url href domain_ netloc_ exclude_root
  = Ok (Some v) ->
  (exists u,
      (u = domain_ ++ href \/ u = href)
      /\ Utils.is_url_valid u = true
      /\ v = PyStr.before_first "#" u)
  /\ kept_link v.
Proof. apply validate_update_url_kept. Qed.

Lemma validate_update_url_returns_http_links_witness :
  SitemapObj.validate_update_url
    {| UrlParse.scheme := ""; UrlParse.netloc := ""; UrlParse.bytes_result := false |}
    "/a#b#c" "http://example.com" "example.com" true
  = Ok (Some "http://example.com/a")
  /\ kept_link "http://example.com/a".
Proof.
  split; [vm_compute; reflexivity|].
  apply (@validate_update_url_returns_http_links
           {| UrlParse.scheme := ""; UrlParse.netloc := "";
              UrlParse.bytes_result := false |}
           "/a#b#c" "http://example.com" "example.com" true).
  vm_compute. reflexivity.
Defined.

(** ** [__do_request] and [prepare] *)

Section RetryFacts.

Variable cfg : Conf.
Variable aiohttp_request : nat -> string -> string -> option Response.

(** The loop of [__do_request] stops at the first attempt that is
    answered. *)
Lemma do_request_loop_first (method url : string) (left : nat) :
  forall (st : state) (k : nat),
    (k <= left)%nat ->
    (forall i, (i < k)%nat ->
               aiohttp_request (length (requests st) + i) method url = None) ->
    (k = left ->
     __do_request_loop aiohttp_request left method url st
     = (Ok None, set_requests (requests st ++ repeat (method, url) left)%list st))
    /\ (forall r,
           (k < left)%nat ->
           aiohttp_request (length (requests st) + k) method url = Some r ->
           __do_request_loop aiohttp_request left method url st
           = (Ok (Some r),
              set_requests (requests st ++ repeat (method, url) (S k))%list st)).
Proof.
  induction left as [|left IH]; intros st k Hk Hfail.
  - split; [|intros; lia]. intros _. cbn. rewrite app_nil_r. destruct st; reflexivity.
  - cbn [__do_request_loop]. destruct k as [|k].
    + split; [lia|]. intros r _ Hr. rewrite Nat.add_0_r in Hr. rewrite Hr. reflexivity.
    + pose proof (Hfail 0%nat ltac:(lia)) as H0. rewrite Nat.add_0_r in H0.
      rewrite H0.
      destruct (IH (set_requests (requests st ++ [(method, url)])%list st) k)
        as [Hnone Hsome]; [lia| |].
      { intros i Hi. cbn [requests set_requests]. rewrite length_app. cbn [length].
        replace (length (requests st) + 1 + i)%nat
          with (length (requests st) + S i)%nat by lia.
        apply Hfail. lia. }
      split.
      * intros Hk'. rewrite Hnone by lia. cbn [requests set_requests repeat].
        rewrite <- app_assoc. reflexivity.
      * intros r Hlt Hr. rewrite (Hsome r); [| lia |].
        -- cbn [requests set_requests repeat]. rewrite <- app_assoc. reflexivity.
        -- cbn [requests set_requests]. rewrite length_app. cbn [length].
           replace (length (requests st) + 1 + k)%nat
             with (length (requests st) + S k)%nat by lia.
           exact Hr.
Qed.

(** What a call of the loop did, read off its result. *)
Lemma do_request_loop_result (method url : string) (left : nat) :
  forall st : state,
    exists k,
      (forall i, (i < k)%nat ->
                 aiohttp_request (length (requests st) + i) method url = None)
      /\ ((k = left
           /\ __do_request_loop aiohttp_request left method url st
              = (Ok None,
                 set_requests (requests st ++ repeat (method, url) left)%list st))
          \/ (exists r,
                 (k < left)%nat
                 /\ aiohttp_request (length (requests st) + k) method url = Some r
                 /\ __do_request_loop aiohttp_request left method url st
                    = (Ok (Some r),
                       set_requests
                         (requests st ++ repeat (method, url) (S k))%list st))).
Proof.
  induction left as [|left IH]; intros st.
  - exists 0%nat. split; [intros; lia|]. left. split; [reflexivity|].
    cbn. rewrite app_nil_r. destruct st; reflexivity.
  - cbn [__do_request_loop].
    destruct (aiohttp_request (length (requests st)) method url) as [r|] eqn:Hr.
    + exists 0%nat. split; [intros; lia|]. right. exists r.
      split; [lia|]. rewrite Nat.add_0_r. split; [exact Hr|reflexivity].
    + destruct (IH (set_requests (requests st ++ [(method, url)])%list st))
        as (k & Hfail & Hres).
      cbn [requests set_requests] in Hfail, Hres.
      rewrite length_app in Hfail, Hres. cbn [length] in Hfail, Hres.
      exists (S k). split.
      * intros [|i] Hi; [rewrite Nat.add_0_r; exact Hr|].
        replace (length (requests st) + S i)%nat
          with (length (requests st) + 1 + i)%nat by lia.
        apply Hfail. lia.
      * destruct Hres as [(-> & ->) | (r & Hlt & Hr' & ->)].
        -- left. split; [reflexivity|]. cbn [repeat]. rewrite <- app_assoc. reflexivity.
        -- right. exists r. split; [lia|]. split.
           ++ replace (length (requests st) + S k)%nat
                with (length (requests st) + 1 + k)%nat by lia. exact Hr'.
           ++ cbn [repeat]. rewrite <- app_assoc. reflexivity.
Qed.

End RetryFacts.

(** X2.  [__do_request] gives up after [REQUEST_RETRY] failed attempts
    and returns [None]; it returns the first response it gets and sends
    nothing after it: when the first [k] attempts fail, either [k] is
    [REQUEST_RETRY] and the result is [None] after that many requests, or
    the response to attempt [k] is the result, after [k + 1] requests. *)
Theorem do_request_stops_at_the_first_answer
        (cfg : Conf) (aiohttp_request : nat -> string -> string -> option Response)
        (self : SitemapObj.t) (method : string) (st : state) (k : nat) :
  (k <= Z.to_nat (REQUEST_RETRY cfg))%nat ->
  (forall i, (i < k)%nat ->
             aiohttp_request (length (requests st) + i) method (SitemapObj.url self)
             = None) ->
  (k = Z.to_nat (REQUEST_RETRY cfg) ->
   __do_request cfg aiohttp_request self method st
   = (Ok None,
      set_requests
        (requests st ++ repeat (method, SitemapObj.url self) k)%list st))
  /\ (forall r,
         (k < Z.to_nat (REQUEST_RETRY cfg))%nat ->
         aiohttp_request (length (requests st) + k) method (SitemapObj.url self)
         = Some r ->
         __do_request cfg aiohttp_request self method st
         = (Ok (Some r),
            set_requests
              (requests st ++ repeat (method, SitemapObj.url self) (S k))%list st)).
Proof.
  intros Hk Hfail. unfold __do_request.
  destruct (@do_request_loop_first aiohttp_request method (SitemapObj.url self)
              (Z.to_nat (REQUEST_RETRY cfg)) st k Hk Hfail) as [Hnone Hsome].
  split; [|exact Hsome].
  intros Heq. rewrite Hnone by exact Heq. rewrite <- Heq. reflexivity.
Qed.

(** The third attempt is answered on the site [Site2.flaky]. *)
Lemma do_request_stops_at_the_first_answer_witness :
  __do_request conf Site2.flaky (SitemapObj.__init__ "http://example.com") "head"
               (walker_init "http://example.com" "example.com")
  = (Ok (Some (Site.html "http://example.com" [])),
     set_requests (repeat ("head", "http://example.com") 3)
                  (walker_init "http://example.com" "example.com")).
Proof.
  refine (proj2 (@do_request_stops_at_the_first_answer
                   conf Site2.flaky (SitemapObj.__init__ "http://example.com") "head"
                   (walker_init "http://example.com" "example.com") 2 _ _)
                _ _ _).
  - cbn. lia.
  - intros [|[|i]] Hi; [reflexivity|reflexivity|lia].
  - cbn. lia.
  - reflexivity.
Defined.

(** A descriptor that [prepare] returns stands for a response with
    status 200 and a content type that starts with [text/html], got
    within [REQUEST_RETRY] HEAD requests for the url of the object; its
    url is the final url of that response, and nothing but the requests
    sent has changed. *)
Lemma prepare_result_inv
        (cfg : Conf) (aiohttp_request : nat -> string -> string -> option Response)
        (strptime : string -> option datetime)
        (self obj : SitemapObj.t) (st st' : state) :
  prepare cfg aiohttp_request strptime self st = (Ok obj, st') ->
  exists (r : Response) (k : nat),
    (k < Z.to_nat (REQUEST_RETRY cfg))%nat
    /\ aiohttp_request (length (requests st) + k) "head" (SitemapObj.url self) = Some r
    /\ r_status r = 200%Z
    /\ content_type_html (r_headers r) = true
    /\ SitemapObj.url obj = r_url r
    /\ st' = set_requests
               (requests st ++ repeat ("head", SitemapObj.url self) (S k))%list st.
Proof.
  unfold prepare, bind, __do_request.
  destruct (do_request_loop_result aiohttp_request "head" (SitemapObj.url self)
              (Z.to_nat (REQUEST_RETRY cfg)) st)
    as (k & _ & [(_ & ->) | (r & Hlt & Hr & ->)]); [discriminate|].
  unfold lift. intros H. injection H as Hresp <-.
  exists r, k. split; [exact Hlt|]. split; [exact Hr|].
  unfold prepare_response, content_type_html in *.
  destruct (r_status r =? 200)%Z eqn:Hst; cbn [negb] in Hresp; [|discriminate].
  apply Z.eqb_eq in Hst. split; [exact Hst|].
  destruct (headers_get "content-type" (r_headers r)) as [c|]; [|discriminate].
  destruct (PyStr.truthy c); cbn [negb] in Hresp; [|discriminate].
  rewrite re_match_Lit in Hresp.
  destruct (PyStr.startswith "text/html" c); cbn [negb] in Hresp; [|discriminate].
  split; [reflexivity|]. split; [|reflexivity].
  destruct (headers_get "last-modified" (r_headers r)) as [lm|];
    [destruct (negb (PyStr.truthy lm)); [|destruct (strptime lm)]|];
    try discriminate; injection Hresp as <-; reflexivity.
Qed.

(** X3.  A descriptor that [prepare] returns stands for a response with
    status 200 and a content type that starts with [text/html], got
    within [REQUEST_RETRY] HEAD requests for the url of the object; its
    url is the final url of that response, and nothing but the requests
    sent has changed. *)
Theorem prepare_returns_an_html_page
        (cfg : Conf) (aiohttp_request : nat -> string -> string -> option Response)
        (strptime : string -> option datetime)
        (self obj : SitemapObj.t) (st st' : state) :
  prepare cfg aiohttp_request strptime self st = (Ok obj, st') ->
  exists (r : Response) (k : nat),
    (k < Z.to_nat (REQUEST_RETRY cfg))%nat
    /\ aiohttp_request (length (requests st) + k) "head" (SitemapObj.url self) = Some r
    /\ r_status r = 200%Z
    /\ content_type_html (r_headers r) = true
    /\ SitemapObj.url obj = r_url r
    /\ st' = set_requests
               (requests st ++ repeat ("head", SitemapObj.url self) (S k))%list st.
Proof. apply prepare_result_inv. Qed.

(** The page that [Site2.flaky] serves at the third attempt. *)
Lemma prepare_returns_an_html_page_witness :
  prepare conf Site2.flaky HttpDate.strptime (SitemapObj.__init__ "http://example.com")
          (walker_init "http://example.com" "example.com")
  = (Ok (SitemapObj.__init__ "http://example.com"),
     set_requests (repeat ("head", "http://example.com") 3)
                  (walker_init "http://example.com" "example.com"))
  /\ exists (r : Response) (k : nat),
      (k < Z.to_nat (REQUEST_RETRY conf))%nat
      /\ Site2.flaky (length (requests (walker_init "http://example.com" "example.com")) + k)
                     "head" "http://example.com" = Some r
      /\ r_status r = 200%Z.
Proof.
  split; [reflexivity|].
  destruct (@prepare_returns_an_html_page
              conf Site2.flaky HttpDate.strptime
              (SitemapObj.__init__ "http://example.com")
              (SitemapObj.__init__ "http://example.com")
              (walker_init "http://example.com" "example.com")
              (set_requests (repeat ("head", "http://example.com") 3)
                            (walker_init "http://example.com" "example.com"))
              eq_refl)
    as (r & k & Hk & Hr & Hst & _).
  exists r, k. auto.
Defined.

(** ** [process] *)

Lemma mem_In (u : string) (l : list string) : PyStr.mem u l = true <-> In u l.
Proof.
  unfold PyStr.mem. rewrite existsb_exists. split.
  - intros (x & Hx & Heq). apply String.eqb_eq in Heq. subst. exact Hx.
  - intros H. exists u. split; [exact H|apply String.eqb_refl].
Qed.

Lemma set_nextlvl_same (st : state) : set_nextlvl (nextlvl st) st = st.
Proof. destruct st; reflexivity. Qed.

(** The loop over the anchors adds links to [nextlvl], a set, and does
    nothing else, also when it ends by an exception. *)
Lemma process_links_collects (hrefs : list (option string)) (dom nl : string) :
  forall st : state,
    NoDup (nextlvl st) ->
    exists new,
      snd (process_links hrefs dom nl st) = set_nextlvl (nextlvl st ++ new)%list st
      /\ NoDup (nextlvl st ++ new)%list
      /\ Forall kept_link new.
Proof.
  induction hrefs as [|href hrefs IH]; intros st Hnd.
  - exists []. rewrite app_nil_r, set_nextlvl_same. auto.
  - assert (Hstop : exists new,
               st = set_nextlvl (nextlvl st ++ new)%list st
               /\ NoDup (nextlvl st ++ new)%list /\ Forall kept_link new).
    { exists []. rewrite app_nil_r, set_nextlvl_same. auto. }
    cbn [process_links]. unfold bind, lift.
    destruct (UrlParse.urlparse_href href) as [up|e]; [|exact Hstop].
    destruct (SitemapObj.validate_update_url _ _ _ _ _) as [[u|]|e] eqn:Hv;
      [| |exact Hstop].
    + destruct (PyStr.truthy u) eqn:Hu; [|unfold ret; apply IH, Hnd].
      unfold nextlvl_add, modify.
      destruct (PyStr.mem u (nextlvl st)) eqn:Hmem; [apply IH, Hnd|].
      cbn [fst snd].
      destruct (IH (set_nextlvl (nextlvl st ++ [u])%list st)) as (new & Hs & Hnd' & Hk).
      { cbn [nextlvl set_nextlvl]. apply NoDup_app; [exact Hnd|repeat constructor; auto|].
        intros x Hx [<-|[]]. apply mem_In in Hx. congruence. }
      cbn [nextlvl set_nextlvl] in Hs, Hnd'. rewrite <- app_assoc in Hs, Hnd'.
      exists (u :: new). split; [exact Hs|]. split; [exact Hnd'|].
      constructor; [|exact Hk]. eapply validate_update_url_kept, Hv.
    + unfold ret. apply IH, Hnd.
Qed.

(** What [process] does to the walker. *)
Lemma process_effect_full
        (cfg : Conf) (aiohttp_request : nat -> string -> string -> option Response)
        (self : SitemapObj.t) (dom nl : string) (st : state) :
  NoDup (nextlvl st) ->
  (exists k,
      (k <= Z.to_nat (REQUEST_RETRY cfg))%nat
      /\ requests (snd (process cfg aiohttp_request self dom nl st))
         = (requests st ++ repeat ("get", SitemapObj.url self) k)%list)
  /\ domain (snd (process cfg aiohttp_request self dom nl st)) = domain st
  /\ netloc (snd (process cfg aiohttp_request self dom nl st)) = netloc st
  /\ visited (snd (process cfg aiohttp_request self dom nl st)) = visited st
  /\ objs (snd (process cfg aiohttp_request self dom nl st)) = objs st
  /\ exists new,
      nextlvl (snd (process cfg aiohttp_request self dom nl st))
      = (nextlvl st ++ new)%list
      /\ NoDup (nextlvl st ++ new)%list
      /\ Forall kept_link new.
Proof.
  intros Hnd. unfold process, bind.
  destruct (do_request_sends cfg aiohttp_request self "get" st)
    as (k & o & Hk & _ & ->).
  set (st1 := set_requests (requests st ++ repeat ("get", SitemapObj.url self) k)%list st).
  assert (Hdone : forall new,
             NoDup (nextlvl st ++ new)%list -> Forall kept_link new ->
             forall st2, st2 = set_nextlvl (nextlvl st ++ new)%list st1 ->
             (exists k,
                 (k <= Z.to_nat (REQUEST_RETRY cfg))%nat
                 /\ requests st2
                    = (requests st ++ repeat ("get", SitemapObj.url self) k)%list)
             /\ domain st2 = domain st /\ netloc st2 = netloc st
             /\ visited st2 = visited st /\ objs st2 = objs st
             /\ exists new,
                 nextlvl st2 = (nextlvl st ++ new)%list
                 /\ NoDup (nextlvl st ++ new)%list /\ Forall kept_link new).
  { intros new H1 H2 st2 ->. split; [exists k; split; [exact Hk|reflexivity]|].
    repeat (split; [reflexivity|]). exists new. auto. }
  destruct o as [r|].
  - destruct (process_links_collects (r_hrefs r) dom nl st1 Hnd) as (new & Hs & H1 & H2).
    apply (Hdone new H1 H2). exact Hs.
  - apply (Hdone []); [rewrite app_nil_r; exact Hnd|constructor|].
    cbn [snd ret]. rewrite app_nil_r. symmetry. apply (set_nextlvl_same st1).
Qed.

(** X4.  [process] collects links and does nothing else: it sends at most
    [REQUEST_RETRY] GET requests for the url of the object, leaves the
    target of the walker, the visited set and the accepted objects as
    they are, and adds to the set [nextlvl], which stays a set; what it
    adds is a kept link: not empty, without anchor, an [http] or [https]
    url. *)
Theorem process_collects_links
        (cfg : Conf) (aiohttp_request : nat -> string -> string -> option Response)
        (self : SitemapObj.t) (dom nl : string) (st : state) :
  NoDup (nextlvl st) ->
  (exists k,
      (k <= Z.to_nat (REQUEST_RETRY cfg))%nat
      /\ requests (snd (process cfg aiohttp_request self dom nl st))
         = (requests st ++ repeat ("get", SitemapObj.url self) k)%list)
  /\ domain (snd (process cfg aiohttp_request self dom nl st)) = domain st
  /\ netloc (snd (process cfg aiohttp_request self dom nl st)) = netloc st
  /\ visited (snd (process cfg aiohttp_request self dom nl st)) = visited st
  /\ objs (snd (process cfg aiohttp_request self dom nl st)) = objs st
  /\ exists new,
      nextlvl (snd (process cfg aiohttp_request self dom nl st))
      = (nextlvl st ++ new)%list
      /\ NoDup (nextlvl st ++ new)%list
      /\ Forall kept_link new.
Proof. apply process_effect_full. Qed.

(** The links of the root page of [Site.dotted]. *)
Lemma process_collects_links_witness :
  NoDup (nextlvl (walker_init "http://example.com" "example.com"))
  /\ nextlvl (snd (process conf Site.dotted (SitemapObj.__init__ "http://example.com")
                           "http://example.com" "example.com"
                           (walker_init "http://example.com" "example.com")))
     = ["http://example.com./about.html"; "http://example.com?"]
  /\ visited (snd (process conf Site.dotted (SitemapObj.__init__ "http://example.com")
                           "http://example.com" "example.com"
                           (walker_init "http://example.com" "example.com")))
     = visited (walker_init "http://example.com" "example.com").
Proof.
  split; [constructor|]. split; [vm_compute; reflexivity|].
  apply (@process_collects_links conf Site.dotted
           (SitemapObj.__init__ "http://example.com")
           "http://example.com" "example.com"
           (walker_init "http://example.com" "example.com")).
  constructor.
Defined.

(** ** The batch executor, whatever the handler *)

Section ExecutorResult.

Variable St : Type.
Variable cfg : Conf.
Variable order : forall A : Type, list A -> list A.

Lemma start_tasks_returns (coros : list (Coro St)) :
  forall st, exists ts, fst (start_tasks coros st) = Ok ts.
Proof.
  induction coros as [|c coros IH]; intros st; [exists []; reflexivity|].
  cbn [start_tasks]. destruct (c st) as [[[t|]|e] st1]; try apply IH.
  unfold bind, ret. destruct (IH st1) as (ts & Hts).
  destruct (start_tasks coros st1) as [[ts'|e] st2]; cbn [fst] in *; [|discriminate].
  eexists. reflexivity.
Qed.

Lemma resume_tasks_returns (ts : list (Task St)) :
  forall st, fst (resume_tasks ts st) = Ok tt.
Proof. induction ts as [|t ts IH]; intros st; [reflexivity|apply IH]. Qed.

Lemma run_group_result (A : Type) (truthy : A -> bool) (handler : A -> Coro St)
      (s : list (option A)) (st : St) :
  fst (run_group order truthy handler s st)
  = if starts_true truthy s then Ok tt
    else Raise (ValueError "Set of coroutines/Futures is empty.").
Proof.
  unfold run_group, starts_true.
  destruct s as [|[v|] s]; try reflexivity. cbn [until_falsy].
  destruct (truthy v); [|reflexivity].
  unfold bind.
  destruct (start_tasks_returns (map handler (v :: until_falsy truthy s)) st)
    as (ts & Hts).
  destruct (start_tasks _ st) as [[ts'|e] st1]; cbn [fst] in Hts; [|discriminate].
  apply resume_tasks_returns.
Qed.

Lemma run_groups_result (A : Type) (truthy : A -> bool) (handler : A -> Coro St)
      (tuples : list (list (option A))) :
  forall st,
    fst (run_groups order truthy handler tuples st)
    = if forallb (starts_true truthy) tuples then Ok tt
      else Raise (ValueError "Set of coroutines/Futures is empty.").
Proof.
  induction tuples as [|s tuples IH]; intros st; [reflexivity|].
  cbn [run_groups forallb]. unfold bind.
  pose proof (run_group_result truthy handler s st) as Hs.
  destruct (run_group order truthy handler s st) as [[[]|e] st1]; cbn [fst] in Hs.
  - destruct (starts_true truthy s); [|discriminate]. apply IH.
  - destruct (starts_true truthy s); [discriminate|]. exact Hs.
Qed.

Lemma starts_true_next_n (A : Type) (truthy : A -> bool) (n : nat) (x : A)
      (l : list A) :
  truthy x = true -> starts_true truthy (next_n (S n) (x :: l)) = true.
Proof. intros Hx. exact Hx. Qed.

Lemma zip_longest_fuel_starts_true (A : Type) (truthy : A -> bool) (n fuel : nat) :
  forall l : list A,
    forallb truthy l = true ->
    forallb (starts_true truthy) (zip_longest_fuel fuel (S n) l) = true.
Proof.
  induction fuel as [|fuel IH]; intros l Hl; [reflexivity|].
  destruct l as [|x l]; [reflexivity|].
  cbn [zip_longest_fuel forallb]. rewrite IH by (apply forallb_skipn, Hl).
  cbn [forallb] in Hl. apply andb_true_iff in Hl as [Hx _].
  rewrite (@starts_true_next_n A truthy n x l Hx). reflexivity.
Qed.

(** For items that are all true the executor returns, whatever the
    handler does. *)
Lemma group_execute_returns (A : Type) (truthy : A -> bool)
      (handler : A -> Coro St) (tasks : list A) (st : St) :
  forallb truthy tasks = true ->
  fst (__group_execute_tasks cfg order truthy handler tasks st) = Ok tt.
Proof.
  intros Hl. unfold __group_execute_tasks. rewrite run_groups_result.
  unfold zip_longest. destruct (Z.to_nat (SELECTOR_LIMIT cfg)); [reflexivity|].
  rewrite zip_longest_fuel_starts_true by exact Hl. reflexivity.
Qed.

Hypothesis order_perm : forall (A : Type) (l : list A), Permutation (order l) l.
Variable P : St -> Prop.

Lemma until_falsy_in (A : Type) (truthy : A -> bool) (s : list (option A)) (a : A) :
  In a (until_falsy truthy s) -> In (Some a) s.
Proof.
  induction s as [|[v|] s IH]; cbn [until_falsy]; try (intros []).
  destruct (truthy v); [|intros []].
  intros [<-|H]; [left; reflexivity|right; apply IH, H].
Qed.

Lemma next_n_in (A : Type) (n : nat) :
  forall (l : list A) (a : A), In (Some a) (next_n n l) -> In a l.
Proof.
  induction n as [|n IH]; intros l a; [intros []|].
  destruct l as [|x l]; cbn [next_n].
  - intros [H|H]; [discriminate|]. apply (IH [] a H).
  - intros [[= <-]|H]; [left; reflexivity|right; apply IH, H].
Qed.

Lemma skipn_in (A : Type) (n : nat) :
  forall (l : list A) (a : A), In a (skipn n l) -> In a l.
Proof.
  induction n as [|n IH]; intros l a H; [exact H|].
  destruct l as [|x l]; [exact H|]. right. apply IH, H.
Qed.

Lemma zip_longest_in (A : Type) (n : nat) (l : list A) (s : list (option A)) (a : A) :
  In s (zip_longest n l) -> In (Some a) s -> In a l.
Proof.
  unfold zip_longest. destruct n as [|n]; [intros []|].
  generalize (length l) as fuel. intros fuel. revert l.
  induction fuel as [|fuel IH]; intros l; [intros []|].
  destruct l as [|x l]; [intros []|].
  cbn [zip_longest_fuel]. intros [<-|Hs] Ha.
  - eapply next_n_in, Ha.
  - eapply skipn_in, IH; eassumption.
Qed.

(** The executor keeps what the coroutines of its items keep. *)
Lemma group_execute_keeps_in (A : Type) (truthy : A -> bool)
      (handler : A -> Coro St) (tasks : list A) :
  (forall a, In a tasks -> coro_keeps P (handler a)) ->
  forall st, P st -> P (snd (__group_execute_tasks cfg order truthy handler tasks st)).
Proof.
  intros Hh. unfold __group_execute_tasks.
  assert (Htuples : forall s a,
             In s (zip_longest (Z.to_nat (SELECTOR_LIMIT cfg)) tasks) ->
             In a (until_falsy truthy s) -> coro_keeps P (handler a)).
  { intros s a Hs Ha. apply Hh. eapply zip_longest_in; [exact Hs|].
    eapply until_falsy_in, Ha. }
  induction (zip_longest (Z.to_nat (SELECTOR_LIMIT cfg)) tasks) as [|s ss IH];
    intros st Hst; [exact Hst|].
  assert (Hrun : forall st, P st -> P (snd (run_group order truthy handler s st))).
  { clear st Hst. intros st Hst. unfold run_group.
    destruct (until_falsy truthy s) as [|a g] eqn:Hg; [exact Hst|].
    destruct (@start_tasks_keeps St P (map handler (a :: g))) with (st := st)
      as [Hst' Hts]; [|exact Hst|].
    { apply Forall_map, Forall_forall. intros x Hx. apply (Htuples s); [left; reflexivity|].
      rewrite Hg. exact Hx. }
    apply bind_keeps; [exact Hst'|].
    intros ts Hfst. apply resume_tasks_keeps; [|exact Hst'].
    apply (Permutation_Forall (Permutation_sym (order_perm ts))), Hts, Hfst. }
  cbn [run_groups]. apply bind_keeps; [apply Hrun, Hst|].
  intros _ _. apply IH; [|apply Hrun, Hst].
  intros s' a Hs'. apply Htuples. right. exact Hs'.
Qed.

End ExecutorResult.

(** X5.  [__group_execute_tasks] raises exactly when a tuple of
    [zip_longest] starts with a false item, for then [asyncio.wait] gets
    no task; no exception of a handler comes out of it.  In particular it
    returns for items that are all true, and for a limit below one, when
    it runs nothing. *)
Theorem group_execute_raises_for_a_false_head
        (S : Type) (cfg : Conf) (order : forall A : Type, list A -> list A)
        (A : Type) (truthy : A -> bool) (handler : A -> Coro S)
        (tasks : list A) (st : S) :
  fst (__group_execute_tasks cfg order truthy handler tasks st)
  = (if forallb (starts_true truthy)
                (zip_longest (Z.to_nat (SELECTOR_LIMIT cfg)) tasks)
     then Ok tt
     else Raise (ValueError "Set of coroutines/Futures is empty."))
  /\ (forallb truthy tasks = true \/ (SELECTOR_LIMIT cfg <= 0)%Z ->
      fst (__group_execute_tasks cfg order truthy handler tasks st) = Ok tt).
Proof.
  split; [apply run_groups_result|].
  intros [Hl|Hlim]; [apply group_execute_returns, Hl|].
  unfold __group_execute_tasks.
  replace (Z.to_nat (SELECTOR_LIMIT cfg)) with 0%nat by lia. reflexivity.
Qed.

(** Three true items, two at a time. *)
Lemma group_execute_raises_for_a_false_head_witness :
  forallb PyStr.truthy ["a"; "b"; "c"] = true
  /\ fst (__group_execute_tasks Site.two_at_a_time Site.in_order PyStr.truthy
                                Probe.handler ["a"; "b"; "c"] [])
     = Ok tt.
Proof.
  split; [reflexivity|].
  apply (@group_execute_raises_for_a_false_head
           (list (Probe.event string)) Site.two_at_a_time Site.in_order
           string PyStr.truthy Probe.handler ["a"; "b"; "c"] []).
  left. reflexivity.
Defined.

(** ** The crawl as a whole *)

Section DriverFacts.

Variable cfg : Conf.
Variable aiohttp_request : nat -> string -> string -> option Response.
Variable strptime : string -> option datetime.
Variable order : forall A : Type, list A -> list A.
Hypothesis order_perm : forall (A : Type) (l : list A), Permutation (order l) l.

Lemma in_visited_false (u : string) (v : list SitemapObj.t) :
  in_visited u v = false -> ~ In u (map SitemapObj.url v).
Proof.
  unfold in_visited. induction v as [|o v IH]; cbn [existsb map]; [intros _ []|].
  intros H. apply orb_false_iff in H as [Ho Hv].
  intros [Heq|Hin]; [|exact (IH Hv Hin)].
  apply String.eqb_neq in Ho. contradiction.
Qed.

Lemma prepare_sends (self : SitemapObj.t) (st : state) :
  exists k,
    (k <= Z.to_nat (REQUEST_RETRY cfg))%nat
    /\ snd (prepare cfg aiohttp_request strptime self st)
       = set_requests (requests st ++ repeat ("head", SitemapObj.url self) k)%list st.
Proof.
  unfold prepare, bind.
  destruct (do_request_sends cfg aiohttp_request self "head" st)
    as (k & o & Hk & _ & ->).
  exists k. split; [exact Hk|].
  destruct o as [r|]; [|reflexivity].
  unfold lift. destruct (prepare_response strptime r); reflexivity.
Qed.

(** A resumed HEAD coroutine sends its requests, leaves the links
    collected alone, and accepts at most the one object that [prepare]
    returned, when its url is new. *)
Lemma head_request_resume_effect (url : string) (lvlidx : Z) (st : state) :
  nextlvl (snd (head_request_resume cfg aiohttp_request strptime url lvlidx st))
  = nextlvl st
  /\ (exists k,
         (k <= Z.to_nat (REQUEST_RETRY cfg))%nat
         /\ requests (snd (head_request_resume cfg aiohttp_request strptime
                                               url lvlidx st))
            = (requests st ++ repeat ("head", url) k)%list)
  /\ ((visited (snd (head_request_resume cfg aiohttp_request strptime url lvlidx st))
       = visited st
       /\ objs (snd (head_request_resume cfg aiohttp_request strptime url lvlidx st))
          = objs st)
      \/ exists obj st1,
          prepare cfg aiohttp_request strptime (SitemapObj.__init__ url) st
          = (Ok obj, st1)
          /\ in_visited (SitemapObj.url obj) (visited st) = false
          /\ visited (snd (head_request_resume cfg aiohttp_request strptime
                                               url lvlidx st))
             = (visited st ++ [obj])%list
          /\ objs (snd (head_request_resume cfg aiohttp_request strptime
                                            url lvlidx st))
             = (objs st ++ [obj])%list).
Proof.
  destruct (prepare_sends (SitemapObj.__init__ url) st) as (k & Hk & Hp).
  cbn [SitemapObj.__init__ SitemapObj.url] in Hp.
  set (G := fun s : state =>
              nextlvl s = nextlvl st
              /\ (exists k,
                     (k <= Z.to_nat (REQUEST_RETRY cfg))%nat
                     /\ requests s = (requests st ++ repeat ("head", url) k)%list)
              /\ ((visited s = visited st /\ objs s = objs st)
                  \/ exists obj st1,
                      prepare cfg aiohttp_request strptime (SitemapObj.__init__ url) st
                      = (Ok obj, st1)
                      /\ in_visited (SitemapObj.url obj) (visited st) = false
                      /\ visited s = (visited st ++ [obj])%list
                      /\ objs s = (objs st ++ [obj])%list)).
  change (G (snd (head_request_resume cfg aiohttp_request strptime url lvlidx st))).
  assert (Hskip : forall s,
             nextlvl s = nextlvl st ->
             requests s = (requests st ++ repeat ("head", url) k)%list ->
             visited s = visited st -> objs s = objs st -> G s).
  { intros s H1 H2 H3 H4. split; [exact H1|].
    split; [exists k; split; [exact Hk|exact H2]|]. left. split; assumption. }
  unfold head_request_resume.
  destruct (prepare cfg aiohttp_request strptime (SitemapObj.__init__ url) st)
    as [[obj|e] st1] eqn:Hprep; cbn [snd] in Hp; subst st1.
  2: { destruct e; cbn [snd]; apply Hskip; reflexivity. }
  set (st1 := set_requests (requests st ++ repeat ("head", url) k)%list st) in *.
  assert (Hacc : forall s,
             in_visited (SitemapObj.url obj) (visited st) = false ->
             nextlvl s = nextlvl st ->
             requests s = (requests st ++ repeat ("head", url) k)%list ->
             visited s = (visited st ++ [obj])%list ->
             objs s = (objs st ++ [obj])%list -> G s).
  { intros s Hin H1 H2 H3 H4. split; [exact H1|].
    split; [exists k; split; [exact Hk|exact H2]|]. right.
    exists obj, st1. auto. }
  clearbody G.
  unfold bind, objs_append, visited_add, ret, get, modify, lift.
  destruct (String.eqb (SitemapObj.url obj) url) eqn:Hurl; cbn [negb].
  - change (visited st1) with (visited st).
    destruct (in_visited (SitemapObj.url obj) (visited st)) eqn:Hin;
      [apply Hskip; reflexivity|].
    apply Hacc; [reflexivity|subst st1; simpl_state; rewrite Hin; reflexivity..].
  - destruct (lvlidx =? 0)%Z; cbn [negb].
    + destruct (UrlParse.urlparse (SitemapObj.url obj)) as [up|e];
        [|apply Hskip; reflexivity].
      cbn [domain netloc set_target].
      destruct (SitemapObj.validate_update_url
                  up (SitemapObj.url obj)
                  (UrlParse.scheme up ++ "://" ++ UrlParse.netloc up)
                  (UrlParse.netloc up) false) as [[v|]|e];
        try (apply Hskip; reflexivity).
      destruct (PyStr.truthy v); cbn [negb]; [|apply Hskip; reflexivity].
      change (visited (set_target _ _ st1)) with (visited st).
      destruct (in_visited (SitemapObj.url obj) (visited st)) eqn:Hin;
        [apply Hskip; reflexivity|].
      apply Hacc; [reflexivity|subst st1; simpl_state; rewrite Hin; reflexivity..].
    + destruct (UrlParse.urlparse (SitemapObj.url obj)) as [up|e];
        [|apply Hskip; reflexivity].
      change (domain st1) with (domain st). change (netloc st1) with (netloc st).
      destruct (SitemapObj.validate_update_url
                  up (SitemapObj.url obj) (domain st) (netloc st) true)
        as [[v|]|e]; try (apply Hskip; reflexivity).
      destruct (PyStr.truthy v); cbn [negb]; [|apply Hskip; reflexivity].
      change (visited st1) with (visited st).
      destruct (in_visited (SitemapObj.url obj) (visited st)) eqn:Hin;
        [apply Hskip; reflexivity|].
      apply Hacc; [reflexivity|subst st1; simpl_state; rewrite Hin; reflexivity..].
Qed.

Lemma head_request_coro_keeps_crawl (d : string) (lvlidx : Z) (url : string) :
  url = d \/ kept_link url ->
  coro_keeps (crawl_inv aiohttp_request d)
             (__head_request_coro cfg aiohttp_request strptime lvlidx url).
Proof.
  intros Hlink st Hst. unfold __head_request_coro, bind, get, ret.
  destruct (in_visited url (visited st)); cbn [fst snd];
    (split; [exact Hst|]); [discriminate|].
  intros t [= <-]. clear st Hst.
  intros st (Hnd & Hobjs & Hans & Hget & Hhd & Hnx & Hkl).
  destruct (head_request_resume_effect url lvlidx st) as (Hn & (k & Hk & Hr) & Hv).
  unfold crawl_inv. rewrite Hn, Hr.
  assert (Hreq : forall u,
             In ("get", u) (requests st ++ repeat ("head", url) k)%list ->
             In u (map SitemapObj.url (visited st))).
  { intros u Hu. apply in_app_or in Hu as [Hu|Hu]; [apply Hget, Hu|].
    apply repeat_spec in Hu. discriminate. }
  assert (Hhd' : forall u,
             In ("head", u) (requests st ++ repeat ("head", url) k)%list ->
             u = d \/ kept_link u).
  { intros u Hu. apply in_app_or in Hu as [Hu|Hu]; [apply Hhd, Hu|].
    apply repeat_spec in Hu. injection Hu as ->. exact Hlink. }
  destruct Hv as [(Hv & Ho) | (obj & st1 & Hp & Hin & Hv & Ho)]; rewrite Hv, Ho.
  - repeat split; assumption.
  - split.
    { rewrite map_app. apply NoDup_app; [exact Hnd|repeat constructor; intros []|].
      intros x Hx [<-|[]]. exact (in_visited_false _ _ Hin Hx). }
    split.
    { intros o Hoo. apply in_app_or in Hoo as [Hoo|Hoo]; apply in_or_app;
        [left; apply Hobjs, Hoo|right; exact Hoo]. }
    split.
    { intros o Hoo. apply in_app_or in Hoo as [Hoo|[<-|[]]]; [apply Hans, Hoo|].
      apply prepare_result_inv in Hp as (r & j & _ & Hreq' & H200 & Hct & Hurl & _).
      exists (length (requests st) + j)%nat, url, r. rewrite Hurl. auto. }
    split.
    { intros u Hu. rewrite map_app. apply in_or_app. left. apply Hreq, Hu. }
    repeat split; assumption.
Qed.

(** A GET coroutine for an accepted object keeps the invariant, and the
    accepted objects. *)
Lemma get_request_coro_keeps_crawl (d : string) (objs0 : list SitemapObj.t)
      (o : SitemapObj.t) :
  In o objs0 ->
  coro_keeps (fun st => crawl_inv aiohttp_request d st /\ objs st = objs0)
             (__get_request_coro cfg aiohttp_request o).
Proof.
  intros Ho st Hst. unfold __get_request_coro, bind, get, ret. cbn [fst snd].
  split; [exact Hst|]. intros t [= <-]. clear Hst.
  intros st1 ((Hnd & Hobjs & Hans & Hget & Hhd & Hnx & Hkl) & Hobjs0).
  destruct (process_effect_full cfg aiohttp_request o (domain st) (netloc st) st1 Hnx)
    as ((k & _ & Hr) & _ & _ & Hv & Hob & new & Hn & Hnd' & Hnew).
  unfold crawl_inv. rewrite Hv, Hob, Hr, Hn.
  split; [|exact Hobjs0].
  repeat split; try assumption.
  - intros u Hu. apply in_app_or in Hu as [Hu|Hu]; [apply Hget, Hu|].
    apply repeat_spec in Hu. injection Hu as ->.
    apply in_map, Hobjs. rewrite Hobjs0. exact Ho.
  - intros u Hu. apply in_app_or in Hu as [Hu|Hu]; [apply Hhd, Hu|].
    apply repeat_spec in Hu. discriminate.
  - apply Forall_app. split; assumption.
Qed.

Lemma forallb_truthy_links (d : string) (l : list string) :
  PyStr.truthy d = true ->
  Forall (fun u => u = d \/ kept_link u) l -> forallb PyStr.truthy l = true.
Proof.
  intros Hd H. apply forallb_forall. intros u Hu.
  rewrite Forall_forall in H. destruct (H u Hu) as [->|[Ht _]]; assumption.
Qed.

(** The loop of [traverse_links] on a level made of the seed and of kept
    links keeps the invariant, and for a seed that is not empty it ends
    without exception. *)
Lemma traverse_loop_sound (d : string) (depth : Z) (fuel : nat) :
  forall (lvlidx : Z) (thislvl : list string) (st : state),
    crawl_inv aiohttp_request d st ->
    Forall (fun u => u = d \/ kept_link u) thislvl ->
    crawl_inv aiohttp_request d
      (snd (traverse_loop cfg aiohttp_request strptime order depth fuel
                          lvlidx thislvl st))
    /\ (PyStr.truthy d = true ->
        (Z.to_nat (depth - lvlidx) < fuel)%nat ->
        fst (traverse_loop cfg aiohttp_request strptime order depth fuel
                           lvlidx thislvl st) = Ok (Some tt)).
Proof.
  induction fuel as [|fuel IH]; intros lvlidx thislvl st Hst Hlvl0;
    [split; [exact Hst|lia]|].
  destruct (traverse_loop cfg aiohttp_request strptime order depth (S fuel)
                          lvlidx thislvl st) as [r s] eqn:E.
  cbn [fst snd]. cbn [traverse_loop] in E.
  destruct thislvl as [|u thislvl].
  { injection E as <- <-. split; [exact Hst|reflexivity]. }
  unfold bind, modify, get, ret in E.
  set (st0 := set_nextlvl [] (set_objs [] st)) in E.
  assert (Hst0 : crawl_inv aiohttp_request d st0).
  { destruct Hst as (Hnd & Hobjs & Hans & Hget & Hhd & Hnx & Hkl).
    unfold crawl_inv. subst st0. cbn.
    repeat split; try assumption; try (intros ? []); constructor. }
  clearbody st0.
  assert (Hord : Forall (fun u => u = d \/ kept_link u) (order (u :: thislvl))).
  { apply (Permutation_Forall (Permutation_sym (order_perm (u :: thislvl)))), Hlvl0. }
  pose proof (@group_execute_keeps_in state cfg order order_perm
                (crawl_inv aiohttp_request d) string PyStr.truthy
                (__head_request_coro cfg aiohttp_request strptime lvlidx)
                (order (u :: thislvl))
                (fun a Ha => head_request_coro_keeps_crawl lvlidx
                               (proj1 (Forall_forall _ _) Hord a Ha)) st0 Hst0)
    as Hhead.
  pose proof (fun H => @group_execute_returns state cfg order string PyStr.truthy
                (__head_request_coro cfg aiohttp_request strptime lvlidx)
                (order (u :: thislvl)) st0 H) as Hheadr.
  destruct (__group_execute_tasks cfg order PyStr.truthy _ _ st0) as [r1 st1].
  cbn [fst snd] in Hhead, Hheadr.
  destruct r1 as [[]|e].
  2: { injection E as <- <-. split; [exact Hhead|]. intros Hd _. exfalso.
       specialize (Hheadr (forallb_truthy_links Hd Hord)). discriminate. }
  destruct (lvlidx >=? depth)%Z eqn:Hlvl.
  { injection E as <- <-. split; [exact Hhead|reflexivity]. }
  rewrite Z.geb_leb in Hlvl. apply Z.leb_gt in Hlvl.
  pose proof (@group_execute_keeps_in state cfg order order_perm
                (fun s => crawl_inv aiohttp_request d s /\ objs s = objs st1)
                SitemapObj.t (fun _ => true)
                (__get_request_coro cfg aiohttp_request) (objs st1)
                (fun a Ha => @get_request_coro_keeps_crawl d (objs st1) a Ha)
                st1 (conj Hhead eq_refl)) as Hget.
  pose proof (@group_execute_returns state cfg order SitemapObj.t (fun _ => true)
                (__get_request_coro cfg aiohttp_request) (objs st1) st1) as Hgetr.
  destruct (__group_execute_tasks cfg order (fun _ : SitemapObj.t => true) _ _ st1)
    as [r2 st2].
  cbn [fst snd] in Hget, Hgetr. destruct Hget as (Hget & _).
  rewrite Hgetr in E by (apply forallb_forall; reflexivity).
  assert (Hnext : Forall (fun u => u = d \/ kept_link u) (nextlvl st2)).
  { destruct Hget as (_ & _ & _ & _ & _ & _ & Hk).
    apply (Forall_impl _ (fun a H => or_intror H) Hk). }
  destruct (IH (lvlidx + 1)%Z (nextlvl st2) st2 Hget Hnext) as (Hinv & Hres).
  rewrite E in Hinv, Hres. cbn [fst snd] in Hinv, Hres.
  split; [exact Hinv|]. intros Hd Hfuel. apply Hres; [exact Hd|lia].
Qed.

Lemma walker_init_crawl_inv (d n : string) :
  crawl_inv aiohttp_request d (walker_init d n).
Proof.
  unfold crawl_inv, walker_init. cbn.
  repeat split; try (intros ? []); constructor.
Qed.

Lemma traverse_links_sound (depth : Z) (d n : string) :
  crawl_inv aiohttp_request d
    (snd (traverse_links cfg aiohttp_request strptime order depth (walker_init d n)))
  /\ (PyStr.truthy d = true ->
      fst (traverse_links cfg aiohttp_request strptime order depth (walker_init d n))
      = Ok (Some tt)).
Proof.
  unfold traverse_links, bind, get. cbn [domain walker_init].
  destruct (@traverse_loop_sound d depth (S (Z.to_nat depth)) 0 [d]
              (walker_init d n) (walker_init_crawl_inv d n)) as (Hinv & Hres).
  { constructor; [left; reflexivity|constructor]. }
  split; [exact Hinv|]. intros Hd. apply Hres; [exact Hd|].
  rewrite Z.sub_0_r. lia.
Qed.

(** A seed that is the empty string makes [asyncio.wait] raise. *)
Lemma traverse_links_empty_seed (depth : Z) (n : string) :
  (1 <= SELECTOR_LIMIT cfg)%Z ->
  fst (traverse_links cfg aiohttp_request strptime order depth (walker_init "" n))
  = Raise (ValueError "Set of coroutines/Futures is empty.").
Proof.
  intros Hlim. unfold traverse_links, bind, get, modify. cbn [domain walker_init].
  cbn [traverse_loop]. unfold bind, modify.
  rewrite (head_phase_of_the_seed cfg aiohttp_request strptime order order_perm).
  destruct (SELECTOR_LIMIT cfg <=? 0)%Z eqn:H; [apply Z.leb_le in H; lia|].
  reflexivity.
Qed.

(** The crawl of a site whose seed is never answered. *)
Lemma traverse_links_dead_seed (depth : Z) (d n : string) :
  PyStr.truthy d = true ->
  (1 <= SELECTOR_LIMIT cfg)%Z ->
  (forall i, (i < Z.to_nat (REQUEST_RETRY cfg))%nat ->
             aiohttp_request i "head" d = None) ->
  traverse_links cfg aiohttp_request strptime order depth (walker_init d n)
  = (Ok (Some tt),
     set_requests (repeat ("head", d) (Z.to_nat (REQUEST_RETRY cfg)))
                  (walker_init d n)).
Proof.
  intros Hd Hlim Hdead.
  unfold traverse_links, bind, get. cbn [domain walker_init].
  cbn [traverse_loop]. unfold bind, modify, get.
  rewrite (head_phase_of_the_seed cfg aiohttp_request strptime order order_perm).
  destruct (SELECTOR_LIMIT cfg <=? 0)%Z eqn:H; [apply Z.leb_le in H; lia|].
  rewrite Hd.
  change (in_visited d (visited (set_nextlvl [] (set_objs [] (walker_init d n)))))
    with false.
  cbn [snd].
  assert (Hres : snd (head_request_resume cfg aiohttp_request strptime d 0
                        (set_nextlvl [] (set_objs [] (walker_init d n))))
                 = set_requests (repeat ("head", d) (Z.to_nat (REQUEST_RETRY cfg)))
                                (walker_init d n)).
  { unfold head_request_resume, prepare, bind, __do_request.
    cbn [SitemapObj.__init__ SitemapObj.url].
    destruct (@do_request_loop_first aiohttp_request "head" d
                (Z.to_nat (REQUEST_RETRY cfg))
                (set_nextlvl [] (set_objs [] (walker_init d n)))
                (Z.to_nat (REQUEST_RETRY cfg)) (Nat.le_refl _) Hdead) as [Hnone _].
    rewrite (Hnone eq_refl). reflexivity. }
  rewrite Hres.
  destruct (0 >=? depth)%Z eqn:Hlvl; [reflexivity|].
  rewrite Z.geb_leb in Hlvl. apply Z.leb_gt in Hlvl.
  unfold __group_execute_tasks, zip_longest.
  cbn [objs set_requests walker_init length].
  destruct (Z.to_nat (SELECTOR_LIMIT cfg)); cbn [zip_longest_fuel run_groups ret];
    (destruct (Z.to_nat depth) eqn:Hdep; [lia|reflexivity]).
Qed.

End DriverFacts.

(** X6.  A crawl lists no url twice: the visited descriptors of a fresh
    walker have distinct urls when [traverse_links] is over, in whatever
    order the runtime takes the items of a set and completes the tasks
    of a group. *)
Theorem crawl_lists_no_url_twice
        (cfg : Conf) (aiohttp_request : nat -> string -> string -> option Response)
        (strptime : string -> option datetime)
        (order : forall A : Type, list A -> list A)
        (depth : Z) (d n : string) :
  (forall (A : Type) (l : list A), Permutation (order A l) l) ->
  NoDup (map SitemapObj.url
             (visited (snd (traverse_links cfg aiohttp_request strptime order depth
                                           (walker_init d n))))).
Proof.
  intros Hperm.
  apply (traverse_links_sound cfg aiohttp_request strptime order Hperm depth d n).
Qed.

(** The crawl of the site [Site.dotted]. *)
Lemma crawl_lists_no_url_twice_witness :
  (forall (A : Type) (l : list A), Permutation (Site.in_order l) l)
  /\ NoDup (map SitemapObj.url
                (visited (snd (traverse_links conf Site.dotted HttpDate.strptime
                                              Site.in_order 3
                                              (walker_init "http://example.com"
                                                           "example.com"))))).
Proof.
  split; [intros A l; apply Permutation_refl|].
  apply (@crawl_lists_no_url_twice conf Site.dotted HttpDate.strptime Site.in_order
           3%Z "http://example.com" "example.com" (fun A l => Permutation_refl l)).
Defined.

(** X7.  Every url that a crawl visits is the final url of a response to
    a HEAD request with status 200 and a content type that starts with
    [text/html]. *)
Theorem crawl_visits_html_answers
        (cfg : Conf) (aiohttp_request : nat -> string -> string -> option Response)
        (strptime : string -> option datetime)
        (order : forall A : Type, list A -> list A)
        (depth : Z) (d n : string) (o : SitemapObj.t) :
  (forall (A : Type) (l : list A), Permutation (order A l) l) ->
  In o (visited (snd (traverse_links cfg aiohttp_request strptime order depth
                                     (walker_init d n)))) ->
  answered_as_html aiohttp_request (SitemapObj.url o).
Proof.
  intros Hperm.
  apply (traverse_links_sound cfg aiohttp_request strptime order Hperm depth d n).
Qed.

(** The root page of [Site.dotted] is visited. *)
Lemma crawl_visits_html_answers_witness :
  (forall (A : Type) (l : list A), Permutation (Site.in_order l) l)
  /\ In (SitemapObj.__init__ "http://example.com")
        (visited (snd (traverse_links conf Site.dotted HttpDate.strptime
                                      Site.in_order 3
                                      (walker_init "http://example.com"
                                                   "example.com"))))
  /\ answered_as_html Site.dotted "http://example.com".
Proof.
  split; [intros A l; apply Permutation_refl|].
  assert (Hin : In (SitemapObj.__init__ "http://example.com")
                   (visited (snd (traverse_links conf Site.dotted HttpDate.strptime
                                                 Site.in_order 3
                                                 (walker_init "http://example.com"
                                                              "example.com")))))
    by (vm_compute; left; reflexivity).
  split; [exact Hin|].
  apply (@crawl_visits_html_answers conf Site.dotted HttpDate.strptime Site.in_order
           3%Z "http://example.com" "example.com"
           (SitemapObj.__init__ "http://example.com")
           (fun A l => Permutation_refl l) Hin).
Defined.

(** X8.  A crawl sends GET requests only for urls of visited descriptors,
    and HEAD requests only for the seed and for links that
    [validate_update_url] returned: not empty, without anchor, [http] or
    [https] urls. *)
Theorem crawl_requests_are_for_known_urls
        (cfg : Conf) (aiohttp_request : nat -> string -> string -> option Response)
        (strptime : string -> option datetime)
        (order : forall A : Type, list A -> list A)
        (depth : Z) (d n : string) (u : string) :
  (forall (A : Type) (l : list A), Permutation (order A l) l) ->
  (In ("get", u)
      (requests (snd (traverse_links cfg aiohttp_request strptime order depth
                                     (walker_init d n)))) ->
   In u (map SitemapObj.url
             (visited (snd (traverse_links cfg aiohttp_request strptime order depth
                                           (walker_init d n))))))
  /\ (In ("head", u)
         (requests (snd (traverse_links cfg aiohttp_request strptime order depth
                                        (walker_init d n)))) ->
      u = d \/ kept_link u).
Proof.
  intros Hperm.
  destruct (traverse_links_sound cfg aiohttp_request strptime order Hperm depth d n)
    as ((_ & _ & _ & Hget & Hhd & _) & _).
  split; [apply Hget|apply Hhd].
Qed.

(** The requests of the crawl of [Site.dotted] for its root page. *)
Lemma crawl_requests_are_for_known_urls_witness :
  (forall (A : Type) (l : list A), Permutation (Site.in_order l) l)
  /\ (In ("get", "http://example.com")
         (requests (snd (traverse_links conf Site.dotted HttpDate.strptime
                                        Site.in_order 3
                                        (walker_init "http://example.com"
                                                     "example.com")))) ->
      In "http://example.com"
         (map SitemapObj.url
              (visited (snd (traverse_links conf Site.dotted HttpDate.strptime
                                            Site.in_order 3
                                            (walker_init "http://example.com"
                                                         "example.com"))))))
  /\ In ("get", "http://example.com")
        (requests (snd (traverse_links conf Site.dotted HttpDate.strptime
                                       Site.in_order 3
                                       (walker_init "http://example.com"
                                                    "example.com")))).
Proof.
  split; [intros A l; apply Permutation_refl|].
  split; [|vm_compute; auto 10].
  apply (@crawl_requests_are_for_known_urls
           conf Site.dotted HttpDate.strptime Site.in_order
           3%Z "http://example.com" "example.com" "http://example.com"
           (fun A l => Permutation_refl l)).
Defined.

(** X9.  [traverse_links] of a fresh walker raises no exception when
    the domain is not the empty string, whatever the site answers and
    whatever its coroutines raise: [asyncio.wait] keeps the exceptions
    of the tasks.  For the empty domain and a [SELECTOR_LIMIT] of one or
    more it raises the [ValueError] of [asyncio.wait].  (Whether the
    crawl ends is not stated: the site decides when the body of a page
    has been read.) *)
Theorem traverse_links_raises_for_no_domain_only
        (cfg : Conf) (aiohttp_request : nat -> string -> string -> option Response)
        (strptime : string -> option datetime)
        (order : forall A : Type, list A -> list A)
        (depth : Z) (d n : string) :
  (forall (A : Type) (l : list A), Permutation (order A l) l) ->
  (PyStr.truthy d = true ->
   forall e : exn,
     fst (traverse_links cfg aiohttp_request strptime order depth (walker_init d n))
     <> Raise e)
  /\ (d = "" -> (1 <= SELECTOR_LIMIT cfg)%Z ->
      fst (traverse_links cfg aiohttp_request strptime order depth (walker_init d n))
      = Raise (ValueError "Set of coroutines/Futures is empty.")).
Proof.
  intros Hperm. split.
  - intros Hd e.
    rewrite (proj2 (traverse_links_sound cfg aiohttp_request strptime order Hperm
                      depth d n) Hd).
    discriminate.
  - intros -> Hlim.
    apply (@traverse_links_empty_seed cfg aiohttp_request strptime order Hperm depth n Hlim).
Qed.

(** The crawl of [Site.iso_site], whose HEAD coroutine ends by a
    [ValueError], raises nothing. *)
Lemma traverse_links_raises_for_no_domain_only_witness :
  (forall (A : Type) (l : list A), Permutation (Site.in_order l) l)
  /\ PyStr.truthy "http://example.com/" = true
  /\ forall e : exn,
      fst (traverse_links conf Site.iso_site HttpDate.strptime Site.in_order 3
                          (walker_init "http://example.com/" "example.com"))
      <> Raise e.
Proof.
  split; [intros A l; apply Permutation_refl|]. split; [reflexivity|].
  apply (@traverse_links_raises_for_no_domain_only
           conf Site.iso_site HttpDate.strptime Site.in_order
           3%Z "http://example.com/" "example.com" (fun A l => Permutation_refl l)).
  reflexivity.
Defined.

(** X10.  When no HEAD request for the domain is answered, the crawl
    gives up after [REQUEST_RETRY] of them: it sends nothing else,
    visits nothing and returns without exception. *)
Theorem crawl_of_a_dead_site
        (cfg : Conf) (aiohttp_request : nat -> string -> string -> option Response)
        (strptime : string -> option datetime)
        (order : forall A : Type, list A -> list A)
        (depth : Z) (d n : string) :
  (forall (A : Type) (l : list A), Permutation (order A l) l) ->
  PyStr.truthy d = true ->
  (1 <= SELECTOR_LIMIT cfg)%Z ->
  (forall i, (i < Z.to_nat (REQUEST_RETRY cfg))%nat ->
             aiohttp_request i "head" d = None) ->
  traverse_links cfg aiohttp_request strptime order depth (walker_init d n)
  = (Ok (Some tt),
     set_requests (repeat ("head", d) (Z.to_nat (REQUEST_RETRY cfg)))
                  (walker_init d n)).
Proof.
  intros Hperm. apply (@traverse_links_dead_seed cfg aiohttp_request strptime order Hperm).
Qed.

(** A site that is down. *)
Lemma crawl_of_a_dead_site_witness :
  (forall (A : Type) (l : list A), Permutation (Site.in_order l) l)
  /\ PyStr.truthy "http://example.com" = true
  /\ (1 <= SELECTOR_LIMIT conf)%Z
  /\ (forall i, (i < Z.to_nat (REQUEST_RETRY conf))%nat ->
                Site2.down i "head" "http://example.com" = None)
  /\ requests (snd (traverse_links conf Site2.down HttpDate.strptime Site.in_order 3
                                   (walker_init "http://example.com" "example.com")))
     = [("head", "http://example.com"); ("head", "http://example.com");
        ("head", "http://example.com")].
Proof.
  split; [intros A l; apply Permutation_refl|]. split; [reflexivity|].
  split; [vm_compute; discriminate|]. split; [reflexivity|].
  rewrite (@crawl_of_a_dead_site conf Site2.down HttpDate.strptime Site.in_order
             3%Z "http://example.com" "example.com" (fun A l => Permutation_refl l)
             eq_refl ltac:(vm_compute; discriminate) (fun i _ => eq_refl)).
  reflexivity.
Defined.

(** ** The depth of a crawl *)

Section DepthFacts.

Variable cfg : Conf.
Variable aiohttp_request : nat -> string -> string -> option Response.
Variable strptime : string -> option datetime.
Variable order : forall A : Type, list A -> list A.
Hypothesis order_perm : forall (A : Type) (l : list A), Permutation (order l) l.

(** The links that the loop over the anchors adds come from the anchors. *)
Lemma process_links_from (hrefs : list (option string)) (dom nl : string) :
  forall (st : state) (v : string),
    In v (nextlvl (snd (process_links hrefs dom nl st))) ->
    In v (nextlvl st)
    \/ exists href up,
        In href hrefs
        /\ UrlParse.urlparse_href href = Ok up
        /\ SitemapObj.validate_update_url
             up (match href with Some h => h | None => "" end) dom nl true
           = Ok (Some v).
Proof.
  induction hrefs as [|href hrefs IH]; intros st v; [left; assumption|].
  cbn [process_links]. unfold bind, lift.
  destruct (UrlParse.urlparse_href href) as [up|e] eqn:Hup; [|left; assumption].
  destruct (SitemapObj.validate_update_url _ _ _ _ _) as [[u|]|e] eqn:Hv;
    [| |left; assumption].
  - assert (Hrest : forall st1,
               (forall x, In x (nextlvl st1) -> In x (nextlvl st) \/ x = u) ->
               In v (nextlvl (snd (process_links hrefs dom nl st1))) ->
               In v (nextlvl st)
               \/ exists href0 up0,
                   In href0 (href :: hrefs)
                   /\ UrlParse.urlparse_href href0 = Ok up0
                   /\ SitemapObj.validate_update_url
                        up0 (match href0 with Some h => h | None => "" end) dom nl true
                      = Ok (Some v)).
    { intros st1 Hst1 Hin. destruct (IH st1 v Hin) as [Hold|(h0 & u0 & Hh & Hu & Hv0)].
      - destruct (Hst1 v Hold) as [H| ->]; [left; exact H|].
        right. exists href, up. split; [left; reflexivity|]. split; assumption.
      - right. exists h0, u0. split; [right; exact Hh|]. split; assumption. }
    destruct (PyStr.truthy u); [|unfold ret; apply Hrest; auto].
    unfold nextlvl_add, modify.
    destruct (PyStr.mem u (nextlvl st)); cbn [fst snd]; apply Hrest; [auto|].
    intros x Hx. cbn [nextlvl set_nextlvl] in Hx.
    apply in_app_or in Hx as [Hx|[<-|[]]]; auto.
  - unfold ret. intros Hin. destruct (IH st v Hin) as [H|(h0 & u0 & Hh & Hu & Hv0)];
      [left; exact H|].
    right. exists h0, u0. split; [right; exact Hh|]. split; assumption.
Qed.

(** What [process] adds to [nextlvl] is linked from the page of the
    object; it sends GET requests for its url only and leaves the
    accepted objects alone. *)
Lemma process_adds_linked (o : SitemapObj.t) (dom nl : string) (st : state) :
  (exists k,
      requests (snd (process cfg aiohttp_request o dom nl st))
      = (requests st ++ repeat ("get", SitemapObj.url o) k)%list)
  /\ objs (snd (process cfg aiohttp_request o dom nl st)) = objs st
  /\ forall v,
      In v (nextlvl (snd (process cfg aiohttp_request o dom nl st))) ->
      In v (nextlvl st) \/ linked aiohttp_request (SitemapObj.url o) v.
Proof.
  unfold process, bind, __do_request.
  destruct (do_request_loop_result aiohttp_request "get" (SitemapObj.url o)
              (Z.to_nat (REQUEST_RETRY cfg)) st)
    as (k & _ & [(_ & ->) | (r & Hlt & Hr & ->)]).
  - cbn [snd ret]. split; [eexists; reflexivity|]. split; [reflexivity|]. auto.
  - set (st1 := set_requests _ st).
    destruct (process_links_effect (r_hrefs r) dom nl st1) as (nx & Hnx).
    split; [exists (S k); rewrite Hnx; reflexivity|].
    split; [rewrite Hnx; reflexivity|].
    intros v Hv. destruct (process_links_from _ _ _ _ _ Hv)
      as [H|(href & up & Hh & Hu & Hval)]; [left; exact H|].
    right. exists (length (requests st) + k)%nat, r, href, up, dom, nl. auto.
Qed.

Lemma head_request_coro_within (d : string) (j g : nat) (lvlidx : Z) (url : string) :
  reach aiohttp_request d j url ->
  coro_keeps (within aiohttp_request d (S j) g j)
             (__head_request_coro cfg aiohttp_request strptime lvlidx url).
Proof.
  intros Hurl st Hst. unfold __head_request_coro, bind, get, ret.
  destruct (in_visited url (visited st)); cbn [fst snd];
    (split; [exact Hst|]); [discriminate|].
  intros t [= <-]. clear st Hst.
  intros st (Hhd & Hvis & Hget & Hobjs & Hnx).
  destruct (head_request_resume_effect cfg aiohttp_request strptime url lvlidx st)
    as (Hn & (k & _ & Hr) & Hv).
  unfold within, heads_within, visits_within, gets_within. rewrite Hn, Hr.
  assert (Hland : forall obj st1,
             prepare cfg aiohttp_request strptime (SitemapObj.__init__ url) st
             = (Ok obj, st1) ->
             lands aiohttp_request url (SitemapObj.url obj)).
  { intros obj st1 Hp.
    apply prepare_result_inv in Hp as (r & i & _ & Hreq & H200 & Hct & Hobj & _).
    exists (length (requests st) + i)%nat, r. rewrite Hobj. auto. }
  split.
  { intros v Hv'. apply in_app_or in Hv' as [Hv'|Hv'].
    - destruct (Hhd v Hv') as (i & Hi & Hreach). exists i. split; [lia|exact Hreach].
    - apply repeat_spec in Hv'. injection Hv' as ->. exists j. split; [lia|exact Hurl]. }
  split.
  { destruct Hv as [(-> & _) | (obj & st1 & Hp & _ & -> & _)]; [exact Hvis|].
    intros o Ho. apply in_app_or in Ho as [Ho|[<-|[]]]; [apply Hvis, Ho|].
    exists j, url. split; [lia|]. split; [exact Hurl|apply (Hland _ _ Hp)]. }
  split.
  { intros o Ho. apply in_app_or in Ho as [Ho|Ho]; [apply Hget, Ho|].
    apply repeat_spec in Ho. discriminate. }
  split; [|exact Hnx].
  destruct Hv as [(_ & ->) | (obj & st1 & Hp & _ & _ & ->)]; [exact Hobjs|].
  intros o Ho. apply in_app_or in Ho as [Ho|[<-|[]]]; [apply Hobjs, Ho|].
  exists url. split; [exact Hurl|apply (Hland _ _ Hp)].
Qed.

Lemma get_request_coro_within (d : string) (j : nat) (o : SitemapObj.t) :
  (exists u, reach aiohttp_request d j u
             /\ lands aiohttp_request u (SitemapObj.url o)) ->
  coro_keeps (within aiohttp_request d (S j) (S j) j)
             (__get_request_coro cfg aiohttp_request o).
Proof.
  intros (u & Hu & Hland) st Hst. unfold __get_request_coro, bind, get, ret.
  cbn [fst snd]. split; [exact Hst|]. intros t [= <-]. clear Hst.
  intros st1 (Hhd & Hvis & Hget & Hobjs & Hnx).
  destruct (process_adds_linked o (domain st) (netloc st) st1)
    as ((k & Hr) & Hob & Hnew).
  assert (Hsame : visited (snd (process cfg aiohttp_request o (domain st) (netloc st) st1))
                  = visited st1).
  { destruct (process_effect cfg aiohttp_request o (domain st) (netloc st) st1)
      as (rs & nx & ->). reflexivity. }
  unfold within, heads_within, visits_within, gets_within. rewrite Hr, Hob, Hsame.
  split.
  { intros v Hv. apply in_app_or in Hv as [Hv|Hv]; [apply Hhd, Hv|].
    apply repeat_spec in Hv. discriminate. }
  split; [exact Hvis|].
  split.
  { intros x Hx. apply in_app_or in Hx as [Hx|Hx]; [apply Hget, Hx|].
    apply repeat_spec in Hx. injection Hx as ->. exists j, u. auto. }
  split; [exact Hobjs|].
  intros v Hv. destruct (Hnew v Hv) as [H|H]; [apply Hnx, H|].
  exists u, (SitemapObj.url o). auto.
Qed.

(** The loop of [traverse_links], entered at level [j] with links [j]
    links away from the seed: the HEAD requests and the pages visited
    stay within the larger of [j] and the depth, the GET requests below
    it. *)
Lemma traverse_loop_within (d : string) (depth : Z) (fuel : nat) :
  forall (j : nat) (thislvl : list string) (st : state),
    heads_within aiohttp_request d j st ->
    visits_within aiohttp_request d j st ->
    gets_within aiohttp_request d j st ->
    Forall (reach aiohttp_request d j) thislvl ->
    exists h g : nat,
      (Z.of_nat h <= Z.max (Z.of_nat j) depth + 1)%Z
      /\ (Z.of_nat g <= Z.max (Z.of_nat j) depth)%Z
      /\ heads_within aiohttp_request d h
           (snd (traverse_loop cfg aiohttp_request strptime order
                               depth fuel (Z.of_nat j) thislvl st))
      /\ visits_within aiohttp_request d h
           (snd (traverse_loop cfg aiohttp_request strptime order
                               depth fuel (Z.of_nat j) thislvl st))
      /\ gets_within aiohttp_request d g
           (snd (traverse_loop cfg aiohttp_request strptime order
                               depth fuel (Z.of_nat j) thislvl st)).
Proof.
  induction fuel as [|fuel IH]; intros j thislvl st Hhd0 Hvis0 Hget0 Hlvl.
  { exists j, j. repeat split; try lia; assumption. }
  destruct (traverse_loop cfg aiohttp_request strptime order depth (S fuel)
                          (Z.of_nat j) thislvl st) as [r s] eqn:E.
  cbn [snd]. cbn [traverse_loop] in E.
  destruct thislvl as [|u thislvl].
  { injection E as _ <-. exists j, j. repeat split; try lia; assumption. }
  unfold bind, modify, get, ret in E.
  set (st0 := set_nextlvl [] (set_objs [] st)) in E.
  assert (Hst0 : within aiohttp_request d (S j) j j st0).
  { subst st0. unfold within. cbn [objs nextlvl set_objs set_nextlvl].
    split; [|split; [|split; [exact Hget0|split; intros ? []]]].
    - intros v Hv. destruct (Hhd0 v Hv) as (k & Hk & Hr).
      exists k. split; [lia|exact Hr].
    - intros o Ho. destruct (Hvis0 o Ho) as (k & x & Hk & Hr).
      exists k, x. split; [lia|exact Hr]. }
  clearbody st0.
  assert (Hord : Forall (reach aiohttp_request d j) (order (u :: thislvl))).
  { apply (Permutation_Forall (Permutation_sym (order_perm (u :: thislvl)))), Hlvl. }
  pose proof (@group_execute_keeps_in state cfg order order_perm
                (within aiohttp_request d (S j) j j) string PyStr.truthy
                (__head_request_coro cfg aiohttp_request strptime (Z.of_nat j))
                (order (u :: thislvl))
                (fun a Ha => @head_request_coro_within d j j (Z.of_nat j) a
                               (proj1 (Forall_forall _ _) Hord a Ha)) st0 Hst0)
    as Hhead.
  destruct (__group_execute_tasks cfg order PyStr.truthy _ _ st0) as [r1 st1].
  cbn [snd] in Hhead.
  assert (Hstop : exists h g : nat,
             (Z.of_nat h <= Z.max (Z.of_nat j) depth + 1)%Z
             /\ (Z.of_nat g <= Z.max (Z.of_nat j) depth)%Z
             /\ heads_within aiohttp_request d h st1
             /\ visits_within aiohttp_request d h st1
             /\ gets_within aiohttp_request d g st1).
  { exists (S j), j. destruct Hhead as (Hhd & Hvis & Hget & _).
    repeat split; try lia; assumption. }
  destruct r1 as [[]|e]; [|injection E as _ <-; exact Hstop].
  destruct (Z.of_nat j >=? depth)%Z eqn:Hge; [injection E as _ <-; exact Hstop|].
  clear Hstop. rewrite Z.geb_leb in Hge. apply Z.leb_gt in Hge.
  assert (Hst1 : within aiohttp_request d (S j) (S j) j st1).
  { destruct Hhead as (Hhd & Hvis & Hget & Hobjs & Hnx).
    split; [exact Hhd|split; [exact Hvis|split; [|split; assumption]]].
    intros o Ho. destruct (Hget o Ho) as (k & x & Hk & Hx). exists k, x.
    split; [lia|exact Hx]. }
  pose proof (@group_execute_keeps_in state cfg order order_perm
                (within aiohttp_request d (S j) (S j) j)
                SitemapObj.t (fun _ => true)
                (__get_request_coro cfg aiohttp_request) (objs st1)
                (fun a Ha => @get_request_coro_within d j a
                               (proj1 (proj2 (proj2 (proj2 Hhead))) a Ha))
                st1 Hst1) as Hget.
  destruct (__group_execute_tasks cfg order (fun _ : SitemapObj.t => true) _ _ st1)
    as [r2 st2].
  cbn [snd] in Hget. destruct Hget as (Hhd2 & Hvis2 & Hget2 & _ & Hnx2).
  destruct r2 as [[]|e].
  2: { injection E as _ <-. exists (S j), (S j). repeat split; try lia; assumption. }
  replace (Z.of_nat j + 1)%Z with (Z.of_nat (S j)) in E by lia.
  destruct (IH (S j) (nextlvl st2) st2 Hhd2 Hvis2 Hget2)
    as (h & g & Hh & Hg & Hhd & Hvis & Hget).
  { apply Forall_forall. exact Hnx2. }
  rewrite E in Hhd, Hvis, Hget. cbn [snd] in Hhd, Hvis, Hget.
  exists h, g. repeat split; try lia; assumption.
Qed.

End DepthFacts.

(** X20.  A crawl stays within its depth.  Every url it requests with
    HEAD is at most [depth] links away from the domain (none, the domain
    itself, for a depth below one): it is reached from the domain by
    that many steps, each from a url to the page that answered the HEAD
    request for it and on to an anchor of that page that
    [validate_update_url] let through.  Every visited page answered the
    HEAD request for such a url, and every page requested with GET
    answered the HEAD request for a url less than [depth] links away. *)
Theorem crawl_stays_within_depth
        (cfg : Conf) (aiohttp_request : nat -> string -> string -> option Response)
        (strptime : string -> option datetime)
        (order : forall A : Type, list A -> list A)
        (depth : Z) (d n : string) :
  (forall (A : Type) (l : list A), Permutation (order A l) l) ->
  (forall v,
      In ("head", v)
         (requests (snd (traverse_links cfg aiohttp_request strptime order depth
                                        (walker_init d n)))) ->
      exists k, (Z.of_nat k <= Z.max 0 depth)%Z /\ reach aiohttp_request d k v)
  /\ (forall o,
         In o (visited (snd (traverse_links cfg aiohttp_request strptime order depth
                                            (walker_init d n)))) ->
         exists k u,
           (Z.of_nat k <= Z.max 0 depth)%Z
           /\ reach aiohttp_request d k u
           /\ lands aiohttp_request u (SitemapObj.url o))
  /\ (forall v,
         In ("get", v)
            (requests (snd (traverse_links cfg aiohttp_request strptime order depth
                                           (walker_init d n)))) ->
         exists k u,
           (Z.of_nat k < depth)%Z
           /\ reach aiohttp_request d k u
           /\ lands aiohttp_request u v).
Proof.
  intros Hperm. unfold traverse_links, bind, get. cbn [domain walker_init].
  destruct (@traverse_loop_within cfg aiohttp_request strptime order Hperm d depth
              (S (Z.to_nat depth)) 0 [d] (walker_init d n))
    as (h & g & Hh & Hg & Hhd & Hvis & Hget).
  - intros x [].
  - intros x [].
  - intros x [].
  - constructor; [reflexivity|constructor].
  - cbn [Z.of_nat] in *. split; [|split].
    + intros v Hv. destruct (Hhd v Hv) as (k & Hk & Hr).
      exists k. split; [lia|exact Hr].
    + intros o Ho. destruct (Hvis o Ho) as (k & u & Hk & Hr).
      exists k, u. split; [lia|exact Hr].
    + intros v Hv. destruct (Hget v Hv) as (k & u & Hk & Hr).
      exists k, u. split; [lia|exact Hr].
Qed.

(** The crawl of [Site.dotted] to the depth of one requests the page
    [about.html], one link away. *)
Lemma crawl_stays_within_depth_witness :
  (forall (A : Type) (l : list A), Permutation (Site.in_order l) l)
  /\ In ("head", "http://example.com./about.html")
        (requests (snd (traverse_links conf Site.dotted HttpDate.strptime
                                       Site.in_order 1
                                       (walker_init "http://example.com"
                                                    "example.com"))))
  /\ exists k,
      (Z.of_nat k <= Z.max 0 1)%Z
      /\ reach Site.dotted "http://example.com" k "http://example.com./about.html".
Proof.
  assert (Hperm : forall (A : Type) (l : list A), Permutation (Site.in_order l) l)
    by (intros A l; apply Permutation_refl).
  assert (Hin : In ("head", "http://example.com./about.html")
                   (requests (snd (traverse_links conf Site.dotted HttpDate.strptime
                                                  Site.in_order 1
                                                  (walker_init "http://example.com"
                                                               "example.com")))))
    by (vm_compute; auto 10).
  split; [exact Hperm|]. split; [exact Hin|].
  apply (proj1 (@crawl_stays_within_depth conf Site.dotted HttpDate.strptime
                  Site.in_order 1%Z "http://example.com" "example.com" Hperm)
               _ Hin).
Defined.

(** ** The target of a crawl *)

Section TargetFacts.

Variable cfg : Conf.
Variable aiohttp_request : nat -> string -> string -> option Response.
Variable strptime : string -> option datetime.
Variable order : forall A : Type, list A -> list A.
Hypothesis order_perm : forall (A : Type) (l : list A), Permutation (order l) l.

(** At level 0 a resumed HEAD coroutine keeps the target, or takes the
    target from the url that [prepare] ended on: it does so before that
    url is validated, whether the page is accepted or not. *)
Lemma head_request_resume_target (url : string) (st : state) :
  (domain (snd (head_request_resume cfg aiohttp_request strptime url 0 st)) = domain st
   /\ netloc (snd (head_request_resume cfg aiohttp_request strptime url 0 st))
      = netloc st)
  \/ exists obj st1 up,
      prepare cfg aiohttp_request strptime (SitemapObj.__init__ url) st = (Ok obj, st1)
      /\ SitemapObj.url obj <> url
      /\ UrlParse.urlparse (SitemapObj.url obj) = Ok up
      /\ domain (snd (head_request_resume cfg aiohttp_request strptime url 0 st))
         = UrlParse.scheme up ++ "://" ++ UrlParse.netloc up
      /\ netloc (snd (head_request_resume cfg aiohttp_request strptime url 0 st))
         = UrlParse.netloc up.
Proof.
  destruct (prepare_sends cfg aiohttp_request strptime (SitemapObj.__init__ url) st)
    as (k & Hk & Hp).
  cbn [SitemapObj.__init__ SitemapObj.url] in Hp.
  set (G := fun s : state =>
              (domain s = domain st /\ netloc s = netloc st)
              \/ exists obj st1 up,
                  prepare cfg aiohttp_request strptime (SitemapObj.__init__ url) st
                  = (Ok obj, st1)
                  /\ SitemapObj.url obj <> url
                  /\ UrlParse.urlparse (SitemapObj.url obj) = Ok up
                  /\ domain s = UrlParse.scheme up ++ "://" ++ UrlParse.netloc up
                  /\ netloc s = UrlParse.netloc up).
  change (G (snd (head_request_resume cfg aiohttp_request strptime url 0 st))).
  assert (Hskip : forall s, domain s = domain st -> netloc s = netloc st -> G s)
    by (intros s H1 H2; left; split; assumption).
  unfold head_request_resume.
  destruct (prepare cfg aiohttp_request strptime (SitemapObj.__init__ url) st)
    as [[obj|e] st1] eqn:Hprep; cbn [snd] in Hp; subst st1.
  2: { destruct e; cbn [snd]; apply Hskip; reflexivity. }
  set (st1 := set_requests (requests st ++ repeat ("head", url) k)%list st) in *.
  unfold bind, objs_append, visited_add, ret, get, modify, lift.
  destruct (String.eqb_spec (SitemapObj.url obj) url) as [Hurl|Hurl]; cbn [negb].
  - clearbody G. change (visited st1) with (visited st).
    destruct (in_visited (SitemapObj.url obj) (visited st)) eqn:Hin;
      [apply Hskip; reflexivity|].
    apply Hskip; subst st1; simpl_state; rewrite Hin; reflexivity.
  - change (0 =? 0)%Z with true. cbn [negb].
    destruct (UrlParse.urlparse (SitemapObj.url obj)) as [up|e] eqn:Hup;
      [|apply Hskip; reflexivity].
    assert (Hset : forall s,
               domain s = UrlParse.scheme up ++ "://" ++ UrlParse.netloc up ->
               netloc s = UrlParse.netloc up -> G s).
    { intros s H1 H2. right. exists obj, st1, up. auto. }
    clearbody G. cbn [domain netloc set_target].
    destruct (SitemapObj.validate_update_url
                up (SitemapObj.url obj)
                (UrlParse.scheme up ++ "://" ++ UrlParse.netloc up)
                (UrlParse.netloc up) false) as [[v|]|e];
      try (apply Hset; reflexivity).
    destruct (PyStr.truthy v); cbn [negb]; [|apply Hset; reflexivity].
    change (visited (set_target _ _ st1)) with (visited st).
    destruct (in_visited (SitemapObj.url obj) (visited st)) eqn:Hin;
      [apply Hset; reflexivity|].
    apply Hset; subst st1; simpl_state; rewrite Hin; reflexivity.
Qed.

(** The target of a walker when its crawl is over. *)
Lemma traverse_links_target (depth : Z) (d n : string) :
  seed_target aiohttp_request d n
    (snd (traverse_links cfg aiohttp_request strptime order depth (walker_init d n))).
Proof.
  unfold traverse_links, bind, get. cbn [domain walker_init].
  cbn [traverse_loop].
  unfold bind at 1. unfold modify at 1. unfold bind at 1. unfold modify at 1.
  unfold bind at 1.
  set (st0 := set_nextlvl [] (set_objs [] (walker_init d n))).
  pose proof (@seed_head_phase_checked cfg aiohttp_request strptime order order_perm
                d st0 eq_refl) as Hchk.
  assert (Htgt : seed_target aiohttp_request d n
                   (snd (__group_execute_tasks cfg order PyStr.truthy
                           (__head_request_coro cfg aiohttp_request strptime 0)
                           (order [d]) st0))).
  { rewrite (head_phase_of_the_seed cfg aiohttp_request strptime order order_perm).
    destruct (SELECTOR_LIMIT cfg <=? 0)%Z; [left; split; reflexivity|].
    destruct (PyStr.truthy d); [|left; split; reflexivity].
    destruct (in_visited d (visited st0)); [left; split; reflexivity|].
    cbn [snd].
    destruct (head_request_resume_target d st0)
      as [(Hd & Hn) | (obj & st1 & up & Hp & Hne & Hup & Hd & Hn)].
    - left. rewrite Hd, Hn. split; reflexivity.
    - right. exists (SitemapObj.url obj), up.
      apply prepare_result_inv in Hp as (r & i & _ & Hreq & H200 & Hct & Hobj & _).
      split; [exists (length (requests st0) + i)%nat, r; rewrite Hobj; auto|].
      auto. }
  destruct (__group_execute_tasks cfg order PyStr.truthy _ _ st0) as [[[]|e] st1];
    cbn [snd] in Hchk, Htgt; [|exact Htgt].
  destruct (0 >=? depth)%Z; [exact Htgt|].
  assert (Hinv : walker_inv (domain st1) (netloc st1) st1) by (repeat split; exact Hchk).
  enough (H : walker_inv (domain st1) (netloc st1)
                (snd ((st2 <- get ;;
                       __group_execute_tasks cfg order (fun _ : SitemapObj.t => true)
                         (__get_request_coro cfg aiohttp_request) (objs st2) ;;;
                       st' <- get ;;
                       traverse_loop cfg aiohttp_request strptime order depth
                                     (Z.to_nat depth) (0 + 1) (nextlvl st')) st1))).
  { destruct H as (Hd & Hn & _). unfold seed_target in *. rewrite Hd, Hn. exact Htgt. }
  unfold bind at 1. unfold get at 1.
  assert (Hget : walker_inv (domain st1) (netloc st1)
            (snd (__group_execute_tasks cfg order (fun _ : SitemapObj.t => true)
                    (__get_request_coro cfg aiohttp_request) (objs st1) st1))).
  { apply group_execute_keeps; [exact order_perm| |exact Hinv].
    intros a. apply get_request_coro_keeps. }
  apply bind_keeps; [exact Hget|]. intros _ _.
  unfold bind, get. apply traverse_loop_keeps; [exact order_perm|lia|exact Hget].
Qed.

End TargetFacts.

(** X21.  The target of a walker changes only through a redirect of its
    domain: when the crawl is over, the domain and the netloc are those
    the walker was made with, or, when the HEAD request for the domain
    was answered by an HTML page under another url, the scheme with the
    netloc and the netloc of that url.  (The walker takes them before it
    validates the url, so also when the page is not accepted.) *)
Theorem crawl_target_follows_the_seed
        (cfg : Conf) (aiohttp_request : nat -> string -> string -> option Response)
        (strptime : string -> option datetime)
        (order : forall A : Type, list A -> list A)
        (depth : Z) (d n : string) :
  (forall (A : Type) (l : list A), Permutation (order A l) l) ->
  seed_target aiohttp_request d n
    (snd (traverse_links cfg aiohttp_request strptime order depth (walker_init d n))).
Proof.
  intros Hperm.
  apply (@traverse_links_target cfg aiohttp_request strptime order Hperm).
Qed.

(** The crawl of [Site.dotted], whose root is not redirected. *)
Lemma crawl_target_follows_the_seed_witness :
  (forall (A : Type) (l : list A), Permutation (Site.in_order l) l)
  /\ seed_target Site.dotted "http://example.com" "example.com"
       (snd (traverse_links conf Site.dotted HttpDate.strptime Site.in_order 3
                            (walker_init "http://example.com" "example.com"))).
Proof.
  split; [intros A l; apply Permutation_refl|].
  apply (@crawl_target_follows_the_seed conf Site.dotted HttpDate.strptime
           Site.in_order 3%Z "http://example.com" "example.com"
           (fun A l => Permutation_refl l)).
Defined.

(** ** The emitter *)

Section ArchiveFacts.

Variable cfg : Conf.
Variable strftime : datetime -> string.

Lemma until_falsy_map_Some (A : Type) (l : list A) :
  until_falsy (fun _ => true) (map Some l) = l.
Proof. induction l as [|x l IH]; [reflexivity|]. cbn. rewrite IH. reflexivity. Qed.

(** The tuples of [zip_longest] hold all the items, in order, at most
    [n] in each and at least one. *)
Lemma zip_longest_fuel_concat (A : Type) (n fuel : nat) :
  forall l : list A,
    (length l <= fuel)%nat ->
    concat (map (until_falsy (fun _ => true)) (zip_longest_fuel fuel (S n) l)) = l
    /\ Forall (fun s => (1 <= length (until_falsy (fun _ : A => true) s) <= S n)%nat)
              (zip_longest_fuel fuel (S n) l).
Proof.
  induction fuel as [|fuel IH]; intros l Hl.
  { destruct l; [split; [reflexivity|constructor]|cbn in Hl; lia]. }
  destruct l as [|x l]; [split; [reflexivity|constructor]|].
  cbn [zip_longest_fuel map concat].
  rewrite until_falsy_next_n by (apply forallb_forall; reflexivity).
  destruct (IH (skipn (S n) (x :: l))) as (Hc & Hf).
  { rewrite length_skipn. cbn [length] in *. lia. }
  split; [rewrite Hc; apply firstn_skipn|].
  constructor; [|exact Hf].
  rewrite until_falsy_next_n by (apply forallb_forall; reflexivity).
  rewrite length_firstn. cbn [length]. lia.
Qed.

Lemma zip_longest_concat (A : Type) (n : nat) (l : list A) :
  ((1 <= n)%nat ->
   concat (map (until_falsy (fun _ => true)) (zip_longest n l)) = l)
  /\ Forall (fun s => (1 <= length (until_falsy (fun _ : A => true) s) <= n)%nat)
            (zip_longest n l).
Proof.
  unfold zip_longest. destruct n as [|n]; [split; [lia|constructor]|].
  destruct (@zip_longest_fuel_concat A n (length l) l (Nat.le_refl _)) as (Hc & Hf).
  split; [intros _; exact Hc|exact Hf].
Qed.

(** The loop over the chunks: the nodes of the index, the members of the
    archive, and the files, where the paths of the chunks are free
    again. *)
Lemma generate_chunks_run (domain_ : string)
      (sublists : list (list (option SitemapObj.t))) :
  forall (idx : nat) (root : Element) (zipf : list (string * file)) (fs : FS),
  exists fs' : FS,
    generate_chunks cfg strftime domain_ idx sublists root zipf fs
    = (Ok (set_children
             (children root
                ++ map (sitemap_node cfg domain_) (seq idx (length sublists)))%list
             root,
           (zipf ++ combine (map (chunk_path cfg) (seq idx (length sublists)))
                            (map (fun s => XmlFile (urlset strftime s)) sublists))%list),
       fs')
    /\ forall q,
        fs_lookup q fs'
        = if existsb (fun p => String.eqb p q)
                     (map (chunk_path cfg) (seq idx (length sublists)))
          then None else fs_lookup q fs.
Proof.
  induction sublists as [|s sublists IH]; intros idx root zipf fs.
  - exists fs. cbn [generate_chunks length seq map combine existsb].
    rewrite !app_nil_r. split; [destruct root; reflexivity|reflexivity].
  - rewrite generate_chunks_cons. fold (chunk_path cfg idx).
    fold (sitemap_node cfg domain_ idx).
    destruct (IH (S idx) (append (sitemap_node cfg domain_ idx) root)
                 (zipf ++ [(chunk_path cfg idx, XmlFile (urlset strftime s))])%list
                 (fs_delete (chunk_path cfg idx)
                    ((chunk_path cfg idx, XmlFile (urlset strftime s))
                       :: fs_delete (chunk_path cfg idx) fs)))
      as (fs' & Hrun & Hfs).
    exists fs'. split.
    + rewrite Hrun. cbn [length seq map combine].
      unfold append at 1 2. cbn [children set_children].
      rewrite <- !app_assoc. destruct root; reflexivity.
    + intros q. rewrite Hfs. cbn [length seq map existsb].
      rewrite fs_lookup_delete. cbn [fs_lookup]. rewrite fs_lookup_delete.
      destruct (String.eqb (chunk_path cfg idx) q); cbn [orb];
        destruct (existsb _ _); reflexivity.
Qed.

Lemma sitemap_node_outline (domain_ : string) (idxs : list nat) (root : Element) :
  children root = [] ->
  outline (__indent 0 (set_children
                         (children root ++ map (sitemap_node cfg domain_) idxs)%list
                         root))
  = map (index_entry cfg domain_) idxs.
Proof.
  intros Hroot. rewrite Hroot. cbn [app].
  rewrite outline_indent.
  - unfold outline. cbn [children set_children]. rewrite map_map. reflexivity.
  - cbn [children set_children]. apply Forall_map, Forall_forall. intros i _.
    repeat constructor.
Qed.

(** [generate_sitemap] returns the path of a file that it has written:
    the file name with [.xml] or [.zip] added. *)
Lemma generate_sitemap_returns (domain_ : string) (visited_ : list SitemapObj.t)
      (filename : string) (fs : FS) :
  exists (outfile : string) (fs' : FS),
    generate_sitemap cfg strftime domain_ visited_ filename fs = (Ok outfile, fs')
    /\ (outfile = filename ++ ".xml" \/ outfile = filename ++ ".zip")
    /\ exists f, fs_lookup outfile fs' = Some f.
Proof.
  unfold generate_sitemap.
  destruct (Z.of_nat (length visited_) <=? SITEMAP_SIZE cfg)%Z.
  - eexists. eexists. split; [reflexivity|]. split; [left; reflexivity|].
    cbn [fs_lookup]. rewrite String.eqb_refl. eauto.
  - unfold bind at 1. unfold fs_write at 1, modify. cbn [fst snd].
    destruct (generate_chunks_run domain_
                (zip_longest (Z.to_nat (SITEMAP_SIZE cfg)) visited_) 0
                (set_attrib "xmlns" xmlns (new_element "sitemapindex")) []
                ((filename ++ ".zip", ZipFile [])
                   :: fs_delete (filename ++ ".zip") fs))
      as (fs1 & Hrun & _).
    unfold bind at 1. rewrite Hrun. cbn [fst snd app].
    unfold bind, fs_write, modify, ret, fs_read, os_remove.
    cbn [fs_lookup fst snd]. rewrite String.eqb_refl.
    cbn [fs_lookup fst snd]. rewrite String.eqb_refl.
    eexists. eexists. split; [reflexivity|]. split; [right; reflexivity|].
    cbn [fs_lookup]. rewrite String.eqb_refl. eauto.
Qed.

End ArchiveFacts.

(** X11.  For a visited set within [SITEMAP_SIZE], [generate_sitemap]
    writes one document, at the file name with [.xml] added, and returns
    that path; no other path changes.  The document is a [urlset] with
    one [url] node for each visited descriptor, in order, with its [loc]
    and, when it is dated, its [lastmod]. *)
Theorem generate_sitemap_writes_one_file
        (cfg : Conf) (strftime : datetime -> string) (domain_ : string)
        (visited_ : list SitemapObj.t) (filename : string) (fs : FS) :
  (Z.of_nat (length visited_) <= SITEMAP_SIZE cfg)%Z ->
  exists (doc : Element) (fs' : FS),
    generate_sitemap cfg strftime domain_ visited_ filename fs
    = (Ok (filename ++ ".xml"), fs')
    /\ (forall q,
           fs_lookup q fs'
           = if String.eqb (filename ++ ".xml") q then Some (XmlFile doc)
             else fs_lookup q fs)
    /\ tag doc = "urlset"
    /\ outline doc = map (url_entry strftime) visited_.
Proof.
  intros Hlen. unfold generate_sitemap.
  destruct (Z.leb_spec (Z.of_nat (length visited_)) (SITEMAP_SIZE cfg)); [|lia].
  exists (urlset strftime (map Some visited_)). eexists.
  split; [reflexivity|]. split.
  - intros q. cbn [fs_lookup]. rewrite fs_lookup_delete.
    destruct (String.eqb (filename ++ ".xml") q); reflexivity.
  - destruct (urlset_outline strftime (map Some visited_)) as (Ht & Ho & _).
    rewrite until_falsy_map_Some in Ho. split; assumption.
Qed.

(** The sitemap of three descriptors, written to an empty directory. *)
Lemma generate_sitemap_writes_one_file_witness :
  (Z.of_nat (length Site2.three_pages) <= SITEMAP_SIZE conf)%Z
  /\ exists (doc : Element) (fs' : FS),
      generate_sitemap conf HttpDate.strftime "http://example.com" Site2.three_pages
                       "xml/AbCdEfGhIjKl" []
      = (Ok ("xml/AbCdEfGhIjKl" ++ ".xml"), fs')
      /\ fs_lookup ("xml/AbCdEfGhIjKl" ++ ".xml") fs' = Some (XmlFile doc)
      /\ outline doc
         = [("url", [("loc", Some "http://example.com/a")]);
            ("url", [("loc", Some "http://example.com/b")]);
            ("url", [("loc", Some "http://example.com/c")])].
Proof.
  assert (Hlen : (Z.of_nat (length Site2.three_pages) <= SITEMAP_SIZE conf)%Z)
    by (vm_compute; discriminate).
  split; [exact Hlen|].
  destruct (@generate_sitemap_writes_one_file
              conf HttpDate.strftime "http://example.com" Site2.three_pages
              "xml/AbCdEfGhIjKl" [] Hlen)
    as (doc & fs' & Hrun & Hfs & _ & Hout).
  exists doc, fs'. split; [exact Hrun|]. split; [|exact Hout].
  rewrite Hfs, String.eqb_refl. reflexivity.
Defined.

(** X12.  For a visited set over [SITEMAP_SIZE], [generate_sitemap]
    returns the path of an archive, the file name with [.zip] added,
    whose members are the chunks [sitemap0.xml], [sitemap1.xml], ...
    under [XML_PATH] and then the index; the chunk files and the index
    file are deleted again and no other path changes.  Every chunk is a
    [urlset] of one to [SITEMAP_SIZE] nodes, and the chunks together
    hold one [url] node for each visited descriptor, in order.  The
    index is a [sitemapindex] with one [sitemap/loc] node for each
    chunk: the domain, a slash and the file name of the chunk.  For a
    limit below one there is no chunk: the archive holds an empty index
    and every descriptor is left out. *)
Theorem generate_sitemap_writes_an_archive
        (cfg : Conf) (strftime : datetime -> string) (domain_ : string)
        (visited_ : list SitemapObj.t) (filename : string) (fs : FS) :
  (SITEMAP_SIZE cfg < Z.of_nat (length visited_))%Z ->
  exists (docs : list Element) (idx : Element) (fs' : FS),
    generate_sitemap cfg strftime domain_ visited_ filename fs
    = (Ok (filename ++ ".zip"), fs')
    /\ (forall q,
           fs_lookup q fs'
           = if String.eqb (filename ++ ".zip") q
             then Some (archive cfg filename docs idx)
             else if existsb (fun p => String.eqb p q)
                             (map (chunk_path cfg) (seq 0 (length docs)))
                     || String.eqb (filename ++ ".xml") q
                  then None
                  else fs_lookup q fs)
    /\ Forall (fun doc =>
                 tag doc = "urlset"
                 /\ (1 <= Z.of_nat (length (children doc)) <= SITEMAP_SIZE cfg)%Z)
              docs
    /\ ((1 <= SITEMAP_SIZE cfg)%Z ->
        concat (map outline docs) = map (url_entry strftime) visited_)
    /\ ((SITEMAP_SIZE cfg <= 0)%Z -> docs = [])
    /\ tag idx = "sitemapindex"
    /\ outline idx = map (index_entry cfg domain_) (seq 0 (length docs)).
Proof.
  intros Hlen. unfold generate_sitemap.
  destruct (Z.leb_spec (Z.of_nat (length visited_)) (SITEMAP_SIZE cfg)); [lia|].
  remember (Z.to_nat (SITEMAP_SIZE cfg)) as N eqn:HN.
  set (subl := zip_longest N visited_).
  set (root := set_attrib "xmlns" xmlns (new_element "sitemapindex")).
  exists (map (urlset strftime) subl).
  exists (__indent 0 (set_children
                        (children root
                           ++ map (sitemap_node cfg domain_)
                                  (seq 0 (length subl)))%list root)).
  unfold bind at 1. unfold fs_write at 1, modify. cbn [fst snd].
  destruct (generate_chunks_run cfg strftime domain_ subl 0 root []
              ((filename ++ ".zip", ZipFile []) :: fs_delete (filename ++ ".zip") fs))
    as (fs1 & Hrun & Hfs1).
  unfold bind at 1. rewrite Hrun. cbn [fst snd app].
  unfold bind, fs_write, modify, ret, fs_read, os_remove.
  cbn [fs_lookup fst snd]. rewrite String.eqb_refl.
  cbn [fs_lookup fst snd]. rewrite String.eqb_refl.
  eexists. split; [reflexivity|]. rewrite length_map.
  split.
  { intros q. cbn [fs_lookup]. unfold archive. rewrite length_map, map_map.
    destruct (String.eqb (filename ++ ".zip") q) eqn:Hzip; [reflexivity|].
    rewrite !fs_lookup_delete, Hzip. cbn [fs_lookup]. rewrite fs_lookup_delete.
    rewrite Hfs1. cbn [fs_lookup]. rewrite Hzip, fs_lookup_delete, Hzip.
    destruct (String.eqb (filename ++ ".xml") q);
      destruct (existsb _ _); reflexivity. }
  destruct (zip_longest_concat N visited_) as (Hcat & Hall). fold subl in Hcat, Hall.
  split.
  { apply Forall_map. revert Hall. apply Forall_impl. intros s Hs.
    destruct (urlset_outline strftime s) as (Ht & _ & Hl).
    split; [exact Ht|]. rewrite Hl. lia. }
  split.
  { intros Hsize. rewrite map_map.
    rewrite (map_ext _ (fun s => map (url_entry strftime)
                                     (until_falsy (fun _ => true) s)))
      by (intros s; apply (urlset_outline strftime s)).
    rewrite <- (map_map (until_falsy (fun _ => true)) (map (url_entry strftime))).
    rewrite <- concat_map, Hcat by lia. reflexivity. }
  split.
  { intros Hsize. subst subl. replace N with 0%nat by lia. reflexivity. }
  split; [rewrite tag_indent; reflexivity|].
  apply sitemap_node_outline. reflexivity.
Qed.

(** Three descriptors, two to a file. *)
Lemma generate_sitemap_writes_an_archive_witness :
  (SITEMAP_SIZE Site2.small_files < Z.of_nat (length Site2.three_pages))%Z
  /\ exists (docs : list Element) (idx : Element) (fs' : FS),
      generate_sitemap Site2.small_files HttpDate.strftime "http://example.com"
                       Site2.three_pages "xml/AbCdEfGhIjKl" []
      = (Ok ("xml/AbCdEfGhIjKl" ++ ".zip"), fs')
      /\ fs_lookup ("xml/AbCdEfGhIjKl" ++ ".zip") fs'
         = Some (archive Site2.small_files "xml/AbCdEfGhIjKl" docs idx)
      /\ concat (map outline docs)
         = [("url", [("loc", Some "http://example.com/a")]);
            ("url", [("loc", Some "http://example.com/b")]);
            ("url", [("loc", Some "http://example.com/c")])].
Proof.
  assert (Hlen : (SITEMAP_SIZE Site2.small_files
                  < Z.of_nat (length Site2.three_pages))%Z)
    by (vm_compute; reflexivity).
  split; [exact Hlen|].
  destruct (@generate_sitemap_writes_an_archive
              Site2.small_files HttpDate.strftime "http://example.com"
              Site2.three_pages "xml/AbCdEfGhIjKl" [] Hlen)
    as (docs & idx & fs' & Hrun & Hfs & _ & Hcat & _).
  exists docs, idx, fs'. split; [exact Hrun|]. split.
  - rewrite Hfs, String.eqb_refl. reflexivity.
  - apply Hcat. vm_compute. discriminate.
Defined.

(** ** [filename_generator] *)

Lemma get_mem_char (chars : string) :
  forall n : nat,
    (n < String.length chars)%nat ->
    exists c, String.get n chars = Some c /\ PyStr.mem_char c chars = true.
Proof.
  induction chars as [|d chars IH]; intros n Hn; [cbn in Hn; lia|].
  destruct n as [|n]; cbn [String.get PyStr.mem_char].
  - exists d. rewrite Ascii.eqb_refl. auto.
  - destruct (IH n) as (c & Hc & Hm); [cbn in Hn; lia|].
    exists c. rewrite Hm, orb_true_r. auto.
Qed.

(** With characters to choose from, the choices are made and are among
    them. *)
Lemma choices_ok (rand : nat -> nat) (chars : string) :
  chars <> "" ->
  forall n k,
  exists s,
    choices rand n k chars = Ok s
    /\ String.length s = n
    /\ PyStr.all_chars (fun c => PyStr.mem_char c chars) s = true.
Proof.
  intros Hchars.
  assert (Hlen : (0 < String.length chars)%nat)
    by (destruct chars; [congruence|cbn; lia]).
  induction n as [|n IH]; intros k; [exists ""; auto|].
  cbn [choices]. unfold choice.
  destruct (@get_mem_char chars (rand k mod String.length chars))
    as (c & -> & Hc); [apply Nat.mod_upper_bound; lia|].
  destruct (IH (S k)) as (s & -> & Hs & Hall).
  exists (String c s). cbn [String.length PyStr.all_chars].
  rewrite Hc, Hall, Hs. auto.
Qed.

(** X13.  [filename_generator] returns a name of [size] characters (none
    for a negative [size]), each of them one of [chars]; it raises
    [IndexError] when [chars] is empty and [size] is positive. *)
Theorem filename_generator_draws_from_chars
        (rand : nat -> nat) (k : nat) (size : Z) (chars : string) :
  (chars <> "" ->
   exists s,
     filename_generator rand k size chars = Ok s
     /\ Z.of_nat (String.length s) = Z.max 0 size
     /\ PyStr.all_chars (fun c => PyStr.mem_char c chars) s = true)
  /\ (chars = "" -> (0 < size)%Z ->
      filename_generator rand k size chars
      = Raise (IndexError "Cannot choose from an empty sequence")).
Proof.
  unfold filename_generator. split.
  - intros Hchars.
    destruct (choices_ok rand Hchars (Z.to_nat size) k) as (s & Hs & Hl & Hall).
    exists s. split; [exact Hs|]. split; [lia|exact Hall].
  - intros -> Hsize. destruct (Z.to_nat size) eqn:Hn; [lia|]. reflexivity.
Qed.

(** Twelve characters of the default alphabet. *)
Lemma filename_generator_draws_from_chars_witness :
  default_chars <> ""
  /\ exists s,
      filename_generator Site2.draws 0 12 default_chars = Ok s
      /\ Z.of_nat (String.length s) = 12%Z.
Proof.
  assert (H : default_chars <> "") by discriminate.
  split; [exact H|].
  destruct (proj1 (@filename_generator_draws_from_chars Site2.draws 0 12 default_chars) H)
    as (s & Hs & Hl & _).
  exists s. split; [exact Hs|exact Hl].
Defined.

(** ** [__indent] *)

Lemma Element_nested_ind (P : Element -> Prop) :
  (forall t a tx tl ch, Forall P ch -> P (mkElement t a tx tl ch)) ->
  forall e, P e.
Proof.
  intros H. fix IH 1. intros [t a tx tl ch]. apply H.
  induction ch as [|c ch IHch]; constructor; [apply IH|exact IHch].
Qed.

Lemma spaces_blank (n : nat) : PyStr.is_blank (spaces n) = true.
Proof.
  unfold PyStr.is_blank. induction n as [|n IH]; [reflexivity|].
  cbn [spaces]. rewrite all_chars_app, IH. reflexivity.
Qed.

Lemma indent_string_blank (n : nat) :
  blank (Some (String Regex.newline (spaces n))) = true
  /\ blank (Some (String Regex.newline (spaces n) ++ "  ")) = true.
Proof.
  pose proof (spaces_blank n) as H. unfold blank, PyStr.is_blank in *.
  split; [cbn [PyStr.all_chars]; rewrite H; reflexivity|].
  rewrite all_chars_app. cbn [PyStr.all_chars]. rewrite H. reflexivity.
Qed.

(** X14.  [__indent] changes white space only: an element keeps its
    tag, its attributes, its children in their order and every [text]
    and [tail] that is not blank; only a [text] or [tail] that is absent
    or blank is written anew, with white space. *)
Theorem indent_keeps_the_content (e : Element) :
  forall level : nat, significant (__indent level e) = significant e.
Proof.
  induction e as [t a tx tl ch IH] using Element_nested_ind. intros level.
  destruct (indent_string_blank level) as (Hi & Hi2).
  cbn [__indent]. destruct ch as [|c ch].
  - destruct (negb (level =? 0)%nat && blank tl) eqn:Htl; [|reflexivity].
    apply andb_true_iff in Htl as [_ Htl].
    cbn [significant map]. rewrite Hi, Htl. reflexivity.
  - cbn [significant]. f_equal.
    + destruct (blank tx) eqn:Htx; [rewrite Hi2|rewrite Htx]; reflexivity.
    + destruct (blank tl) eqn:Htl; [rewrite Hi|rewrite Htl]; reflexivity.
    + rewrite map_map_last.
      * rewrite map_map. apply map_ext_Forall. revert IH. apply Forall_impl.
        intros x Hx. apply Hx.
      * intros x. destruct (blank (tail x)) eqn:Hx; [|reflexivity].
        destruct x as [t' a' tx' tl' ch']. cbn [tail] in Hx.
        unfold set_tail. cbn [significant tag attrib text tail children].
        rewrite Hi, Hx. reflexivity.
Qed.


(** ** The handler of [/generate/] *)

(** X18.  What an answer of [sitemap_gen] says.  When the handler
    answers [error], it has changed nothing, and the queue is full, or
    the request has no url, or an empty one, or one that [is_url_valid]
    rejects, in this order of the tests.  When it answers [ok], the
    queue was not full and [is_url_valid] accepts the url of the request;
    the file that the answer names exists: it was written under
    [XML_PATH] with a name of twelve letters and digits and the ending
    [.xml] or [.zip]; the answer gives [XML_DELETE_TO], and the queue
    has got one item for the file, with the time of the request.
    (Whether the handler answers is not stated: the crawl may not end,
    and writing the file may fail.) *)
Theorem sitemap_gen_answer_sound
        (cfg : Conf) (scfg : ServerConf) (Time : Type)
        (aiohttp_request : nat -> string -> string -> option Response)
        (strptime : string -> option datetime) (strftime : datetime -> string)
        (order : forall A : Type, list A -> list A) (rand : nat -> nat)
        (url_for : string -> string)
        (url : option string) (now : Time) (srv srv' : Server Time) (json : Json) :
  sitemap_gen cfg scfg aiohttp_request strptime strftime order rand url_for
              url now srv
  = (Ok (Some json), srv') ->
  match json with
  | json_error msg =>
      srv' = srv
      /\ ((queue_full scfg (delete_queue srv) = true
           /\ msg = "ERROR: XML file Queue is full. "
                      ++ "Please wait until old file will be deleted")
          \/ (queue_full scfg (delete_queue srv) = false
              /\ (url = None \/ url = Some "")
              /\ msg = "ERROR: Please specify URL")
          \/ (exists u,
                 queue_full scfg (delete_queue srv) = false
                 /\ url = Some u
                 /\ u <> ""
                 /\ Utils.is_url_valid u = false
                 /\ msg = "ERROR: Incorrect URL specified " ++ dquote ++ u ++ dquote))
  | json_ok link to =>
      exists (u name outfile : string),
        queue_full scfg (delete_queue srv) = false
        /\ url = Some u
        /\ Utils.is_url_valid u = true
        /\ link = url_for outfile
        /\ to = XML_DELETE_TO scfg
        /\ delete_queue srv'
           = (delete_queue srv ++ [{| ts := now; filename := outfile |}])%list
        /\ drawn srv' = drawn srv + 12
        /\ String.length name = 12%nat
        /\ PyStr.all_chars (fun c => PyStr.mem_char c default_chars) name = true
        /\ (outfile = (XML_PATH cfg ++ name) ++ ".xml"
            \/ outfile = (XML_PATH cfg ++ name) ++ ".zip")
        /\ exists f, fs_lookup outfile (disk srv') = Some f
  end.
Proof.
  unfold sitemap_gen. intros H.
  destruct (queue_full scfg (delete_queue srv)) eqn:Hfull.
  { injection H as <- <-. split; [reflexivity|]. left. split; reflexivity. }
  destruct url as [u|].
  2: { injection H as <- <-. split; [reflexivity|]. right; left. auto. }
  destruct (PyStr.truthy u) eqn:Htruthy; cbn [negb] in H.
  2: { injection H as <- <-. split; [reflexivity|]. right; left.
       destruct u; [auto|discriminate]. }
  destruct (Utils.is_url_valid u) eqn:Hvalid; cbn [negb] in H.
  2: { injection H as <- <-. split; [reflexivity|]. right; right. exists u.
       split; [reflexivity|]. split; [reflexivity|].
       split; [intros ->; discriminate|]. split; [exact Hvalid|reflexivity]. }
  destruct (UrlParse.urlparse u) as [up|e]; [|discriminate].
  assert (Hchars : default_chars <> "") by discriminate.
  unfold filename_generator in H.
  destruct (choices_ok rand Hchars (Z.to_nat 12) (drawn srv))
    as (name & Hname & Hlen & Hall).
  rewrite Hname in H.
  destruct (traverse_links cfg aiohttp_request strptime order (DEPTH_LEVEL cfg) _)
    as [[[[]|]|e] walker']; try discriminate.
  cbn [disk delete_queue drawn] in H.
  destruct (generate_sitemap_returns cfg strftime (domain walker')
              (order _ (visited walker')) (XML_PATH cfg ++ name) (disk srv))
    as (outfile & fs' & Hgen & Hout & Hfile).
  rewrite Hgen, Hfull in H. injection H as <- <-.
  exists u, name, outfile. cbn [delete_queue disk drawn].
  repeat (split; [first [reflexivity | assumption]|]). exact Hfile.
Qed.

(** A request for [http://example.com] to a fresh server, on the site
    [Site.dotted]: the answer names the file [xml/DKRYfmt07ELS.xml]. *)
Lemma sitemap_gen_answer_sound_witness :
  exists srv' : Server Z,
    sitemap_gen conf server_conf Site.dotted HttpDate.strptime HttpDate.strftime
                Site.in_order Site2.draws Site2.static_url
                (Some "http://example.com") 0%Z Site2.fresh_server
    = (Ok (Some (json_ok "/xml/DKRYfmt07ELS.xml" 1800)), srv')
    /\ exists (u name outfile : string),
        queue_full server_conf (delete_queue Site2.fresh_server) = false
        /\ Some "http://example.com" = Some u
        /\ Utils.is_url_valid u = true
        /\ "/xml/DKRYfmt07ELS.xml" = Site2.static_url outfile
        /\ 1800%Z = XML_DELETE_TO server_conf
        /\ delete_queue srv'
           = (delete_queue Site2.fresh_server
                ++ [{| ts := 0%Z; filename := outfile |}])%list
        /\ drawn srv' = drawn Site2.fresh_server + 12
        /\ String.length name = 12%nat
        /\ PyStr.all_chars (fun c => PyStr.mem_char c default_chars) name = true
        /\ (outfile = (XML_PATH conf ++ name) ++ ".xml"
            \/ outfile = (XML_PATH conf ++ name) ++ ".zip")
        /\ exists f, fs_lookup outfile (disk srv') = Some f.
Proof.
  match eval vm_compute in
        (snd (sitemap_gen conf server_conf Site.dotted HttpDate.strptime
                          HttpDate.strftime Site.in_order Site2.draws
                          Site2.static_url (Some "http://example.com") 0%Z
                          Site2.fresh_server)) with
  | ?s => exists s
  end.
  match goal with
  | |- ?eqn /\ _ => assert (H : eqn) by (vm_compute; reflexivity)
  end.
  split; [exact H|].
  exact (@sitemap_gen_answer_sound _ _ _ _ _ _ _ _ _ _ _ _ _ _ H).
Defined.

(** X19.  The sitemap of a crawl: when the visited set of a crawl is
    within [SITEMAP_SIZE], the document that [generate_sitemap] writes
    for it has one [url] node for each visited descriptor, in the order
    the set hands them out; no url is listed twice, and every url listed
    is the final url of a response with status 200 and a content type
    starting with [text/html]. *)
Theorem sitemap_of_a_crawl
        (cfg : Conf) (aiohttp_request : nat -> string -> string -> option Response)
        (strptime : string -> option datetime) (strftime : datetime -> string)
        (order : forall A : Type, list A -> list A)
        (depth : Z) (d n filename : string) (fs : FS) (st' : state) :
  (forall (A : Type) (l : list A), Permutation (order A l) l) ->
  st' = snd (traverse_links cfg aiohttp_request strptime order depth
                            (walker_init d n)) ->
  (Z.of_nat (length (visited st')) <= SITEMAP_SIZE cfg)%Z ->
  exists (doc : Element) (fs' : FS),
    generate_sitemap cfg strftime (domain st') (order _ (visited st')) filename fs
    = (Ok (filename ++ ".xml"), fs')
    /\ fs_lookup (filename ++ ".xml") fs' = Some (XmlFile doc)
    /\ outline doc = map (url_entry strftime) (order _ (visited st'))
    /\ NoDup (map SitemapObj.url (order _ (visited st')))
    /\ Forall (fun o => answered_as_html aiohttp_request (SitemapObj.url o))
              (order _ (visited st')).
Proof.
  intros Hperm Hst Hlen.
  destruct (traverse_links_sound cfg aiohttp_request strptime order Hperm depth d n)
    as ((Hnd & _ & Hans & _) & _).
  rewrite <- Hst in Hnd, Hans.
  pose proof (Hperm _ (visited st')) as Hvis.
  unfold generate_sitemap.
  rewrite (Permutation_length Hvis).
  destruct (Z.leb_spec (Z.of_nat (length (visited st'))) (SITEMAP_SIZE cfg)); [|lia].
  exists (urlset strftime (map Some (order _ (visited st')))). eexists.
  split; [reflexivity|]. split; [cbn [fs_lookup]; rewrite String.eqb_refl; reflexivity|].
  destruct (urlset_outline strftime (map Some (order _ (visited st'))))
    as (_ & Ho & _).
  rewrite until_falsy_map_Some in Ho. split; [exact Ho|]. split.
  - apply (Permutation_NoDup (Permutation_map _ (Permutation_sym Hvis)) Hnd).
  - apply (Permutation_Forall (Permutation_sym Hvis)).
    apply Forall_forall. exact Hans.
Qed.

(** The sitemap of the crawl of [Site.dotted]. *)
Lemma sitemap_of_a_crawl_witness :
  (forall (A : Type) (l : list A), Permutation (Site.in_order l) l)
  /\ (Z.of_nat (length (visited (snd (traverse_links
                                        conf Site.dotted HttpDate.strptime
                                        Site.in_order 3
                                        (walker_init "http://example.com"
                                                     "example.com")))))
      <= SITEMAP_SIZE conf)%Z
  /\ exists (doc : Element) (fs' : FS),
      fs_lookup ("xml/AbCdEfGhIjKl" ++ ".xml") fs' = Some (XmlFile doc)
      /\ outline doc
         = map (url_entry HttpDate.strftime)
               (visited (snd (traverse_links conf Site.dotted HttpDate.strptime
                                             Site.in_order 3
                                             (walker_init "http://example.com"
                                                          "example.com")))).
Proof.
  assert (Hperm : forall (A : Type) (l : list A), Permutation (Site.in_order l) l)
    by (intros A l; apply Permutation_refl).
  assert (Hlen : (Z.of_nat (length (visited (snd (traverse_links
                                        conf Site.dotted HttpDate.strptime
                                        Site.in_order 3
                                        (walker_init "http://example.com"
                                                     "example.com")))))
                  <= SITEMAP_SIZE conf)%Z)
    by (vm_compute; discriminate).
  split; [exact Hperm|]. split; [exact Hlen|].
  destruct (@sitemap_of_a_crawl conf Site.dotted HttpDate.strptime HttpDate.strftime
              Site.in_order 3%Z "http://example.com" "example.com"
              "xml/AbCdEfGhIjKl" [] _ Hperm eq_refl Hlen)
    as (doc & fs' & _ & Hfile & Hout & _).
  exists doc, fs'. split; [exact Hfile|exact Hout].
Defined.

(** ** The crawl of depth 0 *)

(** With one attempt or more allowed, [prepare] sends a HEAD request. *)
Lemma prepare_sends_some
      (cfg : Conf) (aiohttp_request : nat -> string -> string -> option Response)
      (strptime : string -> option datetime) (self : SitemapObj.t) (st : state) :
  (1 <= REQUEST_RETRY cfg)%Z ->
  exists k,
    (1 <= k <= Z.to_nat (REQUEST_RETRY cfg))%nat
    /\ snd (prepare cfg aiohttp_request strptime self st)
       = set_requests (requests st ++ repeat ("head", SitemapObj.url self) k)%list st.
Proof.
  intros Hretry. unfold prepare, bind, __do_request.
  destruct (do_request_loop_result aiohttp_request "head" (SitemapObj.url self)
              (Z.to_nat (REQUEST_RETRY cfg)) st)
    as (k & _ & [(-> & ->) | (r & Hlt & Hr & ->)]).
  - exists (Z.to_nat (REQUEST_RETRY cfg)). split; [lia|reflexivity].
  - exists (S k). split; [lia|].
    unfold lift. destruct (prepare_response strptime r); reflexivity.
Qed.

(** A resumed HEAD coroutine sends what [prepare] sends. *)
Lemma head_request_resume_sends
      (cfg : Conf) (aiohttp_request : nat -> string -> string -> option Response)
      (strptime : string -> option datetime)
      (url : string) (lvlidx : Z) (st : state) :
  requests (snd (head_request_resume cfg aiohttp_request strptime url lvlidx st))
  = requests (snd (prepare cfg aiohttp_request strptime (SitemapObj.__init__ url) st)).
Proof.
  unfold head_request_resume.
  destruct (prepare cfg aiohttp_request strptime (SitemapObj.__init__ url) st)
    as [[obj|e] st1]; cbn [snd]; [|destruct e; reflexivity].
  unfold bind, objs_append, visited_add, ret, get, modify, lift.
  repeat match goal with
         | |- context [if ?b then _ else _] => destruct b
         | |- context [match ?x with Ok _ => _ | Raise _ => _ end] => destruct x
         | |- context [match ?x with Some _ => _ | None => _ end] => destruct x
         end;
    reflexivity.
Qed.

(** C7.  With [depth = 0] the driver runs the HEAD phase of level 0 and
    ends: it sends HEAD requests for the seed and nothing else, at most
    [REQUEST_RETRY] of them and no GET, and it returns (by the exception
    of [asyncio.wait] when the seed is the empty string).  The seed is
    validated: for a seed that is not empty nor visited yet, and one
    task or more at a time, the walker is left as [prepare] on the seed
    leaves it, with the seed's page accepted when [prepare] returns it
    under the url of the seed; after a redirect the walker has taken the
    target of the new url, and the page is accepted when
    [validate_update_url] lets its url through for that target and the
    url is new; and with one attempt or more allowed, one HEAD request
    or more is sent. *)
Theorem depth_zero_sends_no_get
        (cfg : Conf) (aiohttp_request : nat -> string -> string -> option Response)
        (strptime : string -> option datetime)
        (order : forall A : Type, list A -> list A) :
  (forall (A : Type) (l : list A), Permutation (order A l) l) ->
  forall st : state,
    (exists k,
        (k <= Z.to_nat (REQUEST_RETRY cfg))%nat
        /\ requests (snd (traverse_links cfg aiohttp_request strptime order 0 st))
           = (requests st ++ repeat ("head", domain st) k)%list)
    /\ (fst (traverse_links cfg aiohttp_request strptime order 0 st) = Ok (Some tt)
        \/ (domain st = ""
            /\ fst (traverse_links cfg aiohttp_request strptime order 0 st)
               = Raise (ValueError "Set of coroutines/Futures is empty.")))
    /\ ((1 <= SELECTOR_LIMIT cfg)%Z ->
        PyStr.truthy (domain st) = true ->
        in_visited (domain st) (visited st) = false ->
        (forall e st1,
            prepare cfg aiohttp_request strptime (SitemapObj.__init__ (domain st))
                    (set_nextlvl [] (set_objs [] st))
            = (Raise e, st1) ->
            traverse_links cfg aiohttp_request strptime order 0 st
            = (Ok (Some tt), st1))
        /\ (forall obj st1,
               prepare cfg aiohttp_request strptime (SitemapObj.__init__ (domain st))
                       (set_nextlvl [] (set_objs [] st))
               = (Ok obj, st1) ->
               SitemapObj.url obj = domain st ->
               traverse_links cfg aiohttp_request strptime order 0 st
               = (Ok (Some tt), accepted obj st1))
        /\ (forall obj st1,
               prepare cfg aiohttp_request strptime (SitemapObj.__init__ (domain st))
                       (set_nextlvl [] (set_objs [] st))
               = (Ok obj, st1) ->
               SitemapObj.url obj <> domain st ->
               match UrlParse.urlparse (SitemapObj.url obj) with
               | Raise _ =>
                   traverse_links cfg aiohttp_request strptime order 0 st
                   = (Ok (Some tt), st1)
               | Ok up =>
                   let st2 :=
                     set_target (UrlParse.scheme up ++ "://" ++ UrlParse.netloc up)
                                (UrlParse.netloc up) st1 in
                   let lets_through :=
                     match SitemapObj.validate_update_url
                             up (SitemapObj.url obj)
                             (UrlParse.scheme up ++ "://" ++ UrlParse.netloc up)
                             (UrlParse.netloc up) false with
                     | Ok (Some v) =>
                         PyStr.truthy v
                         && negb (in_visited (SitemapObj.url obj) (visited st))
                     | _ => false
                     end in
                   traverse_links cfg aiohttp_request strptime order 0 st
                   = (Ok (Some tt), if lets_through then accepted obj st2 else st2)
               end)
        /\ ((1 <= REQUEST_RETRY cfg)%Z ->
            exists k,
              (1 <= k <= Z.to_nat (REQUEST_RETRY cfg))%nat
              /\ requests (snd (traverse_links cfg aiohttp_request strptime order 0 st))
                 = (requests st ++ repeat ("head", domain st) k)%list)).
Proof.
  intros Hperm st.
  unfold traverse_links, bind, get.
  change (Z.to_nat 0) with 0%nat. cbn [traverse_loop].
  unfold bind, modify.
  rewrite (head_phase_of_the_seed cfg aiohttp_request strptime order Hperm).
  set (st0 := set_nextlvl [] (set_objs [] st)).
  change (domain st) with (domain st0). change (requests st) with (requests st0).
  change (visited st) with (visited st0).
  destruct (SELECTOR_LIMIT cfg <=? 0)%Z eqn:Hlim.
  { cbn. split; [|split; [left; reflexivity|]].
    - exists 0%nat. split; [lia|]. rewrite app_nil_r. reflexivity.
    - intros H. apply Z.leb_le in Hlim. lia. }
  destruct (PyStr.truthy (domain st0)) eqn:Htruthy.
  2: { cbn. split; [|split; [|intros _ H; discriminate]].
       - exists 0%nat. split; [lia|]. rewrite app_nil_r. reflexivity.
       - right. split; [|reflexivity].
         change (PyStr.truthy (domain st) = false) in Htruthy.
         change (domain st0) with (domain st).
         destruct (domain st); [reflexivity|discriminate]. }
  destruct (in_visited (domain st0) (visited st0)) eqn:Hin.
  { cbn. split; [|split; [left; reflexivity|intros _ _ H; discriminate]].
    exists 0%nat. split; [lia|]. rewrite app_nil_r. reflexivity. }
  cbn [fst snd]. change (0 >=? 0)%Z with true. cbn iota. unfold ret. cbn [fst snd].
  split; [exact (head_request_resume_requests cfg aiohttp_request strptime
                   (domain st) 0 st0)|].
  split; [left; reflexivity|].
  intros _ _ _.
  assert (Hsome : (1 <= REQUEST_RETRY cfg)%Z ->
                  exists k,
                    (1 <= k <= Z.to_nat (REQUEST_RETRY cfg))%nat
                    /\ requests (snd (head_request_resume cfg aiohttp_request strptime
                                                          (domain st0) 0 st0))
                       = (requests st0 ++ repeat ("head", domain st0) k)%list).
  { intros Hretry. rewrite head_request_resume_sends.
    destruct (prepare_sends_some cfg aiohttp_request strptime
                (SitemapObj.__init__ (domain st0)) st0 Hretry) as (k & Hk & ->).
    exists k. split; [exact Hk|reflexivity]. }
  unfold head_request_resume.
  split; [|split; [|split; [|exact Hsome]]].
  - intros e st1 ->. destruct e; reflexivity.
  - intros obj st1 Hp Hurl.
    destruct (prepare_sends cfg aiohttp_request strptime
                (SitemapObj.__init__ (domain st)) st0) as (k & _ & Hst1).
    change (domain st0) with (domain st) in *.
    rewrite Hp in Hst1 |- *. cbn [snd] in Hst1. subst st1.
    unfold bind, objs_append, visited_add, ret, get, modify, lift.
    rewrite Hurl, String.eqb_refl. cbn [negb]. simpl_state.
    change (visited st) with (visited st0). rewrite Hin. cbn [fst snd].
    simpl_state. rewrite Hin. reflexivity.
  - intros obj st1 Hp Hurl.
    destruct (prepare_sends cfg aiohttp_request strptime
                (SitemapObj.__init__ (domain st)) st0) as (k & _ & Hst1).
    change (domain st0) with (domain st) in *.
    rewrite Hp in Hst1 |- *. cbn [snd] in Hst1. subst st1.
    unfold bind, objs_append, visited_add, ret, get, modify, lift.
    apply String.eqb_neq in Hurl. rewrite Hurl. cbn [negb].
    change (0 =? 0)%Z with true. cbn [negb].
    destruct (UrlParse.urlparse (SitemapObj.url obj)) as [up|e]; [|reflexivity].
    cbn zeta. simpl_state.
    destruct (SitemapObj.validate_update_url
                up (SitemapObj.url obj)
                (UrlParse.scheme up ++ "://" ++ UrlParse.netloc up)
                (UrlParse.netloc up) false) as [[v|]|e]; try reflexivity.
    destruct (PyStr.truthy v); cbn [negb andb]; [|reflexivity].
    simpl_state.
    destruct (in_visited (SitemapObj.url obj) (visited st0)) eqn:Hnew;
      cbn [negb fst snd]; [reflexivity|].
    simpl_state. change (visited st) with (visited st0). rewrite Hnew. reflexivity.
Qed.

(** The crawl of depth 0 of the site [Site.dotted]: one HEAD request, and
    the root page is visited. *)
Lemma depth_zero_sends_no_get_witness :
  (forall (A : Type) (l : list A), Permutation (Site.in_order l) l)
  /\ (1 <= SELECTOR_LIMIT conf)%Z
  /\ PyStr.truthy (domain (walker_init "http://example.com" "example.com")) = true
  /\ in_visited (domain (walker_init "http://example.com" "example.com"))
                (visited (walker_init "http://example.com" "example.com"))
     = false
  /\ traverse_links conf Site.dotted HttpDate.strptime Site.in_order 0
                    (walker_init "http://example.com" "example.com")
     = (Ok (Some tt),
        {| domain := "http://example.com"; netloc := "example.com";
           visited := [SitemapObj.__init__ "http://example.com"];
           objs := [SitemapObj.__init__ "http://example.com"];
           nextlvl := [];
           requests := [("head", "http://example.com")] |}).
Proof.
  assert (Hperm : forall (A : Type) (l : list A), Permutation (Site.in_order l) l)
    by (intros A l; apply Permutation_refl).
  assert (Hlim : (1 <= SELECTOR_LIMIT conf)%Z) by (vm_compute; discriminate).
  split; [exact Hperm|]. split; [exact Hlim|].
  split; [reflexivity|]. split; [reflexivity|].
  destruct (@depth_zero_sends_no_get conf Site.dotted HttpDate.strptime Site.in_order
              Hperm (walker_init "http://example.com" "example.com"))
    as (_ & _ & Hseed).
  destruct (Hseed Hlim eq_refl eq_refl) as (_ & Hsame & _).
  rewrite (Hsame (SitemapObj.__init__ "http://example.com")
                 {| domain := "http://example.com"; netloc := "example.com";
                    visited := []; objs := []; nextlvl := [];
                    requests := [("head", "http://example.com")] |});
    reflexivity.
Defined.

(* ================================================================== *)
(** ** What the walker has checked of a visited URL *)

Lemma before_first_none (sep : ascii) (s : string) :
  PyStr.mem_char sep s = false -> PyStr.before_first sep s = s.
Proof.
  induction s as [|c s IH]; [reflexivity|].
  cbn [PyStr.mem_char PyStr.before_first]. rewrite Ascii.eqb_sym.
  destruct (Ascii.eqb c sep); cbn [orb]; [discriminate|].
  intros H. rewrite (IH H). reflexivity.
Qed.

(** Cutting the anchor of a url that [is_url_valid] accepts leaves its
    scheme and its netloc as they are. *)
Lemma urlparse_cut_valid (h : string) :
  Utils.is_url_valid h = true ->
  UrlParse.urlparse (PyStr.before_first "#" h) = UrlParse.urlparse h.
Proof.
  intros H.
  destruct (UrlFacts.url_validator_parts h H)
    as (sch & hp & after & -> & Hsch & Halpha & _).
  assert (Htruthy : PyStr.truthy sch = true).
  { destruct sch; [destruct Hsch; discriminate|reflexivity]. }
  assert (Hcut : PyStr.before_first "#" (sch ++ "://" ++ hp ++ after)
                 = sch ++ "://" ++ PyStr.before_first "#" (hp ++ after)).
  { change (sch ++ "://" ++ hp ++ after) with (sch ++ ("://" ++ (hp ++ after))).
    rewrite before_first_app; [reflexivity|].
    revert Halpha. apply UrlFacts.all_chars_within, UrlFacts.class_within.
    vm_compute. reflexivity. }
  rewrite Hcut. apply UrlFacts.urlparse_same_netloc; [exact Halpha|exact Htruthy|].
  apply UrlFacts.splitnetloc_cut.
Qed.

(** What [validate_update_url] returns for a link is checked as a link. *)
Lemma validate_update_url_link (h dom nl : string) (up : UrlParse.ParseResult)
      (v : string) :
  UrlParse.urlparse h = Ok up ->
  SitemapObj.validate_update_url up h dom nl true = Ok (Some v) ->
  link_checked dom nl v.
Proof.
  intros Hp Hv. exists h, up.
  pose proof (urlparse_is_str _ Hp) as Hstr.
  pose proof Hv as Hv'.
  unfold SitemapObj.validate_update_url, UrlParse.netloc_is in Hv'.
  rewrite Hstr in Hv'. cbn [negb andb] in Hv'.
  destruct (PyStr.last_char dom); [|discriminate].
  destruct (String.eqb_spec (UrlParse.netloc up) "") as [He|He].
  - exists (dom ++ h).
    destruct (PyStr.truthy (dom ++ h)); cbn [negb] in Hv'; [|discriminate].
    destruct (Utils.is_url_valid (dom ++ h)) eqn:Hval; cbn [negb] in Hv';
      [|discriminate].
    destruct (PyStr.mem (dom ++ h) _); [discriminate|].
    injection Hv' as <-.
    split; [exact Hp|]. split; [exact Hv|]. split; [reflexivity|].
    split; [left; split; [exact He|reflexivity]|].
    intros Hno. rewrite (before_first_none _ _ Hno). exact Hval.
  - destruct (String.eqb_spec (UrlParse.netloc up) nl) as [Hn|Hn]; [|discriminate].
    exists h.
    destruct (PyStr.truthy h); cbn [negb] in Hv'; [|discriminate].
    destruct (Utils.is_url_valid h) eqn:Hval; cbn [negb] in Hv'; [|discriminate].
    destruct (PyStr.mem h _); [discriminate|].
    injection Hv' as <-.
    split; [exact Hp|]. split; [exact Hv|]. split; [reflexivity|].
    split.
    + right. split; [exact Hn|]. split; [reflexivity|].
      exists up. split; [|exact Hn].
      rewrite (urlparse_cut_valid _ Hval). exact Hp.
    + intros Hno. rewrite (before_first_none _ _ Hno). exact Hval.
Qed.

Section CheckedFacts.

Variable cfg : Conf.
Variable aiohttp_request : nat -> string -> string -> option Response.
Variable strptime : string -> option datetime.
Variable order : forall A : Type, list A -> list A.
Hypothesis order_perm : forall (A : Type) (l : list A), Permutation (order l) l.

(** The walker has the target [D], [N] and accounts for what it has
    visited and collected. *)
Let settled (d n D N : string) (st : state) : Prop :=
  domain st = D /\ netloc st = N /\ accounted d n st.

(** The links that [process] collects are made of links of the page. *)
Lemma process_adds_links (o : SitemapObj.t) (dom nl : string) (st : state)
      (v : string) :
  In v (nextlvl (snd (process cfg aiohttp_request o dom nl st))) ->
  In v (nextlvl st) \/ link_checked dom nl v.
Proof.
  unfold process, bind, __do_request.
  destruct (do_request_loop_result aiohttp_request "get" (SitemapObj.url o)
              (Z.to_nat (REQUEST_RETRY cfg)) st)
    as (k & _ & [(_ & ->) | (r & Hlt & Hr & ->)]).
  - cbn [snd ret]. auto.
  - intros Hv. destruct (process_links_from _ _ _ _ _ Hv)
      as [H|(href & up & Hh & Hu & Hval)]; [left; exact H|].
    right. destruct href as [h|].
    + exact (validate_update_url_link _ _ _ Hu Hval).
    + cbn [UrlParse.urlparse_href] in Hu. injection Hu as <-.
      unfold SitemapObj.validate_update_url, UrlParse.netloc_is in Hval.
      cbn in Hval. destruct (PyStr.last_char dom); discriminate.
Qed.

Lemma get_request_coro_settled (d n D N : string) (o : SitemapObj.t) :
  coro_keeps (settled d n D N) (__get_request_coro cfg aiohttp_request o).
Proof.
  intros st Hst. unfold __get_request_coro, bind, get, ret. cbn [fst snd].
  split; [exact Hst|]. intros t [= <-]. destruct Hst as (HD & HN & _).
  intros st1 (HD1 & HN1 & Hv1 & Hx1).
  pose proof (@process_adds_links o (domain st) (netloc st) st1) as Hadds.
  destruct (process_effect cfg aiohttp_request o (domain st) (netloc st) st1)
    as (rs & nx & Heq).
  rewrite Heq in *. unfold settled, accounted. simpl_state.
  split; [exact HD1|]. split; [exact HN1|]. split; [exact Hv1|].
  intros v Hv. destruct (Hadds v Hv) as [H|H]; [apply Hx1, H|].
  rewrite HD1, HN1, <- HD, <- HN. exact H.
Qed.

(** Past level 0 a HEAD coroutine for a url made of a link keeps the
    target; what it adds to the visited set is that url, or a redirect
    target that [validate_update_url] lets through. *)
Lemma head_request_coro_settled (d n D N : string) (lvlidx : Z) (url : string) :
  lvlidx <> 0%Z ->
  link_checked D N url ->
  coro_keeps (settled d n D N)
             (__head_request_coro cfg aiohttp_request strptime lvlidx url).
Proof.
  intros Hlvl Hurl st Hst. unfold __head_request_coro, bind, get, ret.
  destruct (in_visited url (visited st)); cbn [fst snd];
    (split; [exact Hst|]); [discriminate|].
  intros t [= <-]. clear st Hst. intros st (HD & HN & Hv & Hx).
  destruct (head_request_resume_cases cfg aiohttp_request strptime url lvlidx st)
    as (k & st1 & _ & Hst1 & Hcases).
  assert (Hinv1 : settled d n D N st1).
  { subst st1. repeat split; assumption. }
  assert (Hadd : forall obj,
             link_checked D N (SitemapObj.url obj)
             \/ canonical D N (SitemapObj.url obj) ->
             settled d n D N (accepted obj st1)).
  { intros obj Hobj. subst st1. unfold settled, accounted, accepted. simpl_state.
    split; [exact HD|]. split; [exact HN|]. split; [|exact Hx].
    intros o Ho. apply in_app_or in Ho as [Ho|[<-|[]]]; [apply Hv, Ho|].
    right. rewrite HD, HN. exact Hobj. }
  destruct Hcases as [-> | [(up & H0 & _) | (obj & Hk & _ & H)]];
    [exact Hinv1|congruence|].
  destruct H as [(Hobj & ->) | [(up & v & _ & Hup & Hval & ->) | (up & v & H0 & _)]];
    [| |congruence].
  - apply Hadd. left. rewrite Hobj. exact Hurl.
  - apply Hadd. right. rewrite <- HD, <- HN.
    eapply validate_update_url_checks; [exact Hup|exact Hval].
Qed.

Lemma traverse_loop_settled (d n D N : string) (depth : Z) (fuel : nat) :
  forall (lvlidx : Z) (thislvl : list string) (st : state),
    (1 <= lvlidx)%Z ->
    settled d n D N st ->
    Forall (link_checked D N) thislvl ->
    settled d n D N
      (snd (traverse_loop cfg aiohttp_request strptime order depth fuel
                          lvlidx thislvl st)).
Proof.
  induction fuel as [|fuel IH]; intros lvlidx thislvl st Hlvl Hst Hthis;
    [exact Hst|].
  destruct (traverse_loop cfg aiohttp_request strptime order depth (S fuel)
                          lvlidx thislvl st) as [r s] eqn:E.
  cbn [snd]. cbn [traverse_loop] in E.
  destruct thislvl as [|u thislvl].
  { injection E as <- <-. exact Hst. }
  unfold bind, modify, get, ret in E.
  set (st0 := set_nextlvl [] (set_objs [] st)) in E.
  assert (Hst0 : settled d n D N st0).
  { destruct Hst as (HD & HN & Hv & Hx). subst st0.
    unfold settled, accounted. simpl_state.
    split; [exact HD|]. split; [exact HN|]. split; [exact Hv|]. intros v []. }
  clearbody st0.
  assert (Hord : Forall (link_checked D N) (order (u :: thislvl))).
  { apply (Permutation_Forall (Permutation_sym (order_perm (u :: thislvl)))), Hthis. }
  pose proof (@group_execute_keeps_in state cfg order order_perm
                (settled d n D N) string PyStr.truthy
                (__head_request_coro cfg aiohttp_request strptime lvlidx)
                (order (u :: thislvl))
                (fun a Ha => @head_request_coro_settled d n D N lvlidx a
                               ltac:(lia)
                               (proj1 (Forall_forall _ _) Hord a Ha)) st0 Hst0)
    as Hhead.
  destruct (__group_execute_tasks cfg order PyStr.truthy _ _ st0) as [r1 st1].
  cbn [fst snd] in Hhead.
  destruct r1 as [[]|e]; [|injection E as <- <-; exact Hhead].
  destruct (lvlidx >=? depth)%Z; [injection E as <- <-; exact Hhead|].
  pose proof (@group_execute_keeps_in state cfg order order_perm
                (settled d n D N) SitemapObj.t (fun _ => true)
                (__get_request_coro cfg aiohttp_request) (objs st1)
                (fun a _ => @get_request_coro_settled d n D N a)
                st1 Hhead) as Hget.
  destruct (__group_execute_tasks cfg order (fun _ : SitemapObj.t => true) _ _ st1)
    as [r2 st2].
  cbn [fst snd] in Hget.
  destruct r2 as [[]|e]; [|injection E as <- <-; exact Hget].
  specialize (IH (lvlidx + 1)%Z (nextlvl st2) st2 ltac:(lia) Hget).
  rewrite E in IH. apply IH.
  destruct Hget as (HD & HN & _ & Hx). apply Forall_forall. intros v Hv.
  rewrite <- HD, <- HN. apply Hx, Hv.
Qed.

(** The HEAD phase of level 0 of a walker that has visited nothing: it
    accepts the seed under the target it was given, or a redirect target
    that [validate_update_url] lets through for the new target. *)
Lemma seed_head_phase_settled (st : state) :
  visited st = [] -> nextlvl st = [] ->
  accounted (domain st) (netloc st)
    (snd (__group_execute_tasks cfg order PyStr.truthy
            (__head_request_coro cfg aiohttp_request strptime 0)
            (order [domain st]) st)).
Proof.
  intros Hvis Hnx.
  assert (Hempty : forall s, visited s = [] -> nextlvl s = [] ->
                             accounted (domain st) (netloc st) s).
  { intros s Hs Hx. split; [intros o Ho; rewrite Hs in Ho|intros v Hv; rewrite Hx in Hv];
      contradiction. }
  rewrite (head_phase_of_the_seed cfg aiohttp_request strptime order order_perm).
  destruct (SELECTOR_LIMIT cfg <=? 0)%Z; [apply Hempty; assumption|].
  destruct (PyStr.truthy (domain st)); [|apply Hempty; assumption].
  destruct (in_visited (domain st) (visited st)); [apply Hempty; assumption|].
  cbn [snd].
  destruct (head_request_resume_cases cfg aiohttp_request strptime (domain st) 0 st)
    as (k & st1 & _ & Hst1 & Hcases).
  assert (Hvis1 : visited st1 = []) by (subst st1; exact Hvis).
  assert (Hnx1 : nextlvl st1 = []) by (subst st1; exact Hnx).
  destruct Hcases as [-> | [(up & _ & ->) | (obj & Hk & _ & H)]];
    [apply Hempty; assumption|apply Hempty; assumption|].
  destruct H as [(Hurl & ->) | [(up & v & H0 & _) | (up & v & _ & Hup & Hv & ->)]];
    [|congruence|].
  - split.
    + intros o Ho. cbn in Ho. rewrite Hvis1 in Ho. destruct Ho as [<-|[]].
      left. subst st1. split; [exact Hurl|]. split; reflexivity.
    + intros v Hv. cbn in Hv. rewrite Hnx1 in Hv. destruct Hv.
  - split.
    + intros o Ho. cbn in Ho. rewrite Hvis1 in Ho. destruct Ho as [<-|[]].
      right; right. cbn [domain netloc accepted set_visited set_objs set_target].
      eapply validate_update_url_checks; [exact Hup|exact Hv].
    + intros x Hx. cbn in Hx. rewrite Hnx1 in Hx. destruct Hx.
Qed.

(** A crawl accounts for every URL it has visited. *)
Lemma traverse_links_accounted (depth : Z) (d n : string) :
  accounted d n
    (snd (traverse_links cfg aiohttp_request strptime order depth (walker_init d n))).
Proof.
  destruct (traverse_links cfg aiohttp_request strptime order depth (walker_init d n))
    as [r s] eqn:E.
  cbn [snd]. unfold traverse_links, bind, get in E. cbn [traverse_loop] in E.
  unfold bind, modify, get, ret in E.
  set (st0 := set_nextlvl [] (set_objs [] (walker_init d n))) in E.
  pose proof (@seed_head_phase_settled st0 eq_refl eq_refl) as Hhead.
  change (domain (walker_init d n)) with (domain st0) in E.
  change (domain st0) with d in Hhead at 1. change (netloc st0) with n in Hhead.
  destruct (__group_execute_tasks cfg order PyStr.truthy _ _ st0) as [r1 st1].
  cbn [fst snd] in Hhead.
  destruct r1 as [[]|e]; [|injection E as <- <-; exact Hhead].
  destruct (0 >=? depth)%Z; [injection E as <- <-; exact Hhead|].
  assert (Hst1 : settled d n (domain st1) (netloc st1) st1)
    by (split; [reflexivity|split; [reflexivity|exact Hhead]]).
  pose proof (@group_execute_keeps_in state cfg order order_perm
                (settled d n (domain st1) (netloc st1)) SitemapObj.t (fun _ => true)
                (__get_request_coro cfg aiohttp_request) (objs st1)
                (fun a _ => @get_request_coro_settled d n (domain st1) (netloc st1) a)
                st1 Hst1) as Hget.
  destruct (__group_execute_tasks cfg order (fun _ : SitemapObj.t => true) _ _ st1)
    as [r2 st2].
  cbn [fst snd] in Hget.
  destruct r2 as [[]|e]; [|injection E as <- <-; apply Hget].
  pose proof (@traverse_loop_settled d n (domain st1) (netloc st1) depth
                (Z.to_nat depth) (0 + 1)%Z (nextlvl st2) st2 ltac:(lia) Hget) as Hloop.
  rewrite E in Hloop. apply Hloop.
  destruct Hget as (HD & HN & _ & Hx). apply Forall_forall. intros v Hv.
  rewrite <- HD, <- HN. apply Hx, Hv.
Qed.

End CheckedFacts.

(** C5, amended.  The turns given to the loop of a crawl suffice, and
    every descriptor the crawl has visited is accounted for.  Its URL is
    the seed, which the walker asks for as it was given and accepts when
    the site answers under it, the walker then keeping the target it was
    made with; or it is what [validate_update_url] returned for a link of
    a page: the part before the anchor of the link, the host of which is
    the netloc, when the link names a host, and of the link glued to the
    domain when it names none, a URL that [is_url_valid] accepts when
    the link has no anchor; or a redirect led to it and
    [validate_update_url] lets it through for the target of the walker
    (the new one after a redirect of the seed): its host is the netloc
    and [is_url_valid] accepts it, or it names no host and is accepted
    once glued to the domain.  So for a walker made, as the handler makes
    it, with a seed that [is_url_valid] accepts and with the host of the
    seed, the host is the netloc and [is_url_valid] accepts the URL but
    for a link that names no host or carries an anchor. *)
Theorem visited_urls_are_checked
        (cfg : Conf) (aiohttp_request : nat -> string -> string -> option Response)
        (strptime : string -> option datetime)
        (order : forall A : Type, list A -> list A) :
  (forall (A : Type) (l : list A), Permutation (order A l) l) ->
  forall (depth : Z) (d n : string),
    let final :=
      snd (traverse_links cfg aiohttp_request strptime order depth (walker_init d n))
    in
    fst (traverse_links cfg aiohttp_request strptime order depth (walker_init d n))
    <> Ok None
    /\ (forall o : SitemapObj.t,
           In o (visited final) ->
           (SitemapObj.url o = d /\ domain final = d /\ netloc final = n)
           \/ link_checked (domain final) (netloc final) (SitemapObj.url o)
           \/ canonical (domain final) (netloc final) (SitemapObj.url o))
    /\ (forall p : UrlParse.ParseResult,
           Utils.is_url_valid d = true ->
           UrlParse.urlparse d = Ok p ->
           UrlParse.netloc p = n ->
           forall o : SitemapObj.t,
             In o (visited final) ->
             (exists q,
                 UrlParse.urlparse (SitemapObj.url o) = Ok q
                 /\ UrlParse.netloc q = netloc final
                 /\ Utils.is_url_valid (SitemapObj.url o) = true)
             \/ link_checked (domain final) (netloc final) (SitemapObj.url o)
             \/ (exists q,
                    UrlParse.urlparse (SitemapObj.url o) = Ok q
                    /\ UrlParse.netloc q = ""
                    /\ Utils.is_url_valid (domain final ++ SitemapObj.url o) = true)).
Proof.
  intros Hperm depth d n final.
  pose proof (traverse_links_accounted cfg aiohttp_request strptime order Hperm
                depth d n) as [Hacc _].
  fold final in Hacc.
  split; [unfold traverse_links, bind, get; apply traverse_loop_ends; lia|].
  split; [exact Hacc|].
  intros p Hvalid Hp Hn o Ho.
  destruct (Hacc o Ho) as [(Hu & HD & HN) | [H | (q & Hq & [(H1 & H2) | (H1 & H2)])]].
  - left. exists p. rewrite Hu, HN. auto.
  - right; left. exact H.
  - left. exists q. auto.
  - right; right. exists q. auto.
Qed.

(** The crawl of the site [Site.dotted] from [http://example.com], which
    [is_url_valid] accepts and whose host is [example.com]. *)
Lemma visited_urls_are_checked_witness :
  let final :=
    snd (traverse_links conf Site.dotted HttpDate.strptime Site.in_order 3
                        (walker_init "http://example.com" "example.com")) in
  (forall (A : Type) (l : list A), Permutation (Site.in_order l) l)
  /\ Utils.is_url_valid "http://example.com" = true
  /\ UrlParse.urlparse "http://example.com"
     = Ok {| UrlParse.scheme := "http"; UrlParse.netloc := "example.com";
             UrlParse.bytes_result := false |}
  /\ fst (traverse_links conf Site.dotted HttpDate.strptime Site.in_order 3
                         (walker_init "http://example.com" "example.com"))
     <> Ok None
  /\ forall o : SitemapObj.t,
      In o (visited final) ->
      (exists q,
          UrlParse.urlparse (SitemapObj.url o) = Ok q
          /\ UrlParse.netloc q = netloc final
          /\ Utils.is_url_valid (SitemapObj.url o) = true)
      \/ link_checked (domain final) (netloc final) (SitemapObj.url o)
      \/ (exists q,
             UrlParse.urlparse (SitemapObj.url o) = Ok q
             /\ UrlParse.netloc q = ""
             /\ Utils.is_url_valid (domain final ++ SitemapObj.url o) = true).
Proof.
  intros final.
  assert (Hvalid : Utils.is_url_valid "http://example.com" = true)
    by (vm_compute; reflexivity).
  assert (Hp : UrlParse.urlparse "http://example.com"
               = Ok {| UrlParse.scheme := "http"; UrlParse.netloc := "example.com";
                       UrlParse.bytes_result := false |})
    by (vm_compute; reflexivity).
  destruct (@visited_urls_are_checked conf Site.dotted HttpDate.strptime Site.in_order
              (fun A l => Permutation_refl l) 3%Z "http://example.com" "example.com")
    as (Hends & _ & Hacc).
  split; [intros A l; apply Permutation_refl|].
  split; [exact Hvalid|]. split; [exact Hp|]. split; [exact Hends|].
  exact (Hacc _ Hvalid Hp eq_refl).
Defined.
